(** * Canvas-Backend: role-scoped access control and the lead lifecycle

    A shallow embedding of the request handlers of the canvassing CRM backend
    that carry its access-control and points rules:

    - [check_lead_access], [check_user_access], [generate_lead_id]
                                                     (services/helpers.py)
    - [create_user], [update_user], [delete_user], [reactivate_user], the
      filter and the page count of [list_users]     (routes/users.py)
    - [create_lead_with_notifications], [approve_lead], [mark_lead_sold],
      [mark_superstar_lead], the flags and the filter of [list_leads], the
      filters of [get_lead_stats] and [get_pending_approvals]
                                                     (routes/leads.py)
    - [create_competition], [update_competition], [delete_competition]
                                                     (routes/competitions.py)
    - [login]                                        (routes/auth.py)
    - [get_current_user_from_token]                  (core/security.py)

    Conventions of the embedding.

    - The document store is an explicit value [Db]; a collection is the list
      of its documents in natural order, [find_one] returns the first match
      and [update_one] rewrites the first match, as pymongo does.
    - A handler is a computation in the monad [M]: it threads the store and
      ends either with a response or with a raised exception.  The store
      reached when an exception is raised is kept, because writes made before
      a [raise] are not rolled back.
    - [datetime.utcnow()] is the handler argument [now]; the successive clock
      readings of one request are identified.
    - A handler starts from the authenticated identity [CurrentUser] that
      [get_current_user_from_token] returns.
    - The route modules call helpers by their bare names; each name is
      resolved to its definition in services/helpers.py.
    - [Db] holds the collections users, leads and competitions.  The
      notification helpers and [save_property_photo] write to other
      collections (the photo before the lead is inserted, so that it stays
      when the creation then fails); their calls are taken to return, and a
      statement that a store is unchanged speaks of the three collections
      of [Db] only.
    - Identifiers are ASCII, so that [len] of a [str] is [String.length].
    - Python [int] is [Z].  pymongo encodes an [int] of at most 8 bytes and
      raises [OverflowError] on a larger one before anything is sent: where
      a handler puts a number of the request, or one computed from it, into
      an update ([award_points], [mark_superstar_lead], [update_user]) this
      is [encode_int].  The balances already stored are taken to be small
      enough for the sums that [$inc] forms.
    - Python [float] is IEEE binary64, modelled by the Standard Library's
      [spec_float] with its executable operations. *)

From Stdlib Require Import ZArith List String Ascii Bool Lia.
From Stdlib Require Import Floats.SpecFloat.
From Stdlib Require DecimalString.
Import ListNotations.

Local Open Scope string_scope.
Local Open Scope list_scope.
Local Open Scope Z_scope.

(* ================================================================== *)
(** * Python values *)

Module Py.

(** [s1 == s2] on [Optional[str]] values ([None == None] holds). *)
Definition opt_eqb (a b : option string) : bool :=
  match a, b with
  | Some x, Some y => String.eqb x y
  | None, None => true
  | _, _ => false
  end.

(** Truth value of a [str]. *)
Definition truthy (s : string) : bool := negb (String.eqb s "").

(** Truth value of an [Optional[str]]. *)
Definition truthy_opt (o : option string) : bool :=
  match o with
  | Some s => truthy s
  | None => false
  end.

(** [x in l] for a list of strings. *)
Definition in_list (x : string) (l : list string) : bool :=
  existsb (String.eqb x) l.

(** [d.get(k, default)] for a dict literal written as an association list. *)
Fixpoint dict_get {V : Type} (k : string) (d : list (string * V)) (default : V) : V :=
  match d with
  | [] => default
  | (k', v) :: d' => if String.eqb k k' then v else dict_get k d' default
  end.

(** [c in s] for a one-character needle. *)
Fixpoint contains (c : ascii) (s : string) : bool :=
  match s with
  | EmptyString => false
  | String c' s' => Ascii.eqb c c' || contains c s'
  end.

(** [s.split(c)[-1]]: what follows the last occurrence of [c]. *)
Fixpoint split_last_from (c : ascii) (s acc : string) : string :=
  match s with
  | EmptyString => acc
  | String c' s' =>
      if Ascii.eqb c c' then split_last_from c s' ""
      else split_last_from c s' (acc ++ String c' "")%string
  end.

Definition split_last (c : ascii) (s : string) : string := split_last_from c s "".

(** [str(n)] for an [int]. *)
Definition str (n : Z) : string := DecimalString.NilZero.string_of_int (Z.to_int n).

Fixpoint zeros (n : nat) : string :=
  match n with
  | O => ""
  | S n' => String "0" (zeros n')
  end.

(** [s.zfill(width)] for an unsigned numeral. *)
Definition zfill (width : nat) (s : string) : string :=
  (zeros (width - String.length s) ++ s)%string.

(** [len(l)] as a Python [int]. *)
Definition len {A : Type} (l : list A) : Z := Z.of_nat (List.length l).

Definition is_hex_digit (c : ascii) : bool :=
  let n := nat_of_ascii c in
  ((48 <=? n) && (n <=? 57) || (65 <=? n) && (n <=? 70) || (97 <=? n) && (n <=? 102))%nat.

Definition lower (c : ascii) : ascii :=
  let n := nat_of_ascii c in
  if ((65 <=? n) && (n <=? 90))%nat then ascii_of_nat (n + 32) else c.

Fixpoint all_hex (s : string) : bool :=
  match s with
  | EmptyString => true
  | String c s' => is_hex_digit c && all_hex s'
  end.

Fixpoint lowercase (s : string) : string :=
  match s with
  | EmptyString => EmptyString
  | String c s' => String (lower c) (lowercase s')
  end.

(** An [int] that fits in 8 bytes, the largest integer that pymongo
    encodes. *)
Definition int64 (n : Z) : bool := (- 2 ^ 63 <=? n) && (n <? 2 ^ 63).

End Py.

(* ================================================================== *)
(** * Binary64 floats *)

Module Float.

Definition float := spec_float.
Definition prec : Z := 53.
Definition emax : Z := 1024.

(** [x * y] on Python floats. *)
Definition mul (x y : float) : float := SFmul prec emax x y.

(** The literal [0.01]: the binary64 value nearest to 1/100. *)
Definition lit_0_01 : float := S754_finite false 5764607523034235 (-59).

(** Integer literals used as test data. *)
Definition of_Z (z : Z) : float := binary_normalize prec emax z 0 false.

(** The magnitude of a finite float [m * 2^e], truncated to an integer. *)
Definition trunc_mag (m : positive) (e : Z) : Z :=
  if 0 <=? e then Zpos m * 2 ^ e else Zpos m / 2 ^ (- e).

(** [int(x)]: truncation toward zero; [None] stands for the [ValueError]
    of a NaN and the [OverflowError] of an infinity. *)
Definition int (x : float) : option Z :=
  match x with
  | S754_zero _ => Some 0
  | S754_finite s m e => Some (if s then - trunc_mag m e else trunc_mag m e)
  | S754_infinity _ => None
  | S754_nan => None
  end.

(** [str(e)] of the exception that [int(x)] raises. *)
Definition int_error (x : float) : string :=
  match x with
  | S754_nan => "cannot convert float NaN to integer"
  | _ => "cannot convert float infinity to integer"
  end.



End Float.

Definition float : Type := Float.float.

(** A [datetime], as a count of microseconds.  The dates of a competition
    request are taken to carry a time zone: [create_competition] compares
    them with [datetime.now(timezone.utc)], which is a [TypeError] for a
    naive date. *)
Definition datetime : Type := Z.

(* ================================================================== *)
(** * Documents *)

(** The entry pushed on a user's [points_history].  [reason] keeps the
    pieces that the source interpolates into its f-string. *)
Inductive Reason : Type :=
| CreatedLead (lead_id : string)
    (** f"Created lead: {lead_id}" *)
| LeadApproved (lead_id : string)
    (** f"Lead approved: {lead['lead_id']}" *)
| LeadSoldFor (lead_id : string) (sale_amount : float)
    (** f"Lead sold: {lead['lead_id']} - ${sale_data.sale_amount}" *)
| SuperstarLeadPriority (lead_id : string) (priority_level : Z)
    (** f"Superstar lead: {lead['lead_id']} - Priority {priority_level}" *)
| ManualUpdate.
    (** "Manual update via API" *)

Record PointsEntry : Type := {
  pe_action : string;
  pe_points : Z;
  pe_old_value : option Z;
  pe_new_value : option Z;
  pe_reason : Reason;
  pe_updated_by : option string;
  pe_timestamp : datetime
}.

(** A document of [db.users]. *)
Record User : Type := {
  u_id : string;                       (* str(user["_id"]) *)
  u_username : string;
  u_email : option string;
  u_role : string;
  u_organization_id : option string;
  u_manager_id : option string;
  u_first_name : option string;
  u_last_name : option string;
  u_phone : option string;
  u_is_active : bool;
  u_terms_accepted : bool;
  u_points : Z;
  u_points_history : list PointsEntry;
  u_updated_at : option datetime;
  u_updated_by : option string
}.

(** The identity returned by [get_current_user_from_token]. *)
Record CurrentUser : Type := {
  cu_id : string;
  cu_username : string;
  cu_role : string;
  cu_organization_id : option string;
  cu_email : option string
}.

Record LocationInfo : Type := {
  loc_latitude : float;
  loc_longitude : float;
  loc_address : string;
  loc_accuracy : option float
}.

(** Request body [LeadCreate]. *)
Record LeadCreate : Type := {
  lc_client_name : string;
  lc_phone_number : string;
  lc_email : option string;
  lc_address : string;
  lc_marital_status : string;
  lc_property_photo_base64 : option string;
  lc_location : LocationInfo;
  lc_preferred_appointment_time : datetime;
  lc_products_interested : list string;
  lc_notes : option string
}.

Record SuperstarInfo : Type := {
  si_reason : string;
  si_priority_level : Z;
  si_special_notes : option string;
  si_marked_by : string;
  si_marked_at : datetime
}.

Record QuickbaseSync : Type := {
  qb_record_id : option string;
  qb_sync_status : string;
  qb_sync_error : option string;
  qb_synced_at : option datetime
}.

(** A document of [db.leads]. *)
Record Lead : Type := {
  l_id : string;                       (* str(lead["_id"]) *)
  l_lead_id : string;
  l_client_name : string;
  l_phone_number : string;
  l_email : option string;
  l_address : string;
  l_marital_status : string;
  l_property_photo_id : option string;
  l_location : LocationInfo;
  l_preferred_appointment_time : datetime;
  l_products_interested : list string;
  l_notes : option string;
  l_lead_status : string;
  l_created_by : option string;
  l_organization_id : option string;
  l_assigned_manager : option string;
  l_approved_by : option string;
  l_approval_timestamp : option datetime;
  l_approval_notes : option string;
  l_rejection_reason : option string;
  l_sale_amount : option float;
  l_sale_date : option datetime;
  l_sale_notes : option string;
  l_sold_by : option string;
  l_superstar_info : option SuperstarInfo;
  l_quickbase : option QuickbaseSync;
  l_created_at : datetime;
  l_time_info : datetime;
  l_updated_at : option datetime;
  l_is_active : bool
}.

(** Request body [CompetitionCreate]. *)
Record CompetitionCreate : Type := {
  cc_title : string;
  cc_description : string;
  cc_competition_type : string;
  cc_start_date : datetime;
  cc_end_date : datetime;
  cc_prize_description : string;
  cc_prize_points : Z;
  cc_target_roles : list string;
  cc_organization_specific : bool;
  cc_min_participants : Z;
  cc_is_active : bool;
  cc_participant_selection_mode : string;
  cc_selected_participants : option (list string)
}.

(** A document of [db.competitions]. *)
Record Competition : Type := {
  c_id : string;
  c_competition_id : string;
  c_title : string;
  c_description : string;
  c_competition_type : string;
  c_start_date : datetime;
  c_end_date : datetime;
  c_prize_description : string;
  c_prize_points : Z;
  c_target_roles : list string;
  c_organization_id : string;
  c_min_participants : Z;
  c_status : string;
  c_is_active : bool;
  c_participant_selection_mode : string;
  c_selected_participants : option (list string);
  c_created_by : string;
  c_created_at : datetime;
  c_winner : option string
}.

(** The collections of the store that the handlers below touch. *)
Record Db : Type := {
  users : list User;
  leads : list Lead;
  competitions : list Competition
}.

Definition set_users (f : list User -> list User) (db : Db) : Db :=
  {| users := f (users db); leads := leads db; competitions := competitions db |}.

Definition set_leads (f : list Lead -> list Lead) (db : Db) : Db :=
  {| users := users db; leads := f (leads db); competitions := competitions db |}.

Definition set_competitions (f : list Competition -> list Competition) (db : Db) : Db :=
  {| users := users db; leads := leads db; competitions := f (competitions db) |}.

(* ================================================================== *)
(** * Collection primitives *)

Module Mongo.
Section Collection.
Context {A : Type}.

(** [coll.find_one(filter)] *)
Definition find_one (p : A -> bool) (coll : list A) : option A := List.find p coll.

(** [coll.update_one(filter, update)]: the first match is rewritten. *)
Fixpoint update_one (p : A -> bool) (f : A -> A) (coll : list A) : list A :=
  match coll with
  | [] => []
  | x :: rest => if p x then f x :: rest else x :: update_one p f rest
  end.

(** [coll.count_documents(filter)] *)
Definition count_documents (p : A -> bool) (coll : list A) : Z :=
  Py.len (List.filter p coll).

(** [coll.insert_one(doc)] once the unique indexes have accepted [doc]. *)
Definition insert_one (doc : A) (coll : list A) : list A := coll ++ [doc].
End Collection.
End Mongo.

(* ================================================================== *)
(** * Exceptions and the handler monad *)

Inductive Raised : Type :=
| HTTPException (status_code : Z) (detail : string)
| Exception (what : string).

Definition HTTP_400_BAD_REQUEST : Z := 400.
Definition HTTP_403_FORBIDDEN : Z := 403.
Definition HTTP_404_NOT_FOUND : Z := 404.
Definition HTTP_500_INTERNAL_SERVER_ERROR : Z := 500.

Inductive Outcome (A : Type) : Type :=
| Return (a : A)
| Raise (e : Raised).

Arguments Return {A} a.
Arguments Raise {A} e.

Definition M (A : Type) : Type := Db -> Db * Outcome A.

Definition ret {A : Type} (a : A) : M A := fun db => (db, Return a).

Definition bind {A B : Type} (m : M A) (k : A -> M B) : M B :=
  fun db =>
    match m db with
    | (db', Return a) => k a db'
    | (db', Raise e) => (db', Raise e)
    end.

Definition raise {A : Type} (e : Raised) : M A := fun db => (db, Raise e).

Definition gets {A : Type} (f : Db -> A) : M A := fun db => (db, Return (f db)).

Definition modify (f : Db -> Db) : M unit := fun db => (f db, Return tt).

(** [if cond: raise e] *)
Definition raise_if (cond : bool) (e : Raised) : M unit :=
  if cond then raise e else ret tt.

(** [try: body / except HTTPException: raise / except Exception as e:
     raise HTTPException(500, f"{prefix}: {str(e)}")] *)
Definition try_except {A : Type} (prefix : string) (body : M A) : M A :=
  fun db =>
    match body db with
    | (db', Raise (Exception what)) =>
        (db', Raise (HTTPException HTTP_500_INTERNAL_SERVER_ERROR (prefix ++ ": " ++ what)%string))
    | r => r
    end.

(** [try: body / except Exception as e: raise HTTPException(500, ...)],
    without the clause that lets an [HTTPException] through. *)
Definition try_except_all {A : Type} (prefix : string) (body : M A) : M A :=
  fun db =>
    match body db with
    | (db', Raise (Exception what)) =>
        (db', Raise (HTTPException HTTP_500_INTERNAL_SERVER_ERROR (prefix ++ ": " ++ what)%string))
    | (db', Raise (HTTPException code detail)) =>
        (db', Raise (HTTPException HTTP_500_INTERNAL_SERVER_ERROR
                       (prefix ++ ": " ++ Py.str code ++ ": " ++ detail)%string))
    | r => r
    end.

Declare Scope handler_scope.
Delimit Scope handler_scope with handler.
Bind Scope handler_scope with M.

Notation "x <- m ;; k" := (bind m (fun x => k))
  (at level 61, m at next level, right associativity) : handler_scope.
Notation "m ;; k" := (bind m (fun _ => k))
  (at level 61, right associativity) : handler_scope.

Local Open Scope handler_scope.

(** The canonical form of a 24-character hexadecimal string. *)
Definition parse_object_id (s : string) : option string :=
  if (Nat.eqb (String.length s) 24 && Py.all_hex s)%bool then Some (Py.lowercase s)
  else None.

(** [ObjectId(s)]; anything but 24 hexadecimal characters is [InvalidId]. *)
Definition ObjectId (s : string) : M string :=
  match parse_object_id s with
  | Some oid => ret oid
  | None => raise (Exception "InvalidId")
  end.

(** The [OverflowError] with which pymongo refuses to encode a document
    that holds an [int] beyond 8 bytes; nothing is sent to the server. *)
Definition bson_overflow : Raised := Exception "MongoDB can only handle up to 8-byte ints".

(** Encoding a document whose only unbounded [int] is [n]. *)
Definition encode_int (n : Z) : M unit := raise_if (negb (Py.int64 n)) bson_overflow.

(* ================================================================== *)
(** * services/helpers.py: access checks *)

Definition by_username (username : string) (u : User) : bool :=
  String.eqb (u_username u) username.

Definition by_user_id (oid : string) (u : User) : bool :=
  String.eqb (u_id u) oid.

(** [users_collection.find_one({"username": username})]; a [None] key
    matches no document, every user document carrying a username. *)
Definition find_user (username : option string) (db : Db) : option User :=
  match username with
  | Some name => Mongo.find_one (by_username name) (users db)
  | None => None
  end.

Definition check_lead_access (db : Db) (current_user : CurrentUser) (lead : Lead) : bool :=
  if String.eqb (cu_role current_user) "super_admin" then true
  else if String.eqb (cu_role current_user) "admin_manager" then
    Py.opt_eqb (l_organization_id lead) (cu_organization_id current_user)
  else if String.eqb (cu_role current_user) "manager" then
    if negb (Py.opt_eqb (l_organization_id lead) (cu_organization_id current_user)) then false
    else
      match find_user (l_created_by lead) db with
      | Some creator =>
          if Py.opt_eqb (u_manager_id creator) (Some (cu_username current_user)) then true
          else false
      | None => false
      end
  else if String.eqb (cu_role current_user) "canvasser" then
    Py.opt_eqb (l_created_by lead) (Some (cu_username current_user))
  else false.

Definition check_user_access (current_user : CurrentUser) (target_user : User) : bool :=
  if String.eqb (cu_role current_user) "super_admin" then true
  else if String.eqb (cu_role current_user) "admin_manager" then
    Py.opt_eqb (u_organization_id target_user) (cu_organization_id current_user)
  else if String.eqb (cu_role current_user) "manager" then
    if String.eqb (u_id target_user) (cu_id current_user) then true
    else Py.opt_eqb (u_manager_id target_user) (Some (cu_username current_user))
         && String.eqb (u_role target_user) "canvasser"
  else if String.eqb (cu_role current_user) "canvasser" then
    String.eqb (u_id target_user) (cu_id current_user)
  else false.

(* ================================================================== *)
(** * routes/users.py: update_user *)

(** Request body [UserUpdate]. *)
Record UserUpdate : Type := {
  uu_username : option string;
  uu_email : option string;
  uu_role : option string;
  uu_organization_id : option string;
  uu_manager_id : option string;
  uu_first_name : option string;
  uu_last_name : option string;
  uu_phone : option string;
  uu_is_active : option bool;
  uu_points : option Z;
  uu_terms_accepted : option bool
}.

(** The dict [update_data]: a key is present when its field is [Some]. *)
Record UserSet : Type := {
  us_username : option string;
  us_email : option string;
  us_role : option string;
  us_organization_id : option string;
  us_first_name : option string;
  us_last_name : option string;
  us_phone : option string;
  us_manager_id : option string;
  us_terms_accepted : option bool;
  us_is_active : option bool;
  us_points : option Z
}.

Definition or_keep {A : Type} (new : option A) (old : A) : A :=
  match new with
  | Some v => v
  | None => old
  end.

Definition or_keep_opt {A : Type} (new : option A) (old : option A) : option A :=
  match new with
  | Some v => Some v
  | None => old
  end.

(** [{"$set": update_data}] together with the two keys added last. *)
Definition apply_user_set (d : UserSet) (updated_at : datetime) (updated_by : string)
    (u : User) : User :=
  {| u_id := u_id u;
     u_username := or_keep (us_username d) (u_username u);
     u_email := or_keep_opt (us_email d) (u_email u);
     u_role := or_keep (us_role d) (u_role u);
     u_organization_id := or_keep_opt (us_organization_id d) (u_organization_id u);
     u_manager_id := or_keep_opt (us_manager_id d) (u_manager_id u);
     u_first_name := or_keep_opt (us_first_name d) (u_first_name u);
     u_last_name := or_keep_opt (us_last_name d) (u_last_name u);
     u_phone := or_keep_opt (us_phone d) (u_phone u);
     u_is_active := or_keep (us_is_active d) (u_is_active u);
     u_terms_accepted := or_keep (us_terms_accepted d) (u_terms_accepted u);
     u_points := or_keep (us_points d) (u_points u);
     u_points_history := u_points_history u;
     u_updated_at := Some updated_at;
     u_updated_by := Some updated_by |}.

(** [not update_data] *)
Definition user_set_is_empty (d : UserSet) : bool :=
  match us_username d, us_email d, us_role d, us_organization_id d,
        us_first_name d, us_last_name d, us_phone d, us_manager_id d,
        us_terms_accepted d, us_is_active d, us_points d with
  | None, None, None, None, None, None, None, None, None, None, None => true
  | _, _, _, _, _, _, _, _, _, _, _ => false
  end.

(** [{"$inc": {"points": n}, "$push": {"points_history": entry}}] *)
Definition inc_points_push (n : Z) (entry : PointsEntry) (u : User) : User :=
  {| u_id := u_id u;
     u_username := u_username u;
     u_email := u_email u;
     u_role := u_role u;
     u_organization_id := u_organization_id u;
     u_manager_id := u_manager_id u;
     u_first_name := u_first_name u;
     u_last_name := u_last_name u;
     u_phone := u_phone u;
     u_is_active := u_is_active u;
     u_terms_accepted := u_terms_accepted u;
     u_points := u_points u + n;
     u_points_history := u_points_history u ++ [entry];
     u_updated_at := u_updated_at u;
     u_updated_by := u_updated_by u |}.

(** [{"$push": {"points_history": entry}}] *)
Definition push_history (entry : PointsEntry) (u : User) : User := inc_points_push 0 entry u.

(** The entry of the three lead awards: action "add", no old/new value. *)
Definition add_entry (n : Z) (reason : Reason) (now : datetime) : PointsEntry :=
  {| pe_action := "add";
     pe_points := n;
     pe_old_value := None;
     pe_new_value := None;
     pe_reason := reason;
     pe_updated_by := None;
     pe_timestamp := now |}.

(** The block "ROLE-BASED UPDATE PERMISSIONS": the value of [can_update]. *)
Definition can_update (current_user : CurrentUser) (target_user : User) : bool :=
  let current_role := cu_role current_user in
  let target_role := u_role target_user in
  if String.eqb current_role "super_admin" then true
  else if String.eqb current_role "admin_manager" then
    if Py.opt_eqb (u_organization_id target_user) (cu_organization_id current_user) then
      if negb (Py.in_list target_role ["super_admin"; "admin_manager"]) then true
      else if String.eqb target_role "admin_manager"
              && String.eqb (u_id target_user) (cu_id current_user) then true
      else false
    else false
  else if String.eqb current_role "manager" then
    if String.eqb (u_id target_user) (cu_id current_user) then true
    else if Py.opt_eqb (u_manager_id target_user) (Some (cu_username current_user))
            && String.eqb target_role "canvasser" then true
    else false
  else if String.eqb current_role "canvasser" then
    if String.eqb (u_id target_user) (cu_id current_user) then true else false
  else false.

Definition role_change_permissions : list (string * list string) :=
  [ ("super_admin", ["super_admin"; "admin_manager"; "manager"; "canvasser"]);
    ("admin_manager", ["manager"; "canvasser"]);
    ("manager", []);
    ("canvasser", []) ].

(** [user_update.role and user_update.role != target_role] *)
Definition role_change_requested (user_update : UserUpdate) (target_role : string) : bool :=
  match uu_role user_update with
  | Some r => Py.truthy r && negb (String.eqb r target_role)
  | None => false
  end.

(** The block "ROLE CHANGE VALIDATION". *)
Definition role_change_validation (current_role : string) (user_update : UserUpdate)
    (target_role : string) : M unit :=
  if role_change_requested user_update target_role then
    let allowed_target_roles := Py.dict_get current_role role_change_permissions [] in
    let new_role := or_keep (uu_role user_update) "" in
    raise_if (negb (Py.in_list new_role allowed_target_roles))
      (HTTPException HTTP_403_FORBIDDEN
         (current_role ++ " cannot change user role to " ++ new_role)%string)
  else ret tt.

(** The first of [restricted_fields] that the request sets. *)
Definition first_restricted_field (user_update : UserUpdate) : option string :=
  match uu_role user_update with Some _ => Some "role" | None =>
  match uu_organization_id user_update with Some _ => Some "organization_id" | None =>
  match uu_manager_id user_update with Some _ => Some "manager_id" | None =>
  match uu_is_active user_update with Some _ => Some "is_active" | None =>
  match uu_points user_update with Some _ => Some "points" | None => None
  end end end end end.

(** The block "RESTRICT FIELDS CANVASSERS CAN UPDATE". *)
Definition canvasser_restriction (current_role : string) (user_update : UserUpdate) : M unit :=
  if String.eqb current_role "canvasser" then
    match first_restricted_field user_update with
    | Some field =>
        raise (HTTPException HTTP_403_FORBIDDEN
                 ("Canvassers cannot update the '" ++ field ++ "' field")%string)
    | None => ret tt
    end
  else ret tt.

Record UpdateUserResponse : Type := {
  uur_message : string;
  uur_user_id : string;
  uur_updated_by_role : string;
  uur_user : User
}.

(** The blocks from "Build update document" to the response. *)
Definition write_user_update (user_id oid : string) (user_update : UserUpdate)
    (current_user : CurrentUser) (target_user : User) (now : datetime)
    : M UpdateUserResponse :=
  let current_role := cu_role current_user in
  let target_role := u_role target_user in
  (* username, checked against the existing ones *)
  d_username <-
    match uu_username user_update with
    | Some name =>
        if Py.truthy name && negb (String.eqb name (u_username target_user)) then
          existing_user <- gets (find_user (Some name)) ;;
          match existing_user with
          | Some _ => raise (HTTPException HTTP_400_BAD_REQUEST "Username already exists")
          | None => ret (Some name)
          end
        else ret None
    | None => ret None
    end ;;
  (* email, checked against the existing ones *)
  d_email <-
    match uu_email user_update with
    | Some mail =>
        if Py.truthy mail && negb (Py.opt_eqb (Some mail) (u_email target_user)) then
          existing_user <-
            gets (fun db => Mongo.find_one
                              (fun u => Py.opt_eqb (u_email u) (Some mail)) (users db)) ;;
          match existing_user with
          | Some _ => raise (HTTPException HTTP_400_BAD_REQUEST "Email already exists")
          | None => ret (Some mail)
          end
        else ret None
    | None => ret None
    end ;;
  (* role change, validated before *)
  let d_role :=
    if role_change_requested user_update target_role then uu_role user_update else None in
  (* organization change, super_admin only *)
  d_organization_id <-
    match uu_organization_id user_update with
    | Some org =>
        if Py.truthy org && negb (Py.opt_eqb (Some org) (u_organization_id target_user)) then
          raise_if (negb (String.eqb current_role "super_admin"))
            (HTTPException HTTP_403_FORBIDDEN
               "Only super admin can change user organizations") ;;
          ret (Some org)
        else ret None
    | None => ret None
    end ;;
  (* is_active, admin roles only *)
  d_is_active <-
    match uu_is_active user_update with
    | Some active =>
        if negb (Bool.eqb active (u_is_active target_user)) then
          raise_if (negb (Py.in_list current_role ["super_admin"; "admin_manager"]))
            (HTTPException HTTP_403_FORBIDDEN
               "You don't have permission to activate/deactivate users") ;;
          ret (Some active)
        else ret None
    | None => ret None
    end ;;
  (* points, with their history entry *)
  d_points <-
    match uu_points user_update with
    | Some pts =>
        if negb (pts =? u_points target_user) then
          raise_if (negb (Py.in_list current_role ["super_admin"; "admin_manager"; "manager"]))
            (HTTPException HTTP_403_FORBIDDEN
               "You don't have permission to modify user points") ;;
          let old_points := u_points target_user in
          ret (Some (pts,
                     {| pe_action := "update";
                        pe_points := pts - old_points;
                        pe_old_value := Some old_points;
                        pe_new_value := Some pts;
                        pe_reason := ManualUpdate;
                        pe_updated_by := Some (cu_username current_user);
                        pe_timestamp := now |}))
        else ret None
    | None => ret None
    end ;;
  let update_data :=
    {| us_username := d_username;
       us_email := d_email;
       us_role := d_role;
       us_organization_id := d_organization_id;
       us_first_name := uu_first_name user_update;
       us_last_name := uu_last_name user_update;
       us_phone := uu_phone user_update;
       us_manager_id := uu_manager_id user_update;
       us_terms_accepted := uu_terms_accepted user_update;
       us_is_active := d_is_active;
       us_points := option_map fst d_points |} in
  raise_if (user_set_is_empty update_data)
    (HTTPException HTTP_400_BAD_REQUEST "No valid fields provided for update") ;;
  (* the $set holds the new points *)
  match d_points with
  | Some (pts, _) => encode_int pts
  | None => ret tt
  end ;;
  modify (set_users (Mongo.update_one (by_user_id oid)
                       (apply_user_set update_data now (cu_id current_user)))) ;;
  (* the $push holds points_diff beside the old and the new value *)
  match d_points with
  | Some (_, points_history_entry) =>
      encode_int (pe_points points_history_entry) ;;
      modify (set_users (Mongo.update_one (by_user_id oid)
                           (push_history points_history_entry)))
  | None => ret tt
  end ;;
  updated <- gets (fun db => Mongo.find_one (by_user_id oid) (users db)) ;;
  match updated with
  | Some updated_user =>
      ret {| uur_message := "User updated successfully";
             uur_user_id := user_id;
             uur_updated_by_role := current_role;
             uur_user := updated_user |}
  | None => raise (Exception "TypeError")
  end.

Definition update_user (user_id : string) (user_update : UserUpdate)
    (current_user : CurrentUser) (now : datetime) : M UpdateUserResponse :=
  try_except "Failed to update user" (
    oid <- ObjectId user_id ;;
    found <- gets (fun db => Mongo.find_one (by_user_id oid) (users db)) ;;
    match found with
    | None => raise (HTTPException HTTP_404_NOT_FOUND "User not found")
    | Some target_user =>
        let current_role := cu_role current_user in
        let target_role := u_role target_user in
        raise_if (negb (can_update current_user target_user))
          (HTTPException HTTP_403_FORBIDDEN (current_role ++ " cannot update this user")%string) ;;
        role_change_validation current_role user_update target_role ;;
        canvasser_restriction current_role user_update ;;
        write_user_update user_id oid user_update current_user target_user now
    end).

(** A request body that sets the role and nothing else. *)
Definition role_only (role : string) : UserUpdate :=
  {| uu_username := None;
     uu_email := None;
     uu_role := Some role;
     uu_organization_id := None;
     uu_manager_id := None;
     uu_first_name := None;
     uu_last_name := None;
     uu_phone := None;
     uu_is_active := None;
     uu_points := None;
     uu_terms_accepted := None |}.

(* ================================================================== *)
(** * routes/leads.py *)

Definition by_oid (oid : string) (l : Lead) : bool := String.eqb (l_id l) oid.

Definition by_lead_id (lead_id : string) (l : Lead) : bool := String.eqb (l_lead_id l) lead_id.

(** The block "Find lead" shared by the three lead operations. *)
Definition find_lead (lead_id : string) : M (option Lead) :=
  if Nat.eqb (String.length lead_id) 24 then
    oid <- ObjectId lead_id ;;
    gets (fun db => Mongo.find_one (by_oid oid) (leads db))
  else
    gets (fun db => Mongo.find_one (by_lead_id lead_id) (leads db)).

(** The store after [users_collection.update_one({"username": username},
     {"$inc": {"points": n}, "$push": {"points_history": {...}}})], for an
    [n] that can be encoded. *)
Definition awarded (username : option string) (n : Z) (reason : Reason)
    (now : datetime) (db : Db) : Db :=
  match username with
  | Some name =>
      set_users (Mongo.update_one (by_username name)
                   (inc_points_push n (add_entry n reason now))) db
  | None => db
  end.

(** The award: the update document carries [n] twice, and is encoded
    before anything is written. *)
Definition award_points (username : option string) (n : Z) (reason : Reason)
    (now : datetime) : M unit :=
  encode_int n ;;
  modify (awarded username n reason now).

(** Request body [LeadApproval]. *)
Record LeadApproval : Type := {
  la_approve : bool;
  la_rejection_reason : option string;
  la_notes : option string
}.

(** Request body [LeadSold]. *)
Record LeadSold : Type := {
  ls_sale_amount : float;
  ls_sale_date : option datetime;
  ls_sale_notes : option string
}.


(** [{"$set": update_data}] on a lead: the keys that the lead operations
    write are arguments, the other fields are kept. *)
Definition lead_set (l : Lead)
    (lead_status : string)
    (approved_by : option string) (approval_timestamp : option datetime)
    (approval_notes rejection_reason : option string)
    (sale_amount : option float) (sale_date : option datetime)
    (sale_notes sold_by : option string)
    (superstar_info : option SuperstarInfo)
    (updated_at : option datetime) : Lead :=
  {| l_id := l_id l;
     l_lead_id := l_lead_id l;
     l_client_name := l_client_name l;
     l_phone_number := l_phone_number l;
     l_email := l_email l;
     l_address := l_address l;
     l_marital_status := l_marital_status l;
     l_property_photo_id := l_property_photo_id l;
     l_location := l_location l;
     l_preferred_appointment_time := l_preferred_appointment_time l;
     l_products_interested := l_products_interested l;
     l_notes := l_notes l;
     l_lead_status := lead_status;
     l_created_by := l_created_by l;
     l_organization_id := l_organization_id l;
     l_assigned_manager := l_assigned_manager l;
     l_approved_by := approved_by;
     l_approval_timestamp := approval_timestamp;
     l_approval_notes := approval_notes;
     l_rejection_reason := rejection_reason;
     l_sale_amount := sale_amount;
     l_sale_date := sale_date;
     l_sale_notes := sale_notes;
     l_sold_by := sold_by;
     l_superstar_info := superstar_info;
     l_quickbase := l_quickbase l;
     l_created_at := l_created_at l;
     l_time_info := l_time_info l;
     l_updated_at := updated_at;
     l_is_active := l_is_active l |}.

(** [update_data] of [approve_lead] when [approval_data.approve] holds. *)
Definition approved_update (current_user : CurrentUser) (approval_data : LeadApproval)
    (now : datetime) (l : Lead) : Lead :=
  lead_set l "approved"
    (Some (cu_username current_user)) (Some now)
    (if Py.truthy_opt (la_notes approval_data) then la_notes approval_data
     else l_approval_notes l)
    (l_rejection_reason l)
    (l_sale_amount l) (l_sale_date l) (l_sale_notes l) (l_sold_by l)
    (l_superstar_info l)
    (Some now).

(** [update_data] of [approve_lead] otherwise. *)
Definition rejected_update (current_user : CurrentUser) (approval_data : LeadApproval)
    (now : datetime) (l : Lead) : Lead :=
  lead_set l "cancelled"
    (Some (cu_username current_user)) (Some now)
    (l_approval_notes l)
    (la_rejection_reason approval_data)
    (l_sale_amount l) (l_sale_date l) (l_sale_notes l) (l_sold_by l)
    (l_superstar_info l)
    (Some now).

(** [update_data] of [mark_lead_sold]. *)
Definition sold_update (current_user : CurrentUser) (sale_data : LeadSold)
    (now : datetime) (l : Lead) : Lead :=
  lead_set l "sold"
    (l_approved_by l) (l_approval_timestamp l) (l_approval_notes l) (l_rejection_reason l)
    (Some (ls_sale_amount sale_data))
    (Some (or_keep (ls_sale_date sale_data) now))
    (ls_sale_notes sale_data)
    (Some (cu_username current_user))
    (l_superstar_info l)
    (Some now).


Record ApproveResponse : Type := {
  lar_message : string;
  lar_lead_id : string;
  lar_new_status : string;
  lar_points_awarded : Z
}.

Definition approve_lead (lead_id : string) (approval_data : LeadApproval)
    (current_user : CurrentUser) (now : datetime) : M ApproveResponse :=
  try_except "Failed to approve lead" (
    found <- find_lead lead_id ;;
    match found with
    | None => raise (HTTPException HTTP_404_NOT_FOUND "Lead not found")
    | Some lead =>
        raise_if (negb (Py.in_list (cu_role current_user)
                          ["super_admin"; "admin_manager"; "manager"]))
          (HTTPException HTTP_403_FORBIDDEN "You don't have permission to approve leads") ;;
        raise_if (negb (String.eqb (l_lead_status lead) "pending"))
          (HTTPException HTTP_400_BAD_REQUEST "Only pending leads can be approved or rejected") ;;
        (if la_approve approval_data then
           (if Py.truthy_opt (l_created_by lead) then
              award_points (l_created_by lead) 25 (LeadApproved (l_lead_id lead)) now
            else ret tt) ;;
           modify (set_leads (Mongo.update_one (by_oid (l_id lead))
                                (approved_update current_user approval_data now)))
         else
           modify (set_leads (Mongo.update_one (by_oid (l_id lead))
                                (rejected_update current_user approval_data now)))) ;;
        ret {| lar_message :=
                 ("Lead " ++ (if la_approve approval_data then "approved" else "rejected")
                  ++ " successfully")%string;
               lar_lead_id := l_lead_id lead;
               lar_new_status := if la_approve approval_data then "approved" else "cancelled";
               lar_points_awarded := if la_approve approval_data then 25 else 0 |}
    end).

Record MarkSoldResponse : Type := {
  lsr_message : string;
  lsr_lead_id : string;
  lsr_sale_amount : float;
  lsr_commission_points : Z
}.

(** [int(sale_data.sale_amount * 0.01)] *)
Definition commission_points_of (sale_amount : float) : option Z :=
  Float.int (Float.mul sale_amount Float.lit_0_01).

Definition mark_lead_sold (lead_id : string) (sale_data : LeadSold)
    (current_user : CurrentUser) (now : datetime) : M MarkSoldResponse :=
  try_except "Failed to mark lead as sold" (
    found <- find_lead lead_id ;;
    match found with
    | None => raise (HTTPException HTTP_404_NOT_FOUND "Lead not found")
    | Some lead =>
        allowed <- gets (fun db => check_lead_access db current_user lead) ;;
        raise_if (negb allowed)
          (HTTPException HTTP_403_FORBIDDEN
             "You don't have permission to mark this lead as sold") ;;
        modify (set_leads (Mongo.update_one (by_oid (l_id lead))
                             (sold_update current_user sale_data now))) ;;
        match commission_points_of (ls_sale_amount sale_data) with
        | None =>
            raise (Exception (Float.int_error
                                (Float.mul (ls_sale_amount sale_data) Float.lit_0_01)))
        | Some commission_points =>
            (if Py.truthy_opt (l_created_by lead) then
               award_points (l_created_by lead) commission_points
                 (LeadSoldFor (l_lead_id lead) (ls_sale_amount sale_data)) now
             else ret tt) ;;
            ret {| lsr_message := "Lead marked as sold successfully";
                   lsr_lead_id := l_lead_id lead;
                   lsr_sale_amount := ls_sale_amount sale_data;
                   lsr_commission_points := commission_points |}
        end
    end).



(** The "ENHANCED FIELDS" that [list_leads] derives from [lead_status]. *)
Definition is_superstar (l : Lead) : bool := String.eqb (l_lead_status l) "superstar".
Definition is_sold (l : Lead) : bool := String.eqb (l_lead_status l) "sold".
Definition can_mark_sold (l : Lead) : bool :=
  Py.in_list (l_lead_status l) ["approved"; "superstar"].

(** [generate_lead_id] of services/helpers.py; [organization_id.split]
    on [None] is a [TypeError]. *)
Definition generate_lead_id (organization_id : option string) : M string :=
  count <- gets (fun db => Mongo.count_documents
                             (fun l => Py.opt_eqb (l_organization_id l) organization_id)
                             (leads db)) ;;
  match organization_id with
  | None => raise (Exception "TypeError")
  | Some org =>
      let org_number := if Py.contains "_" org then Py.split_last "_" org else "001" in
      ret ("LEAD_" ++ org_number ++ "_" ++ Py.zfill 4 (Py.str (count + 1)))%string
  end.

(** [leads_collection.insert_one(doc)] under the unique indexes on [_id]
    and [lead_id] that services/database_init.py creates. *)
Definition insert_lead (doc : Lead) : M unit :=
  duplicate <- gets (fun db => existsb (fun l => by_oid (l_id doc) l
                                                 || by_lead_id (l_lead_id doc) l) (leads db)) ;;
  raise_if duplicate (Exception "DuplicateKeyError") ;;
  modify (set_leads (Mongo.insert_one doc)).

Definition QUICKBASE_ORG_ID : string := "org_39b6ab4e".

(** What the collaborators outside the store hand back during one call of
    [create_lead_with_notifications]: the [_id] given to the inserted
    document, the id returned by [save_property_photo], and the result of
    [save_lead_to_quickbase] (a record id, or an error text).
    [save_property_photo] stores the photo in db.lead_photos as soon as it
    is called, before the caller's user document is read and before the
    lead is inserted; that collection is not in [Db], so the photo that a
    failed creation leaves behind does not show in the store of the
    embedding. *)
Record LeadExternals : Type := {
  ext_inserted_id : string;
  ext_photo_id : option string;
  ext_quickbase : string + string
}.

Record CreateLeadResponse : Type := {
  clr_message : string;
  clr_lead_id : string;
  clr_database_id : string;
  clr_status : string;
  clr_points_earned : Z;
  clr_quickbase_sync : option QuickbaseSync
}.

Definition create_lead_with_notifications (lead_data : LeadCreate)
    (current_user : CurrentUser) (now : datetime) (ext : LeadExternals)
    : M CreateLeadResponse :=
  try_except_all "Failed to create lead" (
    lead_id <- generate_lead_id (cu_organization_id current_user) ;;
    let photo_id :=
      if Py.truthy_opt (lc_property_photo_base64 lead_data) then ext_photo_id ext else None in
    let admin := Py.in_list (cu_role current_user) ["super_admin"; "admin_manager"] in
    let initial_status := if admin then "approved" else "pending" in
    let approved_by := if admin then Some (cu_username current_user) else None in
    let approval_timestamp := if admin then Some now else None in
    assigned_manager <-
      (if String.eqb (cu_role current_user) "canvasser" then
         user <- gets (find_user (Some (cu_username current_user))) ;;
         match user with
         | Some u => ret (u_manager_id u)
         | None => raise (Exception "AttributeError")
         end
       else ret None) ;;
    let quickbase :=
      if Py.opt_eqb (cu_organization_id current_user) (Some QUICKBASE_ORG_ID) then
        match ext_quickbase ext with
        | inl record_id =>
            Some {| qb_record_id := Some record_id;
                    qb_sync_status := "synced";
                    qb_sync_error := None;
                    qb_synced_at := if Py.truthy record_id then Some now else None |}
        | inr error =>
            Some {| qb_record_id := None;
                    qb_sync_status := "failed";
                    qb_sync_error := Some error;
                    qb_synced_at := None |}
        end
      else None in
    let lead_doc :=
      {| l_id := ext_inserted_id ext;
         l_lead_id := lead_id;
         l_client_name := lc_client_name lead_data;
         l_phone_number := lc_phone_number lead_data;
         l_email := lc_email lead_data;
         l_address := lc_address lead_data;
         l_marital_status := lc_marital_status lead_data;
         l_property_photo_id := photo_id;
         l_location := lc_location lead_data;
         l_preferred_appointment_time := lc_preferred_appointment_time lead_data;
         l_products_interested := lc_products_interested lead_data;
         l_notes := lc_notes lead_data;
         l_lead_status := initial_status;
         l_created_by := Some (cu_username current_user);
         l_organization_id := cu_organization_id current_user;
         l_assigned_manager := assigned_manager;
         l_approved_by := approved_by;
         l_approval_timestamp := approval_timestamp;
         l_approval_notes := None;
         l_rejection_reason := None;
         l_sale_amount := None;
         l_sale_date := None;
         l_sale_notes := None;
         l_sold_by := None;
         l_superstar_info := None;
         l_quickbase := quickbase;
         l_created_at := now;
         l_time_info := now;
         l_updated_at := None;
         l_is_active := true |} in
    insert_lead lead_doc ;;
    points_earned <-
      (if String.eqb (cu_role current_user) "canvasser" then
         award_points (Some (cu_username current_user)) 10 (CreatedLead lead_id) now ;;
         ret 10
       else ret 0) ;;
    ret {| clr_message := "Lead created successfully";
           clr_lead_id := lead_id;
           clr_database_id := ext_inserted_id ext;
           clr_status := initial_status;
           clr_points_earned := points_earned;
           clr_quickbase_sync := quickbase |}).

(* ================================================================== *)
(** * routes/competitions.py: create_competition *)

Record CreateCompetitionResponse : Type := {
  ccr_message : string;
  ccr_competition_id : string;
  ccr_database_id : string;
  ccr_status : string;
  ccr_participant_count : Z;
  ccr_participant_selection_mode : string;
  ccr_organization_id : string
}.

(** The loop "Verify all selected participants exist in organization". *)
Fixpoint verify_selected (organization_id : option string) (selected : list string)
    : M (list string) :=
  match selected with
  | [] => ret []
  | username :: rest =>
      user <- gets (fun db => Mongo.find_one
                                (fun u => String.eqb (u_username u) username
                                          && Py.opt_eqb (u_organization_id u) organization_id
                                          && Bool.eqb (u_is_active u) true)
                                (users db)) ;;
      match user with
      | None =>
          raise (HTTPException HTTP_400_BAD_REQUEST
                   ("User '" ++ username ++ "' not found in your organization")%string)
      | Some _ =>
          valid_usernames <- verify_selected organization_id rest ;;
          ret (username :: valid_usernames)
      end
  end.

(** [competitions_collection.insert_one(doc)] under the unique indexes on
    [_id] and [competition_id]. *)
Definition insert_competition (doc : Competition) : M unit :=
  duplicate <- gets (fun db => existsb
                                 (fun c => String.eqb (c_id c) (c_id doc)
                                           || String.eqb (c_competition_id c) (c_competition_id doc))
                                 (competitions db)) ;;
  raise_if duplicate (Exception "DuplicateKeyError") ;;
  modify (set_competitions (Mongo.insert_one doc)).

Section CreateCompetition.

(** Three helpers that the handler calls are not among the sources; the
    handler is embedded over any implementation of them.  A participant
    is represented by its ["username"], the only key the handler reads. *)
Variable check_competition_permission : CurrentUser -> string -> bool.
Variable generate_competition_id : Db -> string -> string.
Variable get_competition_participants : Db -> Competition -> list string.

Definition competition_doc (competition_data : CompetitionCreate)
    (current_user : CurrentUser) (now : datetime) (inserted_id : string)
    (org_id competition_id : string) (selected : option (list string)) : Competition :=
  {| c_id := inserted_id;
     c_competition_id := competition_id;
     c_title := cc_title competition_data;
     c_description := cc_description competition_data;
     c_competition_type := cc_competition_type competition_data;
     c_start_date := cc_start_date competition_data;
     c_end_date := cc_end_date competition_data;
     c_prize_description := cc_prize_description competition_data;
     c_prize_points := cc_prize_points competition_data;
     c_target_roles := cc_target_roles competition_data;
     c_organization_id := org_id;
     c_min_participants := cc_min_participants competition_data;
     c_status :=
       if now <? cc_start_date competition_data then "upcoming"
       else if cc_end_date competition_data <? now then "completed"
       else "active";
     c_is_active := cc_is_active competition_data;
     c_participant_selection_mode := cc_participant_selection_mode competition_data;
     c_selected_participants := selected;
     c_created_by := cu_username current_user;
     c_created_at := now;
     c_winner := None |}.

Definition create_competition (competition_data : CompetitionCreate)
    (current_user : CurrentUser) (now : datetime) (inserted_id : string)
    : M CreateCompetitionResponse :=
  try_except "Failed to create competition" (
    raise_if (negb (check_competition_permission current_user "create"))
      (HTTPException HTTP_403_FORBIDDEN "You don't have permission to create competitions") ;;
    raise_if (cc_end_date competition_data <=? cc_start_date competition_data)
      (HTTPException HTTP_400_BAD_REQUEST "End date must be after start date") ;;
    raise_if (negb (Py.truthy_opt (cu_organization_id current_user)))
      (HTTPException HTTP_400_BAD_REQUEST
         "You must belong to an organization to create competitions") ;;
    selected <-
      (if String.eqb (cc_participant_selection_mode competition_data) "specific" then
         let chosen := or_keep (cc_selected_participants competition_data) [] in
         raise_if (match chosen with [] => true | _ => false end
                   || (Py.len chosen <? cc_min_participants competition_data))
           (HTTPException HTTP_400_BAD_REQUEST
              ("Must select at least " ++ Py.str (cc_min_participants competition_data)
               ++ " participants")%string) ;;
         valid_usernames <- verify_selected (cu_organization_id current_user) chosen ;;
         ret (Some valid_usernames)
       else ret (cc_selected_participants competition_data)) ;;
    match cu_organization_id current_user with
    | None => raise (Exception "KeyError")
    | Some org_id =>
        competition_id <- gets (fun db => generate_competition_id db org_id) ;;
        let doc := competition_doc competition_data current_user now inserted_id
                     org_id competition_id selected in
        insert_competition doc ;;
        participants <- gets (fun db => get_competition_participants db doc) ;;
        raise_if (Py.len participants <? cc_min_participants competition_data)
          (HTTPException HTTP_400_BAD_REQUEST
             ("Not enough eligible participants. Found " ++ Py.str (Py.len participants)
              ++ ", need " ++ Py.str (cc_min_participants competition_data))%string) ;;
        ret {| ccr_message := "Competition created successfully";
               ccr_competition_id := competition_id;
               ccr_database_id := inserted_id;
               ccr_status := c_status doc;
               ccr_participant_count := Py.len participants;
               ccr_participant_selection_mode :=
                 cc_participant_selection_mode competition_data;
               ccr_organization_id := org_id |}
    end).

End CreateCompetition.

(** Modelled from the spec: [get_competition_participants] is called by
    routes/competitions.py but defined in none of the sources.  Section 4.3:
    mode "specific" yields exactly [selected_participants]; the modes "all"
    and "roles" yield every active user of the competition's organization
    whose role is among [target_roles]. *)
Definition get_competition_participants (db : Db) (c : Competition) : list string :=
  if String.eqb (c_participant_selection_mode c) "specific" then
    or_keep (c_selected_participants c) []
  else
    map u_username
      (filter (fun u => u_is_active u
                        && Py.opt_eqb (u_organization_id u) (Some (c_organization_id c))
                        && Py.in_list (u_role u) (c_target_roles c))
              (users db)).

(* ================================================================== *)
(** * Sample documents

    The documents of the scenario of section 8 of the specification:
    canvasser "jdoe" of organization "org_1", the manager "msmith" of jdoe,
    and the admin "admin1"; with them a second admin of the organization
    and a platform administrator. *)

Module Sample.

Definition user (oid username role : string) (organization_id manager_id : option string)
    (points : Z) (points_history : list PointsEntry) : User :=
  {| u_id := oid;
     u_username := username;
     u_email := Some (username ++ "@example.com")%string;
     u_role := role;
     u_organization_id := organization_id;
     u_manager_id := manager_id;
     u_first_name := None;
     u_last_name := None;
     u_phone := None;
     u_is_active := true;
     u_terms_accepted := true;
     u_points := points;
     u_points_history := points_history;
     u_updated_at := None;
     u_updated_by := None |}.

(** What [get_current_user_from_token] returns for a stored user. *)
Definition identity (u : User) : CurrentUser :=
  {| cu_id := u_id u;
     cu_username := u_username u;
     cu_role := u_role u;
     cu_organization_id := u_organization_id u;
     cu_email := u_email u |}.

Definition jdoe (points : Z) (points_history : list PointsEntry) : User :=
  user "64b000000000000000000001" "jdoe" "canvasser" (Some "org_1") (Some "msmith")
    points points_history.
Definition msmith : User :=
  user "64b000000000000000000002" "msmith" "manager" (Some "org_1") None 0 [].
Definition admin1 : User :=
  user "64b000000000000000000003" "admin1" "admin_manager" (Some "org_1") None 0 [].
Definition admin2 : User :=
  user "64b000000000000000000004" "admin2" "admin_manager" (Some "org_1") None 0 [].
Definition root : User :=
  user "64b000000000000000000005" "root" "super_admin" None None 0 [].

Definition store (points : Z) (points_history : list PointsEntry) : Db :=
  {| users := [jdoe points points_history; msmith; admin1; admin2; root];
     leads := [];
     competitions := [] |}.

Definition lead_form : LeadCreate :=
  {| lc_client_name := "Ann Lee";
     lc_phone_number := "555-0100";
     lc_email := None;
     lc_address := "1 Main St";
     lc_marital_status := "single";
     lc_property_photo_base64 := None;
     lc_location := {| loc_latitude := S754_zero false;
                       loc_longitude := S754_zero false;
                       loc_address := "1 Main St";
                       loc_accuracy := None |};
     lc_preferred_appointment_time := 5000;
     lc_products_interested := ["roofing"];
     lc_notes := None |}.

Definition externals : LeadExternals :=
  {| ext_inserted_id := "64c000000000000000000001";
     ext_photo_id := None;
     ext_quickbase := inr "" |}.

(** A lead of jdoe in a given status. *)
Definition lead (lead_status : string) : Lead :=
  {| l_id := "64c000000000000000000001";
     l_lead_id := "LEAD_1_0001";
     l_client_name := "Ann Lee";
     l_phone_number := "555-0100";
     l_email := None;
     l_address := "1 Main St";
     l_marital_status := "single";
     l_property_photo_id := None;
     l_location := lc_location lead_form;
     l_preferred_appointment_time := 5000;
     l_products_interested := ["roofing"];
     l_notes := None;
     l_lead_status := lead_status;
     l_created_by := Some "jdoe";
     l_organization_id := Some "org_1";
     l_assigned_manager := Some "msmith";
     l_approved_by := None;
     l_approval_timestamp := None;
     l_approval_notes := None;
     l_rejection_reason := None;
     l_sale_amount := None;
     l_sale_date := None;
     l_sale_notes := None;
     l_sold_by := None;
     l_superstar_info := None;
     l_quickbase := None;
     l_created_at := 100;
     l_time_info := 100;
     l_updated_at := None;
     l_is_active := true |}.

Definition store_with_lead (lead_status : string) : Db :=
  {| users := [jdoe 0 []; msmith; admin1; admin2; root];
     leads := [lead lead_status];
     competitions := [] |}.

Definition approval : LeadApproval :=
  {| la_approve := true; la_rejection_reason := None; la_notes := None |}.

Definition rejection : LeadApproval :=
  {| la_approve := false; la_rejection_reason := Some "duplicate"; la_notes := None |}.

(** A sale of the amount [z]. *)
Definition sale (z : Z) : LeadSold :=
  {| ls_sale_amount := Float.of_Z z; ls_sale_date := None; ls_sale_notes := None |}.


Definition competition_form : CompetitionCreate :=
  {| cc_title := "Spring sprint";
     cc_description := "most leads in a week";
     cc_competition_type := "most_leads";
     cc_start_date := 1000;
     cc_end_date := 2000;
     cc_prize_description := "gift card";
     cc_prize_points := 100;
     cc_target_roles := ["canvasser"];
     cc_organization_specific := true;
     cc_min_participants := 2;
     cc_is_active := true;
     cc_participant_selection_mode := "all";
     cc_selected_participants := None |}.

(** A permission helper in the manner of [check_news_permission]. *)
Definition competition_permission (current_user : CurrentUser) (action : string) : bool :=
  Py.in_list (cu_role current_user) ["super_admin"; "admin_manager"; "manager"].

(** An identifier generator in the manner of [generate_lead_id]. *)
Definition competition_id_of (db : Db) (organization_id : string) : string :=
  ("COMP_" ++ Py.split_last "_" organization_id ++ "_"
   ++ Py.zfill 4 (Py.str (Py.len (competitions db) + 1)))%string.

End Sample.

(* ================================================================== *)
(** * routes/users.py: create_user, delete_user, reactivate_user, list_users

    [User] keeps the keys of a user document that the handlers read; the
    keys password, created_at, created_by, deactivated_at, deactivated_by,
    deactivation_reason, reactivated_at and reactivated_by, which are
    written and never read back by them, are not tracked. *)

(** [sep.join(l)] *)
Fixpoint join (sep : string) (l : list string) : string :=
  match l with
  | [] => ""
  | [x] => x
  | x :: rest => (x ++ sep ++ join sep rest)%string
  end.

(** Request body [UserCreate]. *)
Record UserCreate : Type := {
  uc_username : string;
  uc_password : string;
  uc_email : string;
  uc_role : string;
  uc_organization_id : option string;
  uc_manager_id : option string;
  uc_first_name : option string;
  uc_last_name : option string;
  uc_phone : option string;
  uc_terms_accepted : bool;
  uc_points : Z
}.

Definition role_permissions : list (string * list string) :=
  [ ("super_admin", ["super_admin"; "admin_manager"; "manager"; "canvasser"]);
    ("admin_manager", ["manager"; "canvasser"]);
    ("manager", ["canvasser"]) ].

(** [users_collection.insert_one(doc)] under the unique indexes on [_id],
    [username] and [email]. *)
Definition insert_user (doc : User) : M unit :=
  duplicate <- gets (fun db => existsb (fun u => by_user_id (u_id doc) u
                                                 || by_username (u_username doc) u
                                                 || Py.opt_eqb (u_email u) (u_email doc))
                                 (users db)) ;;
  raise_if duplicate (Exception "DuplicateKeyError") ;;
  modify (set_users (Mongo.insert_one doc)).

Record CreateUserResponse : Type := {
  cur_message : string;
  cur_user_id : string;
  cur_username : string;
  cur_role : string;
  cur_created_by_role : string
}.

(** The document that [create_user] inserts. *)
Definition user_doc (user_data : UserCreate) (organization_id manager_id : option string)
    (inserted_id : string) : User :=
  {| u_id := inserted_id;
     u_username := uc_username user_data;
     u_email := Some (uc_email user_data);
     u_role := uc_role user_data;
     u_organization_id := organization_id;
     u_manager_id := manager_id;
     u_first_name := uc_first_name user_data;
     u_last_name := uc_last_name user_data;
     u_phone := uc_phone user_data;
     u_is_active := true;
     u_terms_accepted := uc_terms_accepted user_data;
     u_points := uc_points user_data;
     u_points_history := [];
     u_updated_at := None;
     u_updated_by := None |}.

Definition create_user (user_data : UserCreate) (current_user : CurrentUser)
    (now : datetime) (inserted_id : string) : M CreateUserResponse :=
  try_except "Failed to create user" (
    let current_role := cu_role current_user in
    let target_role := uc_role user_data in
    let allowed_roles := Py.dict_get current_role role_permissions [] in
    raise_if (negb (Py.in_list target_role allowed_roles))
      (HTTPException HTTP_403_FORBIDDEN
         (current_role ++ " can only create users with roles: "
          ++ join ", " allowed_roles)%string) ;;
    (* admin_manager: own organization only *)
    (if String.eqb current_role "admin_manager" then
       raise_if (negb (Py.truthy_opt (uc_organization_id user_data)))
         (HTTPException HTTP_400_BAD_REQUEST "Admin managers must specify organization_id") ;;
       raise_if (negb (Py.opt_eqb (uc_organization_id user_data)
                         (cu_organization_id current_user)))
         (HTTPException HTTP_403_FORBIDDEN
            "Admin managers can only create users in their own organization")
     else ret tt) ;;
    (* manager: own organization only, and the manager is the manager_id *)
    assigned <-
      (if String.eqb current_role "manager" then
         organization_id <-
           (if negb (Py.truthy_opt (uc_organization_id user_data)) then
              ret (cu_organization_id current_user)
            else
              raise_if (negb (Py.opt_eqb (uc_organization_id user_data)
                                (cu_organization_id current_user)))
                (HTTPException HTTP_403_FORBIDDEN
                   "Managers can only create users in their own organization") ;;
              ret (uc_organization_id user_data)) ;;
         ret (organization_id, Some (cu_username current_user))
       else ret (uc_organization_id user_data, uc_manager_id user_data)) ;;
    existing_username <- gets (find_user (Some (uc_username user_data))) ;;
    raise_if (match existing_username with Some _ => true | None => false end)
      (HTTPException HTTP_400_BAD_REQUEST "Username already exists") ;;
    existing_email <-
      gets (fun db => Mongo.find_one
                        (fun u => Py.opt_eqb (u_email u) (Some (uc_email user_data)))
                        (users db)) ;;
    raise_if (match existing_email with Some _ => true | None => false end)
      (HTTPException HTTP_400_BAD_REQUEST "Email already exists") ;;
    insert_user (user_doc user_data (fst assigned) (snd assigned) inserted_id) ;;
    ret {| cur_message := "User created successfully";
           cur_user_id := inserted_id;
           cur_username := uc_username user_data;
           cur_role := uc_role user_data;
           cur_created_by_role := current_role |}).

(** The write of [delete_user] and of [reactivate_user], on the keys that
    [User] carries: is_active and updated_at.  On the document itself
    [delete_user] also sets deactivated_at, deactivated_by and
    deactivation_reason, and [reactivate_user] removes these three and sets
    reactivated_at and reactivated_by; two documents that are equal as
    [User]s may differ in these five keys. *)
Definition set_active (flag : bool) (now : datetime) (u : User) : User :=
  {| u_id := u_id u;
     u_username := u_username u;
     u_email := u_email u;
     u_role := u_role u;
     u_organization_id := u_organization_id u;
     u_manager_id := u_manager_id u;
     u_first_name := u_first_name u;
     u_last_name := u_last_name u;
     u_phone := u_phone u;
     u_is_active := flag;
     u_terms_accepted := u_terms_accepted u;
     u_points := u_points u;
     u_points_history := u_points_history u;
     u_updated_at := Some now;
     u_updated_by := u_updated_by u |}.

Record DeleteUserResponse : Type := {
  dur_message : string;
  dur_user_id : string;
  dur_username : string;
  dur_deactivated_at : datetime;
  dur_active_leads_count : option Z   (* the count, when it is positive *)
}.

Definition delete_user (user_id : string) (current_user : CurrentUser) (now : datetime)
    : M DeleteUserResponse :=
  try_except "Failed to delete user" (
    oid <- ObjectId user_id ;;
    found <- gets (fun db => Mongo.find_one (by_user_id oid) (users db)) ;;
    match found with
    | None => raise (HTTPException HTTP_404_NOT_FOUND "User not found")
    | Some target_user =>
        raise_if (negb (Py.in_list (cu_role current_user) ["super_admin"; "admin_manager"]))
          (HTTPException HTTP_403_FORBIDDEN "You don't have permission to delete users") ;;
        (if String.eqb (cu_role current_user) "admin_manager" then
           raise_if (negb (Py.opt_eqb (u_organization_id target_user)
                             (cu_organization_id current_user)))
             (HTTPException HTTP_403_FORBIDDEN
                "You can only delete users from your organization")
         else ret tt) ;;
        raise_if (negb (u_is_active target_user))
          (HTTPException HTTP_400_BAD_REQUEST "User is already deactivated") ;;
        raise_if (String.eqb (u_id target_user) (cu_id current_user))
          (HTTPException HTTP_400_BAD_REQUEST "You cannot delete your own account") ;;
        active_leads_count <-
          gets (fun db => Mongo.count_documents
                            (fun l => Py.opt_eqb (l_created_by l) (Some (u_username target_user))
                                      && Py.in_list (l_lead_status l) ["pending"; "approved"]
                                      && Bool.eqb (l_is_active l) true)
                            (leads db)) ;;
        modify (set_users (Mongo.update_one (by_user_id oid) (set_active false now))) ;;
        ret {| dur_message := "User deactivated successfully";
               dur_user_id := user_id;
               dur_username := u_username target_user;
               dur_deactivated_at := now;
               dur_active_leads_count :=
                 if 0 <? active_leads_count then Some active_leads_count else None |}
    end).

Record ReactivateUserResponse : Type := {
  rur_message : string;
  rur_user_id : string;
  rur_username : string;
  rur_reactivated_at : datetime
}.

Definition reactivate_user (user_id : string) (current_user : CurrentUser) (now : datetime)
    : M ReactivateUserResponse :=
  try_except "Failed to reactivate user" (
    oid <- ObjectId user_id ;;
    found <- gets (fun db => Mongo.find_one (by_user_id oid) (users db)) ;;
    match found with
    | None => raise (HTTPException HTTP_404_NOT_FOUND "User not found")
    | Some target_user =>
        raise_if (negb (Py.in_list (cu_role current_user) ["super_admin"; "admin_manager"]))
          (HTTPException HTTP_403_FORBIDDEN "You don't have permission to reactivate users") ;;
        (if String.eqb (cu_role current_user) "admin_manager" then
           raise_if (negb (Py.opt_eqb (u_organization_id target_user)
                             (cu_organization_id current_user)))
             (HTTPException HTTP_403_FORBIDDEN
                "You can only reactivate users from your organization")
         else ret tt) ;;
        raise_if (u_is_active target_user)
          (HTTPException HTTP_400_BAD_REQUEST "User is already active") ;;
        modify (set_users (Mongo.update_one (by_user_id oid) (set_active true now))) ;;
        ret {| rur_message := "User reactivated successfully";
               rur_user_id := user_id;
               rur_username := u_username target_user;
               rur_reactivated_at := now |}
    end).

(** The [filter_query] of [list_users]; [ObjectId(current_user["id"])] is
    the identity's own [_id]. *)
Definition list_users_filter (current_user : CurrentUser) (u : User) : bool :=
  if String.eqb (cu_role current_user) "super_admin" then true
  else if String.eqb (cu_role current_user) "admin_manager" then
    Py.opt_eqb (u_organization_id u) (cu_organization_id current_user)
  else if String.eqb (cu_role current_user) "manager" then
    Py.opt_eqb (u_manager_id u) (Some (cu_username current_user))
    || String.eqb (u_id u) (cu_id current_user)
  else String.eqb (u_id u) (cu_id current_user).

(** [(total_count + limit - 1) // limit]; [None] is the
    [ZeroDivisionError] of a zero [limit]. *)
Definition total_pages (total_count limit : Z) : option Z :=
  if limit =? 0 then None else Some ((total_count + limit - 1) / limit).

(** [skip = (page - 1) * limit] *)
Definition page_skip (page limit : Z) : Z := (page - 1) * limit.

(* ================================================================== *)
(** * routes/leads.py: the filters of list_leads, get_lead_stats and
      get_pending_approvals *)

(** [[u["username"] for u in users_collection.find({"manager_id": username})]] *)
Definition assigned_canvassers (db : Db) (current_user : CurrentUser) : list string :=
  map u_username
    (filter (fun u => Py.opt_eqb (u_manager_id u) (Some (cu_username current_user)))
            (users db)).

(** [{"created_by": {"$in": names}}] *)
Definition created_by_in (names : list string) (l : Lead) : bool :=
  match l_created_by l with
  | Some name => Py.in_list name names
  | None => false
  end.

(** [filter_query] of [list_leads], with its optional status. *)
Definition list_leads_filter (db : Db) (current_user : CurrentUser) (status : option string)
    (l : Lead) : bool :=
  Bool.eqb (l_is_active l) true
  && (if String.eqb (cu_role current_user) "super_admin" then true
      else if String.eqb (cu_role current_user) "admin_manager" then
        Py.opt_eqb (l_organization_id l) (cu_organization_id current_user)
      else if String.eqb (cu_role current_user) "manager" then
        Py.opt_eqb (l_organization_id l) (cu_organization_id current_user)
        && created_by_in (assigned_canvassers db current_user) l
      else Py.opt_eqb (l_created_by l) (Some (cu_username current_user)))
  && (if Py.truthy_opt status then Py.opt_eqb (Some (l_lead_status l)) status else true).

(** [filter_query] of [get_lead_stats]: for a manager the key created_by is
    added only when the list of assigned canvassers is not empty. *)
Definition lead_stats_filter (db : Db) (current_user : CurrentUser) (l : Lead) : bool :=
  Bool.eqb (l_is_active l) true
  && (if String.eqb (cu_role current_user) "super_admin" then true
      else if String.eqb (cu_role current_user) "admin_manager" then
        Py.opt_eqb (l_organization_id l) (cu_organization_id current_user)
      else if String.eqb (cu_role current_user) "manager" then
        Py.opt_eqb (l_organization_id l) (cu_organization_id current_user)
        && match assigned_canvassers db current_user with
           | [] => true
           | names => created_by_in names l
           end
      else Py.opt_eqb (l_created_by l) (Some (cu_username current_user))).

(** [status_stats] of [get_lead_stats], in the order of its loop. *)
Definition status_stats (db : Db) (current_user : CurrentUser) : list (string * Z) :=
  map (fun status =>
         (status,
          Mongo.count_documents
            (fun l => lead_stats_filter db current_user l
                      && String.eqb (l_lead_status l) status)
            (leads db)))
      ["pending"; "approved"; "sold"; "cancelled"; "superstar"].

(** [total_leads = sum(status_stats.values())] *)
Definition total_leads (db : Db) (current_user : CurrentUser) : Z :=
  fold_right Z.add 0 (map snd (status_stats db current_user)).

(** [filter_query] of [get_pending_approvals], past its role check. *)
Definition pending_approvals_filter (db : Db) (current_user : CurrentUser) (l : Lead) : bool :=
  String.eqb (l_lead_status l) "pending"
  && Bool.eqb (l_is_active l) true
  && (if String.eqb (cu_role current_user) "admin_manager" then
        Py.opt_eqb (l_organization_id l) (cu_organization_id current_user)
      else if String.eqb (cu_role current_user) "manager" then
        Py.opt_eqb (l_organization_id l) (cu_organization_id current_user)
        && created_by_in (assigned_canvassers db current_user) l
      else true).

(* ================================================================== *)
(** * routes/competitions.py: update_competition, delete_competition

    The keys updated_at, updated_by, deleted_at and deleted_by, which these
    handlers write and none of the handlers here reads, are not tracked;
    the notification sent after an update is outside the store. *)

(** Request body [CompetitionUpdate]. *)
Record CompetitionUpdate : Type := {
  cup_title : option string;
  cup_description : option string;
  cup_start_date : option datetime;
  cup_end_date : option datetime;
  cup_prize_description : option string;
  cup_prize_points : option Z;
  cup_is_active : option bool;
  cup_participant_selection_mode : option string;
  cup_selected_participants : option (list string)
}.

(** The dict [update_data] of [update_competition]. *)
Record CompetitionSet : Type := {
  cs_title : option string;
  cs_description : option string;
  cs_start_date : option datetime;
  cs_end_date : option datetime;
  cs_prize_description : option string;
  cs_prize_points : option Z;
  cs_is_active : option bool;
  cs_participant_selection_mode : option string;
  cs_selected_participants : option (list string)
}.

Definition competition_set_is_empty (d : CompetitionSet) : bool :=
  match cs_title d, cs_description d, cs_start_date d, cs_end_date d,
        cs_prize_description d, cs_prize_points d, cs_is_active d,
        cs_participant_selection_mode d, cs_selected_participants d with
  | None, None, None, None, None, None, None, None, None => true
  | _, _, _, _, _, _, _, _, _ => false
  end.

(** [{"$set": update_data}] on a competition. *)
Definition apply_competition_set (d : CompetitionSet) (c : Competition) : Competition :=
  {| c_id := c_id c;
     c_competition_id := c_competition_id c;
     c_title := or_keep (cs_title d) (c_title c);
     c_description := or_keep (cs_description d) (c_description c);
     c_competition_type := c_competition_type c;
     c_start_date := or_keep (cs_start_date d) (c_start_date c);
     c_end_date := or_keep (cs_end_date d) (c_end_date c);
     c_prize_description := or_keep (cs_prize_description d) (c_prize_description c);
     c_prize_points := or_keep (cs_prize_points d) (c_prize_points c);
     c_target_roles := c_target_roles c;
     c_organization_id := c_organization_id c;
     c_min_participants := c_min_participants c;
     c_status := c_status c;
     c_is_active := or_keep (cs_is_active d) (c_is_active c);
     c_participant_selection_mode :=
       or_keep (cs_participant_selection_mode d) (c_participant_selection_mode c);
     c_selected_participants :=
       or_keep_opt (cs_selected_participants d) (c_selected_participants c);
     c_created_by := c_created_by c;
     c_created_at := c_created_at c;
     c_winner := c_winner c |}.

(** [{"$set": {"is_active": False, ...}}] of [delete_competition]. *)
Definition soft_deleted (c : Competition) : Competition :=
  apply_competition_set
    {| cs_title := None; cs_description := None; cs_start_date := None;
       cs_end_date := None; cs_prize_description := None; cs_prize_points := None;
       cs_is_active := Some false; cs_participant_selection_mode := None;
       cs_selected_participants := None |} c.

Definition by_competition_id (competition_id : string) (c : Competition) : bool :=
  String.eqb (c_competition_id c) competition_id.

(** The validation loop of [update_competition]. *)
Fixpoint verify_participants (organization_id : string) (selected : list string)
    : M (list string) :=
  match selected with
  | [] => ret []
  | username :: rest =>
      user <- gets (fun db => Mongo.find_one
                                (fun u => String.eqb (u_username u) username
                                          && Py.opt_eqb (u_organization_id u)
                                               (Some organization_id)
                                          && Bool.eqb (u_is_active u) true)
                                (users db)) ;;
      match user with
      | None =>
          raise (HTTPException HTTP_400_BAD_REQUEST
                   ("User '" ++ username ++ "' not found in organization")%string)
      | Some _ =>
          valid_usernames <- verify_participants organization_id rest ;;
          ret (username :: valid_usernames)
      end
  end.

(** [list(update_data.keys())], with the two keys added last. *)
Definition competition_set_keys (d : CompetitionSet) : list string :=
  let key {A : Type} (name : string) (field : option A) : list string :=
    match field with Some _ => [name] | None => [] end in
  key "title" (cs_title d) ++ key "description" (cs_description d)
  ++ key "start_date" (cs_start_date d) ++ key "end_date" (cs_end_date d)
  ++ key "prize_description" (cs_prize_description d)
  ++ key "prize_points" (cs_prize_points d) ++ key "is_active" (cs_is_active d)
  ++ key "participant_selection_mode" (cs_participant_selection_mode d)
  ++ key "selected_participants" (cs_selected_participants d)
  ++ ["updated_at"; "updated_by"].

Record UpdateCompetitionResponse : Type := {
  ucr_message : string;
  ucr_competition_id : string;
  ucr_updated_fields : list string
}.

Record DeleteCompetitionResponse : Type := {
  dcr_message : string;
  dcr_competition_id : string
}.

Section UpdateCompetition.

(** As for [create_competition], the permission helper is not among the
    sources. *)
Variable check_competition_permission : CurrentUser -> string -> bool.

Definition update_competition (competition_id : string)
    (competition_update : CompetitionUpdate) (current_user : CurrentUser) (now : datetime)
    : M UpdateCompetitionResponse :=
  try_except "Failed to update competition" (
    raise_if (negb (check_competition_permission current_user "update"))
      (HTTPException HTTP_403_FORBIDDEN "You don't have permission to update competitions") ;;
    found <- gets (fun db => Mongo.find_one (by_competition_id competition_id)
                               (competitions db)) ;;
    match found with
    | None => raise (HTTPException HTTP_404_NOT_FOUND "Competition not found")
    | Some competition =>
        raise_if (negb (String.eqb (cu_role current_user) "super_admin")
                  && negb (Py.opt_eqb (Some (c_organization_id competition))
                             (cu_organization_id current_user)))
          (HTTPException HTTP_403_FORBIDDEN
             "You can only update competitions in your organization") ;;
        raise_if (String.eqb (c_status competition) "completed")
          (HTTPException HTTP_400_BAD_REQUEST "Cannot update completed competition") ;;
        selected <-
          match cup_selected_participants competition_update with
          | Some chosen =>
              if Py.opt_eqb (cup_participant_selection_mode competition_update)
                   (Some "specific")
                 || String.eqb (c_participant_selection_mode competition) "specific"
              then
                valid_usernames <-
                  verify_participants (c_organization_id competition) chosen ;;
                ret (Some valid_usernames)
              else ret (Some chosen)
          | None => ret None
          end ;;
        let update_data :=
          {| cs_title := cup_title competition_update;
             cs_description := cup_description competition_update;
             cs_start_date := cup_start_date competition_update;
             cs_end_date := cup_end_date competition_update;
             cs_prize_description := cup_prize_description competition_update;
             cs_prize_points := cup_prize_points competition_update;
             cs_is_active := cup_is_active competition_update;
             cs_participant_selection_mode :=
               cup_participant_selection_mode competition_update;
             cs_selected_participants := selected |} in
        raise_if (competition_set_is_empty update_data)
          (HTTPException HTTP_400_BAD_REQUEST "No valid fields provided for update") ;;
        modify (set_competitions (Mongo.update_one (by_competition_id competition_id)
                                    (apply_competition_set update_data))) ;;
        ret {| ucr_message := "Competition updated successfully";
               ucr_competition_id := competition_id;
               ucr_updated_fields := competition_set_keys update_data |}
    end).

Definition delete_competition (competition_id : string) (current_user : CurrentUser)
    (now : datetime) : M DeleteCompetitionResponse :=
  try_except "Failed to delete competition" (
    raise_if (negb (check_competition_permission current_user "delete"))
      (HTTPException HTTP_403_FORBIDDEN "You don't have permission to delete competitions") ;;
    found <- gets (fun db => Mongo.find_one (by_competition_id competition_id)
                               (competitions db)) ;;
    match found with
    | None => raise (HTTPException HTTP_404_NOT_FOUND "Competition not found")
    | Some competition =>
        modify (set_competitions (Mongo.update_one (by_competition_id competition_id)
                                    soft_deleted)) ;;
        ret {| dcr_message := "Competition deleted successfully";
               dcr_competition_id := competition_id |}
    end).

End UpdateCompetition.

(* ================================================================== *)
(** * core/security.py and routes/auth.py: the identity of a request

    Decoding the token and checking the password are outside the store:
    the token's payload arrives as its subject, and [verify_password] is a
    parameter.  The key last_activity, which both functions write and no
    handler reads, is not tracked. *)

Definition HTTP_401_UNAUTHORIZED : Z := 401.

(** The dict that [get_current_user_from_token] returns for a user. *)
Definition identity_of (user : User) : CurrentUser :=
  {| cu_id := u_id user;
     cu_username := u_username user;
     cu_role := u_role user;
     cu_organization_id := u_organization_id user;
     cu_email := u_email user |}.

(** [get_current_user_from_token], from the decoded payload's ["sub"] on.
    An [InvalidId] is not a [JWTError] and leaves the function as it is. *)
Definition get_current_user_from_token (sub : option string) : M CurrentUser :=
  match sub with
  | None => raise (HTTPException HTTP_401_UNAUTHORIZED "Invalid token")
  | Some user_id =>
      oid <- ObjectId user_id ;;
      found <- gets (fun db => Mongo.find_one (by_user_id oid) (users db)) ;;
      match found with
      | None => raise (HTTPException HTTP_401_UNAUTHORIZED "User not found")
      | Some user => ret (identity_of user)
      end
  end.

(** Request body [UserLogin]. *)
Record UserLogin : Type := {
  ul_username : string;
  ul_password : string
}.

(** The data put in the token and the ["user_info"] of the response. *)
Record LoginResponse : Type := {
  lr_sub : string;
  lr_username : string;
  lr_role : string;
  lr_organization_id : option string;
  lr_email : option string;
  lr_points : Z
}.

Section Login.

Variable verify_password : string -> User -> bool.

Definition login (user_data : UserLogin) : M LoginResponse :=
  try_except "Login failed" (
    found <- gets (find_user (Some (ul_username user_data))) ;;
    match found with
    | None => raise (HTTPException HTTP_401_UNAUTHORIZED "Invalid username or password")
    | Some user =>
        raise_if (negb (verify_password (ul_password user_data) user))
          (HTTPException HTTP_401_UNAUTHORIZED "Invalid username or password") ;;
        raise_if (negb (u_is_active user))
          (HTTPException HTTP_401_UNAUTHORIZED "User account is deactivated") ;;
        ret {| lr_sub := u_id user;
               lr_username := u_username user;
               lr_role := u_role user;
               lr_organization_id := u_organization_id user;
               lr_email := u_email user;
               lr_points := u_points user |}
    end).

End Login.

(* ================================================================== *)
(** * Sample requests *)

Module Fixture.

Definition new_canvasser : UserCreate :=
  {| uc_username := "kim";
     uc_password := "secret";
     uc_email := "kim@example.com";
     uc_role := "canvasser";
     uc_organization_id := None;
     uc_manager_id := None;
     uc_first_name := Some "Kim";
     uc_last_name := None;
     uc_phone := None;
     uc_terms_accepted := true;
     uc_points := 0 |}.

(** A manager of org_1 to whom no canvasser is assigned. *)
Definition mjones : CurrentUser :=
  {| cu_id := "64b000000000000000000009";
     cu_username := "mjones";
     cu_role := "manager";
     cu_organization_id := Some "org_1";
     cu_email := None |}.

(** A manager of another organization. *)
Definition outsider : CurrentUser :=
  {| cu_id := "64b00000000000000000000a";
     cu_username := "olsen";
     cu_role := "manager";
     cu_organization_id := Some "org_2";
     cu_email := None |}.

(** A manager of an organization whose id ends as org_1 does. *)
Definition rival : CurrentUser :=
  {| cu_id := "64b00000000000000000000b";
     cu_username := "rivera";
     cu_role := "manager";
     cu_organization_id := Some "team_1";
     cu_email := None |}.

Definition competition (competition_id status mode : string)
    (selected : option (list string)) : Competition :=
  {| c_id := "64d000000000000000000001";
     c_competition_id := competition_id;
     c_title := "Spring sprint";
     c_description := "most leads in a week";
     c_competition_type := "most_leads";
     c_start_date := 1000;
     c_end_date := 2000;
     c_prize_description := "gift card";
     c_prize_points := 100;
     c_target_roles := ["canvasser"];
     c_organization_id := "org_1";
     c_min_participants := 2;
     c_status := status;
     c_is_active := true;
     c_participant_selection_mode := mode;
     c_selected_participants := selected;
     c_created_by := "admin1";
     c_created_at := 500;
     c_winner := None |}.

Definition store_with_competition (c : Competition) : Db :=
  {| users := users (Sample.store 0 []); leads := []; competitions := [c] |}.

Definition participants_only (selected : list string) : CompetitionUpdate :=
  {| cup_title := None;
     cup_description := None;
     cup_start_date := None;
     cup_end_date := None;
     cup_prize_description := None;
     cup_prize_points := None;
     cup_is_active := None;
     cup_participant_selection_mode := None;
     cup_selected_participants := Some selected |}.

End Fixture.

(* ================================================================== *)
(** * Notions used in the statements *)

(** A request body of [update_user] with the profile fields left out. *)
Definition user_request (role organization_id manager_id : option string)
    (is_active : option bool) (points : option Z) : UserUpdate :=
  {| uu_username := None;
     uu_email := None;
     uu_role := role;
     uu_organization_id := organization_id;
     uu_manager_id := manager_id;
     uu_first_name := None;
     uu_last_name := None;
     uu_phone := None;
     uu_is_active := is_active;
     uu_points := points;
     uu_terms_accepted := None |}.

(** A request body of [update_user] that renames the user. *)
Definition rename_request (username : string) : UserUpdate :=
  {| uu_username := Some username;
     uu_email := None;
     uu_role := None;
     uu_organization_id := None;
     uu_manager_id := None;
     uu_first_name := None;
     uu_last_name := None;
     uu_phone := None;
     uu_is_active := None;
     uu_points := None;
     uu_terms_accepted := None |}.

(** The blocks that [write_user_update] runs in sequence, named so that
    each can be stated on its own. *)
Definition username_block (user_update : UserUpdate) (target_user : User)
    : M (option string) :=
  match uu_username user_update with
  | Some name =>
      if Py.truthy name && negb (String.eqb name (u_username target_user)) then
        existing_user <- gets (find_user (Some name)) ;;
        match existing_user with
        | Some _ => raise (HTTPException HTTP_400_BAD_REQUEST "Username already exists")
        | None => ret (Some name)
        end
      else ret None
  | None => ret None
  end.

Definition email_block (user_update : UserUpdate) (target_user : User)
    : M (option string) :=
  match uu_email user_update with
  | Some mail =>
      if Py.truthy mail && negb (Py.opt_eqb (Some mail) (u_email target_user)) then
        existing_user <-
          gets (fun db => Mongo.find_one
                            (fun u => Py.opt_eqb (u_email u) (Some mail)) (users db)) ;;
        match existing_user with
        | Some _ => raise (HTTPException HTTP_400_BAD_REQUEST "Email already exists")
        | None => ret (Some mail)
        end
      else ret None
  | None => ret None
  end.

Definition organization_block (current_role : string) (user_update : UserUpdate)
    (target_user : User) : M (option string) :=
  match uu_organization_id user_update with
  | Some org =>
      if Py.truthy org && negb (Py.opt_eqb (Some org) (u_organization_id target_user)) then
        raise_if (negb (String.eqb current_role "super_admin"))
          (HTTPException HTTP_403_FORBIDDEN
             "Only super admin can change user organizations") ;;
        ret (Some org)
      else ret None
  | None => ret None
  end.

Definition active_block (current_role : string) (user_update : UserUpdate)
    (target_user : User) : M (option bool) :=
  match uu_is_active user_update with
  | Some active =>
      if negb (Bool.eqb active (u_is_active target_user)) then
        raise_if (negb (Py.in_list current_role ["super_admin"; "admin_manager"]))
          (HTTPException HTTP_403_FORBIDDEN
             "You don't have permission to activate/deactivate users") ;;
        ret (Some active)
      else ret None
  | None => ret None
  end.

(** The entry that [update_user] pushes for a change of points. *)
Definition manual_entry (current_user : CurrentUser) (old_points pts : Z) (now : datetime)
    : PointsEntry :=
  {| pe_action := "update";
     pe_points := pts - old_points;
     pe_old_value := Some old_points;
     pe_new_value := Some pts;
     pe_reason := ManualUpdate;
     pe_updated_by := Some (cu_username current_user);
     pe_timestamp := now |}.

Definition points_block (current_user : CurrentUser) (user_update : UserUpdate)
    (target_user : User) (now : datetime) : M (option (Z * PointsEntry)) :=
  match uu_points user_update with
  | Some pts =>
      if negb (pts =? u_points target_user) then
        raise_if (negb (Py.in_list (cu_role current_user)
                          ["super_admin"; "admin_manager"; "manager"]))
          (HTTPException HTTP_403_FORBIDDEN
             "You don't have permission to modify user points") ;;
        ret (Some (pts, manual_entry current_user (u_points target_user) pts now))
      else ret None
  | None => ret None
  end.

(** The dict [update_data] once the blocks have run. *)
Definition user_update_data (user_update : UserUpdate) (target_user : User)
    (d_username d_email d_organization_id : option string) (d_is_active : option bool)
    (d_points : option (Z * PointsEntry)) : UserSet :=
  {| us_username := d_username;
     us_email := d_email;
     us_role :=
       if role_change_requested user_update (u_role target_user)
       then uu_role user_update else None;
     us_organization_id := d_organization_id;
     us_first_name := uu_first_name user_update;
     us_last_name := uu_last_name user_update;
     us_phone := uu_phone user_update;
     us_manager_id := uu_manager_id user_update;
     us_terms_accepted := uu_terms_accepted user_update;
     us_is_active := d_is_active;
     us_points := option_map fst d_points |}.

(** The target document after the two writes of [update_user]. *)
Definition updated_target (update_data : UserSet) (d_points : option (Z * PointsEntry))
    (now : datetime) (updated_by : string) (target_user : User) : User :=
  match d_points with
  | Some (_, entry) => push_history entry (apply_user_set update_data now updated_by target_user)
  | None => apply_user_set update_data now updated_by target_user
  end.

(** The user collection after the two writes of [update_user]. *)
Definition updated_users (oid : string) (update_data : UserSet)
    (d_points : option (Z * PointsEntry)) (now : datetime) (updated_by : string)
    (us : list User) : list User :=
  match d_points with
  | Some (_, entry) =>
      Mongo.update_one (by_user_id oid) (push_history entry)
        (Mongo.update_one (by_user_id oid) (apply_user_set update_data now updated_by) us)
  | None => Mongo.update_one (by_user_id oid) (apply_user_set update_data now updated_by) us
  end.

(** A request body that sets manager_id and nothing else. *)
Definition manager_id_only (manager_id : string) : UserUpdate :=
  {| uu_username := None;
     uu_email := None;
     uu_role := None;
     uu_organization_id := None;
     uu_manager_id := Some manager_id;
     uu_first_name := None;
     uu_last_name := None;
     uu_phone := None;
     uu_is_active := None;
     uu_points := None;
     uu_terms_accepted := None |}.

(** The store keeps usernames unique (the unique index on username). *)
Definition unique_usernames (db : Db) : Prop := NoDup (map u_username (users db)).

(** The store guarantees one document per [_id]. *)
Definition unique_lead_oids (db : Db) : Prop := NoDup (map l_id (leads db)).

(** The filter under which [find_lead] looks a lead up. *)
Definition lead_filter (lead_id : string) : option (Lead -> bool) :=
  if Nat.eqb (String.length lead_id) 24 then option_map by_oid (parse_object_id lead_id)
  else Some (by_lead_id lead_id).

(** The rule of the specification for an admin_manager actor: same
    organization, and the target is below the admin tier unless it is the
    actor. *)
Definition admin_manager_rule (actor : CurrentUser) (target : User) : Prop :=
  u_organization_id target = cu_organization_id actor /\
  (~ In (u_role target) ["super_admin"; "admin_manager"] \/ u_id target = cu_id actor).

Definition four_roles : list string := ["super_admin"; "admin_manager"; "manager"; "canvasser"].

Definition approver_roles : list string := ["super_admin"; "admin_manager"; "manager"].

Definition invalid_state : Raised :=
  HTTPException HTTP_400_BAD_REQUEST "Only pending leads can be approved or rejected".

(** The store that a successful [approve_lead] leaves. *)
Definition after_approval (current_user : CurrentUser) (approval_data : LeadApproval)
    (now : datetime) (lead : Lead) (db : Db) : Db :=
  if la_approve approval_data then
    set_leads (Mongo.update_one (by_oid (l_id lead))
                 (approved_update current_user approval_data now))
      (if Py.truthy_opt (l_created_by lead)
       then awarded (l_created_by lead) 25 (LeadApproved (l_lead_id lead)) now db
       else db)
  else
    set_leads (Mongo.update_one (by_oid (l_id lead))
                 (rejected_update current_user approval_data now)) db.

(** The store that [mark_lead_sold] reaches once the lead is written. *)
Definition after_sale (current_user : CurrentUser) (sale_data : LeadSold)
    (now : datetime) (lead : Lead) (db : Db) : Db :=
  set_leads (Mongo.update_one (by_oid (l_id lead)) (sold_update current_user sale_data now)) db.


(** The [org_number] of [generate_lead_id]:
    [organization_id.split('_')[-1] if '_' in organization_id else "001"]. *)
Definition org_number (org : string) : string :=
  if Py.contains "_" org then Py.split_last "_" org else "001".

(** The number of leads that [generate_lead_id] counts for [org]. *)
Definition lead_count (db : Db) (org : string) : Z :=
  Mongo.count_documents (fun l => Py.opt_eqb (l_organization_id l) (Some org)) (leads db).

(** The identifier that [generate_lead_id] computes for the organization
    [org]. *)
Definition next_lead_id (db : Db) (org : string) : string :=
  ("LEAD_" ++ org_number org ++ "_" ++ Py.zfill 4 (Py.str (lead_count db org + 1)))%string.

(** The ["quickbase_*"] keys that [create_lead_with_notifications] adds. *)
Definition quickbase_of (current_user : CurrentUser) (now : datetime) (ext : LeadExternals)
    : option QuickbaseSync :=
  if Py.opt_eqb (cu_organization_id current_user) (Some QUICKBASE_ORG_ID) then
    match ext_quickbase ext with
    | inl record_id =>
        Some {| qb_record_id := Some record_id;
                qb_sync_status := "synced";
                qb_sync_error := None;
                qb_synced_at := if Py.truthy record_id then Some now else None |}
    | inr error =>
        Some {| qb_record_id := None;
                qb_sync_status := "failed";
                qb_sync_error := Some error;
                qb_synced_at := None |}
    end
  else None.

(** The [lead_doc] that [create_lead_with_notifications] inserts. *)
Definition created_lead (lead_data : LeadCreate) (current_user : CurrentUser)
    (now : datetime) (ext : LeadExternals) (lead_id : string)
    (assigned_manager : option string) : Lead :=
  let admin := Py.in_list (cu_role current_user) ["super_admin"; "admin_manager"] in
  {| l_id := ext_inserted_id ext;
     l_lead_id := lead_id;
     l_client_name := lc_client_name lead_data;
     l_phone_number := lc_phone_number lead_data;
     l_email := lc_email lead_data;
     l_address := lc_address lead_data;
     l_marital_status := lc_marital_status lead_data;
     l_property_photo_id :=
       if Py.truthy_opt (lc_property_photo_base64 lead_data) then ext_photo_id ext else None;
     l_location := lc_location lead_data;
     l_preferred_appointment_time := lc_preferred_appointment_time lead_data;
     l_products_interested := lc_products_interested lead_data;
     l_notes := lc_notes lead_data;
     l_lead_status := if admin then "approved" else "pending";
     l_created_by := Some (cu_username current_user);
     l_organization_id := cu_organization_id current_user;
     l_assigned_manager := assigned_manager;
     l_approved_by := if admin then Some (cu_username current_user) else None;
     l_approval_timestamp := if admin then Some now else None;
     l_approval_notes := None;
     l_rejection_reason := None;
     l_sale_amount := None;
     l_sale_date := None;
     l_sale_notes := None;
     l_sold_by := None;
     l_superstar_info := None;
     l_quickbase := quickbase_of current_user now ext;
     l_created_at := now;
     l_time_info := now;
     l_updated_at := None;
     l_is_active := true |}.

(** The [assigned_manager] of a new lead: the creator's manager_id for a
    canvasser, [None] for the other roles; the outer [None] is the
    [AttributeError] of a canvasser without a user document. *)
Definition assigned_manager_of (db : Db) (current_user : CurrentUser)
    : option (option string) :=
  if String.eqb (cu_role current_user) "canvasser" then
    option_map u_manager_id (find_user (Some (cu_username current_user)) db)
  else Some None.

(** The store after a lead creation by [current_user]. *)
Definition after_creation (current_user : CurrentUser) (now : datetime) (doc : Lead)
    (db : Db) : Db :=
  let inserted := set_leads (Mongo.insert_one doc) db in
  if String.eqb (cu_role current_user) "canvasser" then
    awarded (Some (cu_username current_user)) 10 (CreatedLead (l_lead_id doc)) now inserted
  else inserted.


(** A sale of the amount [amount], with no date and no notes. *)
Definition sale_of (amount : float) : LeadSold :=
  {| ls_sale_amount := amount; ls_sale_date := None; ls_sale_notes := None |}.

(** The [update_data] that [update_competition] builds from a request
    whose selection, if any, has passed the validation loop. *)
Definition competition_set_of (competition_update : CompetitionUpdate) : CompetitionSet :=
  {| cs_title := cup_title competition_update;
     cs_description := cup_description competition_update;
     cs_start_date := cup_start_date competition_update;
     cs_end_date := cup_end_date competition_update;
     cs_prize_description := cup_prize_description competition_update;
     cs_prize_points := cup_prize_points competition_update;
     cs_is_active := cup_is_active competition_update;
     cs_participant_selection_mode := cup_participant_selection_mode competition_update;
     cs_selected_participants := cup_selected_participants competition_update |}.

(** The filter of the validation loop of [update_competition]. *)
Definition active_member (organization_id username : string) (u : User) : bool :=
  String.eqb (u_username u) username
  && Py.opt_eqb (u_organization_id u) (Some organization_id)
  && Bool.eqb (u_is_active u) true.

(** The organization check of [update_competition] lets the caller through. *)
Definition same_tenant (current_user : CurrentUser) (competition : Competition) : bool :=
  negb (negb (String.eqb (cu_role current_user) "super_admin")
        && negb (Py.opt_eqb (Some (c_organization_id competition))
                   (cu_organization_id current_user))).

(* ================================================================== *)
(** * Basic facts about the monad and the collection primitives *)

Section MonadFacts.
Context {A B : Type}.

Lemma bind_Return (m : M A) (k : A -> M B) db db' a :
  m db = (db', Return a) -> bind m k db = k a db'.
Proof. intros H. unfold bind. now rewrite H. Qed.

Lemma bind_Raise (m : M A) (k : A -> M B) db db' e :
  m db = (db', Raise e) -> bind m k db = (db', Raise e).
Proof. intros H. unfold bind. now rewrite H. Qed.

Lemma try_except_Return prefix (m : M A) db db' a :
  try_except prefix m db = (db', Return a) <-> m db = (db', Return a).
Proof.
  unfold try_except. destruct (m db) as [d [x | [code detail | what]]]; split; intros H;
    try exact H; try discriminate H.
Qed.

Lemma try_except_HTTPException prefix (m : M A) db db' code detail :
  m db = (db', Raise (HTTPException code detail)) ->
  try_except prefix m db = (db', Raise (HTTPException code detail)).
Proof. intros H. unfold try_except. now rewrite H. Qed.

Lemma try_except_store prefix (m : M A) db : fst (try_except prefix m db) = fst (m db).
Proof. unfold try_except. now destruct (m db) as [d [x | [code detail | what]]]. Qed.
End MonadFacts.

Section CollectionFacts.
Context {A : Type}.
Implicit Types (p q : A -> bool) (f : A -> A) (coll : list A).

(** Reading back through the filter that selected the rewritten document. *)
Lemma find_one_update_one p f coll :
  (forall x, p (f x) = p x) ->
  Mongo.find_one p (Mongo.update_one p f coll) = option_map f (Mongo.find_one p coll).
Proof.
  intros Hp. induction coll as [| x rest IH]; simpl; [reflexivity |].
  destruct (p x) eqn:Hx; simpl.
  - now rewrite Hp, Hx.
  - now rewrite Hx.
Qed.

(** A filter that no rewritten document changes its answer to, and that
    the rewritten document does not satisfy, reads the same. *)
Lemma find_one_update_one_other p q f coll :
  (forall x, p x = true -> q x = false) ->
  (forall x, q (f x) = q x) ->
  Mongo.find_one q (Mongo.update_one p f coll) = Mongo.find_one q coll.
Proof.
  intros Hpq Hq. induction coll as [| x rest IH]; simpl; [reflexivity |].
  destruct (p x) eqn:Hx; simpl.
  - rewrite Hq, (Hpq x Hx). reflexivity.
  - destruct (q x); [reflexivity | exact IH].
Qed.

Lemma update_one_length p f coll :
  List.length (Mongo.update_one p f coll) = List.length coll.
Proof.
  induction coll as [| x rest IH]; simpl; [reflexivity |].
  destruct (p x); simpl; congruence.
Qed.

Lemma update_one_no_match p f coll :
  Mongo.find_one p coll = None -> Mongo.update_one p f coll = coll.
Proof.
  induction coll as [| x rest IH]; simpl; [reflexivity |].
  destruct (p x); [discriminate | intros H; now rewrite IH].
Qed.
End CollectionFacts.

Lemma by_oid_refl (l : Lead) : by_oid (l_id l) l = true.
Proof. unfold by_oid. apply String.eqb_refl. Qed.

(** Under unique [_id]s, rewriting "the document with the [_id] of the one
    just found" rewrites the document found, whatever filter found it. *)
Lemma find_one_update_by_oid (q : Lead -> bool) (f : Lead -> Lead) (ls : list Lead) (l : Lead) :
  NoDup (map l_id ls) ->
  (forall x, q (f x) = q x) ->
  Mongo.find_one q ls = Some l ->
  Mongo.find_one q (Mongo.update_one (by_oid (l_id l)) f ls) = Some (f l).
Proof.
  intros Hnd Hq. induction ls as [| x rest IH]; simpl; [discriminate |].
  inversion Hnd as [| y ys Hnotin Hrest]; subst.
  destruct (q x) eqn:Hx.
  - intros [= ->]. rewrite by_oid_refl. simpl. now rewrite Hq, Hx.
  - intros Hfind.
    assert (Hin : In l rest) by (apply (find_some _ _ Hfind)).
    destruct (by_oid (l_id l) x) eqn:Hox.
    + unfold by_oid in Hox. apply String.eqb_eq in Hox.
      exfalso. apply Hnotin. rewrite Hox. now apply in_map.
    + simpl. rewrite Hx. now apply IH.
Qed.

Lemma update_by_oid_keeps_oids (oid : string) (f : Lead -> Lead) (ls : list Lead) :
  (forall x, l_id (f x) = l_id x) ->
  map l_id (Mongo.update_one (by_oid oid) f ls) = map l_id ls.
Proof.
  intros Hf. induction ls as [| x rest IH]; simpl; [reflexivity |].
  destruct (by_oid oid x); simpl; [now rewrite Hf | now rewrite IH].
Qed.

(** Rewriting a lead under its [_id] keeps the [_id]s unique. *)
Lemma update_by_oid_unique (oid : string) (f : Lead -> Lead) (db db' : Db) :
  (forall x, l_id (f x) = l_id x) ->
  leads db' = Mongo.update_one (by_oid oid) f (leads db) ->
  unique_lead_oids db ->
  unique_lead_oids db'.
Proof.
  unfold unique_lead_oids. intros Hf Hleads Hnd.
  now rewrite Hleads, update_by_oid_keeps_oids.
Qed.

(** [insert_lead] refuses a second document with the same [_id]. *)
Lemma insert_lead_unique (doc : Lead) (db db' : Db) :
  unique_lead_oids db ->
  insert_lead doc db = (db', Return tt) ->
  unique_lead_oids db'.
Proof.
  unfold insert_lead, unique_lead_oids, bind, gets, raise_if, raise, ret, modify.
  intros Hnd.
  destruct (existsb (fun l => by_oid (l_id doc) l || by_lead_id (l_lead_id doc) l) (leads db))
    eqn:Hdup; [discriminate |].
  intros [= <-]. cbn [leads set_leads]. unfold Mongo.insert_one.
  rewrite map_app. cbn [map].
  rewrite <- (rev_involutive (map l_id (leads db) ++ [l_id doc])).
  apply NoDup_rev. rewrite rev_app_distr. cbn [rev app].
  constructor.
  - rewrite <- in_rev. intros Hin. apply in_map_iff in Hin. destruct Hin as [l [Hid Hl]].
    assert (Hex : existsb (fun l => by_oid (l_id doc) l || by_lead_id (l_lead_id doc) l)
                    (leads db) = true).
    { apply existsb_exists. exists l. split; [exact Hl |].
      unfold by_oid. rewrite Hid, String.eqb_refl. reflexivity. }
    congruence.
  - now apply NoDup_rev.
Qed.

(** [find_lead] only reads. *)
Lemma find_lead_reads (lead_id : string) (db : Db) : fst (find_lead lead_id db) = db.
Proof.
  unfold find_lead, ObjectId, bind, gets, ret, raise.
  destruct (Nat.eqb (String.length lead_id) 24); [| reflexivity].
  now destruct (parse_object_id lead_id).
Qed.

Lemma find_lead_Some (lead_id : string) (db db' : Db) (l : Lead) :
  find_lead lead_id db = (db', Return (Some l)) <->
  db' = db /\ exists q, lead_filter lead_id = Some q /\ Mongo.find_one q (leads db) = Some l.
Proof.
  unfold find_lead, lead_filter, ObjectId, bind, gets, ret, raise.
  destruct (Nat.eqb (String.length lead_id) 24).
  - destruct (parse_object_id lead_id) as [oid |]; simpl.
    + split.
      * intros [= <- H]. split; [reflexivity |]. now exists (by_oid oid).
      * intros [-> [q [[= <-] H]]]. now rewrite H.
    + split; [discriminate | intros [_ [q [[=] _]]]].
  - split.
    + intros [= <- H]. split; [reflexivity |]. now exists (by_lead_id lead_id).
    + intros [-> [q [[= <-] H]]]. now rewrite H.
Qed.

(* ================================================================== *)
(** * Access control *)

Lemma opt_eqb_eq (a b : option string) : Py.opt_eqb a b = true <-> a = b.
Proof.
  destruct a as [x |], b as [y |]; simpl; split; try discriminate; try reflexivity.
  - intros H. apply String.eqb_eq in H. now subst.
  - intros [= ->]. apply String.eqb_refl.
Qed.

Lemma opt_eqb_neq (a b : option string) : Py.opt_eqb a b = false <-> a <> b.
Proof.
  split.
  - intros H E. apply opt_eqb_eq in E. congruence.
  - intros H. destruct (Py.opt_eqb a b) eqn:E; [| reflexivity].
    apply opt_eqb_eq in E. contradiction.
Qed.


(** C5, as stated, fails on [check_user_access]: admin1 is granted access
    to admin2, an admin_manager of the same organization who is not admin1. *)
Lemma check_user_access_admin_peer :
  cu_role (Sample.identity Sample.admin1) = "admin_manager" /\
  check_user_access (Sample.identity Sample.admin1) Sample.admin2 = true /\
  ~ admin_manager_rule (Sample.identity Sample.admin1) Sample.admin2.
Proof.
  split; [reflexivity |]. split; [reflexivity |].
  intros [_ [Hrole | Hid]].
  - apply Hrole. simpl. auto.
  - discriminate Hid.
Qed.

Lemma in_list_In (x : string) (l : list string) : Py.in_list x l = true <-> In x l.
Proof.
  unfold Py.in_list. rewrite existsb_exists. split.
  - intros [y [Hin Heq]]. apply String.eqb_eq in Heq. now subst.
  - intros Hin. exists x. split; [assumption | apply String.eqb_refl].
Qed.

Lemma in_list_not_In (x : string) (l : list string) : Py.in_list x l = false <-> ~ In x l.
Proof.
  rewrite <- in_list_In. destruct (Py.in_list x l); split; intros H; congruence.
Qed.

Lemma can_update_admin_manager (actor : CurrentUser) (target : User) :
  cu_role actor = "admin_manager" ->
  can_update actor target
  = Py.opt_eqb (u_organization_id target) (cu_organization_id actor)
    && (negb (Py.in_list (u_role target) ["super_admin"; "admin_manager"])
        || String.eqb (u_role target) "admin_manager"
           && String.eqb (u_id target) (cu_id actor)).
Proof.
  intros Hrole. unfold can_update. rewrite Hrole.
  change (String.eqb "admin_manager" "super_admin") with false.
  change (String.eqb "admin_manager" "admin_manager") with true.
  cbv iota.
  destruct (Py.opt_eqb (u_organization_id target) (cu_organization_id actor));
    [| reflexivity].
  destruct (Py.in_list (u_role target) ["super_admin"; "admin_manager"]); [| reflexivity].
  now destruct (String.eqb (u_role target) "admin_manager" && String.eqb (u_id target) (cu_id actor)).
Qed.

(** C5 (amended): for an admin_manager actor, the permission check of [update_user]
    lets the request through iff the target is in the actor's organization
    and is either below the admin tier or the actor's own admin_manager
    record, and a denied request ends in 403 with the store untouched; the
    helper [check_user_access], which guards the read endpoints, grants
    access iff the target is in the actor's organization, whatever its
    role. *)
Theorem admin_manager_user_access (actor : CurrentUser) (target : User) :
  cu_role actor = "admin_manager" ->
  (can_update actor target = true <->
     u_organization_id target = cu_organization_id actor /\
     (~ In (u_role target) ["super_admin"; "admin_manager"] \/
      (u_role target = "admin_manager" /\ u_id target = cu_id actor)))
  /\ (check_user_access actor target = true <->
        u_organization_id target = cu_organization_id actor)
  /\ (forall user_id oid user_update now db,
        parse_object_id user_id = Some oid ->
        Mongo.find_one (by_user_id oid) (users db) = Some target ->
        can_update actor target = false ->
        update_user user_id user_update actor now db
        = (db, Raise (HTTPException HTTP_403_FORBIDDEN "admin_manager cannot update this user"))).
Proof.
  intros Hrole. split; [| split].
  - rewrite (can_update_admin_manager actor target Hrole).
    destruct (Py.opt_eqb (u_organization_id target) (cu_organization_id actor)) eqn:Horg;
      [apply opt_eqb_eq in Horg | apply opt_eqb_neq in Horg];
    (destruct (Py.in_list (u_role target) ["super_admin"; "admin_manager"]) eqn:Hin;
      [apply in_list_In in Hin | apply in_list_not_In in Hin]);
    (destruct (String.eqb (u_role target) "admin_manager") eqn:Ham;
      [apply String.eqb_eq in Ham | apply String.eqb_neq in Ham]);
    (destruct (String.eqb (u_id target) (cu_id actor)) eqn:Hid;
      [apply String.eqb_eq in Hid | apply String.eqb_neq in Hid]);
    cbv [andb orb negb]; split; intros H; try reflexivity; try discriminate H;
      try tauto.
  - unfold check_user_access. rewrite Hrole. simpl. apply opt_eqb_eq.
  - intros user_id oid user_update now db Hparse Hfind Hdeny.
    unfold update_user. apply try_except_HTTPException.
    unfold ObjectId. rewrite Hparse.
    unfold bind, ret, gets, raise_if, raise. rewrite Hfind, Hdeny, Hrole. reflexivity.
Qed.

(** The theorem at work: admin1 may update jdoe and not admin2. *)
Lemma admin_manager_user_access_witness :
  can_update (Sample.identity Sample.admin1) (Sample.jdoe 0 []) = true /\
  update_user "64b000000000000000000004" (role_only "manager")
    (Sample.identity Sample.admin1) 7 (Sample.store 0 [])
  = (Sample.store 0 [],
     Raise (HTTPException HTTP_403_FORBIDDEN "admin_manager cannot update this user")).
Proof.
  split.
  - apply (proj1 (admin_manager_user_access (Sample.identity Sample.admin1) (Sample.jdoe 0 [])
                    eq_refl)).
    split; [reflexivity |]. left. simpl. intros [H | [H | []]]; discriminate H.
  - apply (proj2 (proj2 (admin_manager_user_access (Sample.identity Sample.admin1)
                           Sample.admin2 eq_refl))
             "64b000000000000000000004" "64b000000000000000000004");
      reflexivity.
Defined.

Lemma check_lead_access_manager (db : Db) (manager : CurrentUser) (lead : Lead) :
  cu_role manager = "manager" ->
  check_lead_access db manager lead
  = Py.opt_eqb (l_organization_id lead) (cu_organization_id manager)
    && match find_user (l_created_by lead) db with
       | Some creator => Py.opt_eqb (u_manager_id creator) (Some (cu_username manager))
       | None => false
       end.
Proof.
  intros Hrole. unfold check_lead_access. rewrite Hrole.
  change (String.eqb "manager" "super_admin") with false.
  change (String.eqb "manager" "admin_manager") with false.
  change (String.eqb "manager" "manager") with true.
  cbv iota.
  destruct (Py.opt_eqb (l_organization_id lead) (cu_organization_id manager)); [| reflexivity].
  destruct (find_user (l_created_by lead) db) as [creator |]; [| reflexivity].
  now destruct (Py.opt_eqb (u_manager_id creator) (Some (cu_username manager))).
Qed.

(** C6: for a manager M and a lead L whose creator C is in the user store,
    [check_lead_access] grants M access iff C's manager_id is M's username
    and L's organization_id is M's; the creator is looked up in the store
    passed to the check, so once a [$set] of [update_user] has given C
    another manager_id, the check on the resulting store denies M. *)
Theorem manager_lead_access (db : Db) (manager : CurrentUser) (lead : Lead)
    (creator_name : string) (creator : User) :
  cu_role manager = "manager" ->
  l_created_by lead = Some creator_name ->
  find_user (Some creator_name) db = Some creator ->
  (check_lead_access db manager lead = true <->
     u_manager_id creator = Some (cu_username manager) /\
     l_organization_id lead = cu_organization_id manager)
  /\ (forall (update_data : UserSet) (new_manager : string) (now : datetime) (by_whom : string),
        us_manager_id update_data = Some new_manager ->
        us_username update_data = None ->
        new_manager <> cu_username manager ->
        check_lead_access
          (set_users (Mongo.update_one (by_username creator_name)
                        (apply_user_set update_data now by_whom)) db)
          manager lead = false).
Proof.
  intros Hrole Hby Hfind. split.
  - rewrite (check_lead_access_manager db manager lead Hrole), Hby, Hfind.
    rewrite andb_true_iff, !opt_eqb_eq. tauto.
  - intros update_data new_manager now by_whom Hset Hname Hneq.
    rewrite (check_lead_access_manager _ manager lead Hrole), Hby.
    unfold find_user, set_users in *. simpl users.
    rewrite find_one_update_one.
    + rewrite Hfind. simpl option_map. cbv iota.
      replace (u_manager_id (apply_user_set update_data now by_whom creator))
        with (Some new_manager) by (simpl; now rewrite Hset).
      replace (Py.opt_eqb (Some new_manager) (Some (cu_username manager))) with false.
      * apply andb_false_r.
      * symmetry. apply opt_eqb_neq. congruence.
    + intros x. unfold by_username. simpl. now rewrite Hname.
Qed.

(** The theorem at work: msmith has access to jdoe's lead, and loses it when
    jdoe is handed over to another manager. *)
Lemma manager_lead_access_witness :
  check_lead_access (Sample.store_with_lead "pending") (Sample.identity Sample.msmith)
    (Sample.lead "pending") = true
  /\ check_lead_access
       (set_users (Mongo.update_one (by_username "jdoe")
                     (apply_user_set
                        {| us_username := None; us_email := None; us_role := None;
                           us_organization_id := None; us_first_name := None;
                           us_last_name := None; us_phone := None;
                           us_manager_id := Some "mjones"; us_terms_accepted := None;
                           us_is_active := None; us_points := None |}
                        300 "64b000000000000000000003"))
          (Sample.store_with_lead "pending"))
       (Sample.identity Sample.msmith) (Sample.lead "pending") = false.
Proof.
  pose proof (manager_lead_access (Sample.store_with_lead "pending")
                (Sample.identity Sample.msmith) (Sample.lead "pending")
                "jdoe" (Sample.jdoe 0 []) eq_refl eq_refl eq_refl) as [Hiff Hrevoke].
  split.
  - apply Hiff. split; reflexivity.
  - apply (Hrevoke _ "mjones"); [reflexivity | reflexivity | discriminate].
Defined.

(* ================================================================== *)
(** * Role changes in update_user *)

Lemma update_user_found (user_id oid : string) (user_update : UserUpdate)
    (actor : CurrentUser) (now : datetime) (db : Db) (target : User) :
  parse_object_id user_id = Some oid ->
  Mongo.find_one (by_user_id oid) (users db) = Some target ->
  update_user user_id user_update actor now db
  = try_except "Failed to update user"
      (raise_if (negb (can_update actor target))
         (HTTPException HTTP_403_FORBIDDEN (cu_role actor ++ " cannot update this user")%string) ;;
       role_change_validation (cu_role actor) user_update (u_role target) ;;
       canvasser_restriction (cu_role actor) user_update ;;
       write_user_update user_id oid user_update actor target now) db.
Proof.
  intros Hparse Hfind. unfold update_user, try_except, ObjectId. rewrite Hparse.
  unfold bind at 1, ret at 1. unfold bind at 1, gets at 1. rewrite Hfind. reflexivity.
Qed.

Lemma role_change_validation_attempt (current_role : string) (user_update : UserUpdate)
    (target_role new_role : string) (db : Db) :
  uu_role user_update = Some new_role ->
  new_role <> "" ->
  new_role <> target_role ->
  role_change_validation current_role user_update target_role db
  = if Py.in_list new_role (Py.dict_get current_role role_change_permissions [])
    then (db, Return tt)
    else (db, Raise (HTTPException HTTP_403_FORBIDDEN
                       (current_role ++ " cannot change user role to " ++ new_role)%string)).
Proof.
  intros Hrole Hne Hchg. unfold role_change_validation, role_change_requested, Py.truthy.
  rewrite Hrole.
  apply String.eqb_neq in Hne. apply String.eqb_neq in Hchg. rewrite Hne, Hchg.
  cbv [negb andb or_keep raise_if].
  now destruct (Py.in_list new_role (Py.dict_get current_role role_change_permissions [])).
Qed.

(** The table [role_change_permissions], read as a relation. *)
Lemma role_change_permissions_spec (current_role new_role : string) :
  Py.in_list new_role (Py.dict_get current_role role_change_permissions []) = true <->
  (current_role = "super_admin" /\ In new_role four_roles) \/
  (current_role = "admin_manager" /\ In new_role ["manager"; "canvasser"]).
Proof.
  unfold role_change_permissions, Py.dict_get.
  destruct (String.eqb current_role "super_admin") eqn:Hsa;
    [apply String.eqb_eq in Hsa | apply String.eqb_neq in Hsa].
  { rewrite in_list_In. subst. split; [intros H; left; now split |].
    intros [[_ H] | [H _]]; [exact H | discriminate H]. }
  destruct (String.eqb current_role "admin_manager") eqn:Ham;
    [apply String.eqb_eq in Ham | apply String.eqb_neq in Ham].
  { rewrite in_list_In. subst. split; [intros H; right; now split |].
    intros [[H _] | [_ H]]; [discriminate H | exact H]. }
  destruct (String.eqb current_role "manager");
    [| destruct (String.eqb current_role "canvasser")];
    (split; [discriminate | intros [[H _] | [H _]]; contradiction]).
Qed.

Lemma role_only_written (user_id oid new_role : string) (actor : CurrentUser)
    (target : User) (now : datetime) (db : Db) :
  Mongo.find_one (by_user_id oid) (users db) = Some target ->
  new_role <> "" ->
  new_role <> u_role target ->
  exists db' response,
    write_user_update user_id oid (role_only new_role) actor target now db
    = (db', Return response)
    /\ u_role (uur_user response) = new_role
    /\ Mongo.find_one (by_user_id oid) (users db') = Some (uur_user response).
Proof.
  intros Hfind Hne Hchg.
  apply String.eqb_neq in Hne. apply String.eqb_neq in Hchg.
  unfold write_user_update, role_change_requested, Py.truthy. cbn [uu_username uu_email
    uu_role uu_organization_id uu_manager_id uu_first_name uu_last_name uu_phone uu_is_active
    uu_points uu_terms_accepted role_only].
  rewrite Hne, Hchg. cbn [negb andb].
  unfold bind, ret, raise_if, modify, gets. cbn [option_map user_set_is_empty us_username
    us_email us_role us_organization_id us_first_name us_last_name us_phone us_manager_id
    us_terms_accepted us_is_active us_points set_users users].
  unfold ret. cbn beta iota.
  rewrite find_one_update_one by reflexivity. rewrite Hfind. cbn [option_map].
  do 2 eexists. split; [reflexivity |]. split; [reflexivity |].
  cbn [users set_users uur_user].
  rewrite find_one_update_one by reflexivity. now rewrite Hfind.
Qed.

Lemma role_change_refused (user_id oid : string) (user_update : UserUpdate)
    (actor : CurrentUser) (now : datetime) (db : Db) (target : User) (new_role : string) :
  parse_object_id user_id = Some oid ->
  Mongo.find_one (by_user_id oid) (users db) = Some target ->
  uu_role user_update = Some new_role ->
  new_role <> "" ->
  new_role <> u_role target ->
  Py.in_list new_role (Py.dict_get (cu_role actor) role_change_permissions []) = false ->
  exists detail,
    update_user user_id user_update actor now db
    = (db, Raise (HTTPException HTTP_403_FORBIDDEN detail)).
Proof.
  intros Hparse Hfind Hrole Hne Hchg Hnot.
  rewrite (update_user_found user_id oid user_update actor now db target Hparse Hfind).
  destruct (can_update actor target) eqn:Hgate.
  - eexists. apply try_except_HTTPException.
    unfold bind at 1. cbn [negb raise_if ret].
    unfold bind at 1.
    rewrite (role_change_validation_attempt (cu_role actor) user_update (u_role target)
               new_role db Hrole Hne Hchg), Hnot.
    reflexivity.
  - eexists. apply try_except_HTTPException.
    unfold bind at 1. cbn [negb raise_if raise]. reflexivity.
Qed.

(** C1: in [update_user], a request that changes the target's role goes
    through only if the actor is super_admin and the new role is one of the
    four roles, or the actor is admin_manager and the new role is manager or
    canvasser.  An admin_manager assigning admin_manager or super_admin, and
    a manager or canvasser assigning any role (to anyone, themselves
    included), get a 403 and the store is untouched.  Conversely a request
    that only sets the role succeeds for a super_admin with any of the four
    roles, and for an admin_manager who may update the target with manager
    or canvasser, and the new role is stored. *)
Theorem role_change_only_below_own_tier (user_id oid : string) (user_update : UserUpdate)
    (actor : CurrentUser) (now : datetime) (db : Db) (target : User) (new_role : string) :
  parse_object_id user_id = Some oid ->
  Mongo.find_one (by_user_id oid) (users db) = Some target ->
  new_role <> "" ->
  new_role <> u_role target ->
  (uu_role user_update = Some new_role ->
     (forall db' response,
        update_user user_id user_update actor now db = (db', Return response) ->
        (cu_role actor = "super_admin" /\ In new_role four_roles) \/
        (cu_role actor = "admin_manager" /\ In new_role ["manager"; "canvasser"]))
     /\ (cu_role actor = "admin_manager" ->
         In new_role ["admin_manager"; "super_admin"] ->
         exists detail,
           update_user user_id user_update actor now db
           = (db, Raise (HTTPException HTTP_403_FORBIDDEN detail)))
     /\ (In (cu_role actor) ["manager"; "canvasser"] ->
         exists detail,
           update_user user_id user_update actor now db
           = (db, Raise (HTTPException HTTP_403_FORBIDDEN detail))))
  /\ ((cu_role actor = "super_admin" /\ In new_role four_roles) \/
      (cu_role actor = "admin_manager" /\ can_update actor target = true
       /\ In new_role ["manager"; "canvasser"]) ->
      exists db' response,
        update_user user_id (role_only new_role) actor now db = (db', Return response)
        /\ u_role (uur_user response) = new_role
        /\ Mongo.find_one (by_user_id oid) (users db') = Some (uur_user response)).
Proof.
  intros Hparse Hfind Hne Hchg. split.
  - intros Hrole. split; [| split].
    + intros db' response Hrun.
      rewrite (update_user_found user_id oid user_update actor now db target Hparse Hfind)
        in Hrun.
      apply try_except_Return in Hrun.
      unfold bind at 1 in Hrun.
      destruct (can_update actor target); cbn [negb raise_if raise ret] in Hrun;
        [| discriminate Hrun].
      unfold bind at 1 in Hrun.
      rewrite (role_change_validation_attempt (cu_role actor) user_update (u_role target)
                 new_role db Hrole Hne Hchg) in Hrun.
      destruct (Py.in_list new_role (Py.dict_get (cu_role actor) role_change_permissions []))
        eqn:Hallowed; [| discriminate Hrun].
      now apply role_change_permissions_spec.
    + intros Hactor Hnew.
      apply (role_change_refused user_id oid user_update actor now db target new_role);
        try assumption.
      rewrite Hactor. destruct Hnew as [<- | [<- | []]]; reflexivity.
    + intros Hactor.
      apply (role_change_refused user_id oid user_update actor now db target new_role);
        try assumption.
      destruct Hactor as [<- | [<- | []]]; reflexivity.
  - intros Hallowed.
    rewrite (update_user_found user_id oid (role_only new_role) actor now db target
               Hparse Hfind).
    destruct (role_only_written user_id oid new_role actor target now db Hfind Hne Hchg)
      as [db' [response [Hwrite [Hstored Hread]]]].
    exists db', response. split; [| now split].
    apply try_except_Return.
    assert (Hgate : can_update actor target = true).
    { destruct Hallowed as [[Hactor _] | [_ [Hgate _]]]; [| exact Hgate].
      unfold can_update. now rewrite Hactor. }
    assert (Hnotcanvasser : String.eqb (cu_role actor) "canvasser" = false).
    { destruct Hallowed as [[Hactor _] | [Hactor _]]; now rewrite Hactor. }
    unfold bind at 1. rewrite Hgate. cbn [negb raise_if ret].
    unfold bind at 1.
    rewrite (role_change_validation_attempt (cu_role actor) (role_only new_role)
               (u_role target) new_role db eq_refl Hne Hchg).
    replace (Py.in_list new_role (Py.dict_get (cu_role actor) role_change_permissions []))
      with true
      by (symmetry; apply role_change_permissions_spec; tauto).
    unfold bind at 1, canvasser_restriction. rewrite Hnotcanvasser. cbn [ret].
    exact Hwrite.
Qed.

(** The theorem at work on the sample store: admin1 may not make jdoe an
    admin_manager, may make jdoe a manager, and msmith may not change
    jdoe's role. *)
Lemma role_change_only_below_own_tier_witness :
  (exists detail,
     update_user "64b000000000000000000001" (role_only "admin_manager")
       (Sample.identity Sample.admin1) 7 (Sample.store 0 [])
     = (Sample.store 0 [], Raise (HTTPException HTTP_403_FORBIDDEN detail)))
  /\ (exists db' response,
        update_user "64b000000000000000000001" (role_only "manager")
          (Sample.identity Sample.admin1) 7 (Sample.store 0 []) = (db', Return response)
        /\ u_role (uur_user response) = "manager"
        /\ Mongo.find_one (by_user_id "64b000000000000000000001") (users db')
           = Some (uur_user response)).
Proof.
  split.
  - refine (proj1 (proj2 (proj1
      (role_change_only_below_own_tier "64b000000000000000000001"
         "64b000000000000000000001" (role_only "admin_manager")
         (Sample.identity Sample.admin1) 7 (Sample.store 0 []) (Sample.jdoe 0 [])
         "admin_manager" eq_refl eq_refl _ _) eq_refl)) eq_refl _).
    + discriminate.
    + discriminate.
    + simpl. auto.
  - refine (proj2
      (role_change_only_below_own_tier "64b000000000000000000001"
         "64b000000000000000000001" (role_only "manager")
         (Sample.identity Sample.admin1) 7 (Sample.store 0 []) (Sample.jdoe 0 [])
         "manager" eq_refl eq_refl _ _) _).
    + discriminate.
    + discriminate.
    + right. split; [reflexivity |]. split; [reflexivity |]. simpl. auto.
Defined.

(* ================================================================== *)
(** * The lead lifecycle *)

Lemma find_lead_outcome (lead_id : string) (db : Db) :
  find_lead lead_id db = (db, Raise (Exception "InvalidId"))
  \/ exists found, find_lead lead_id db = (db, Return found).
Proof.
  unfold find_lead, ObjectId, bind, gets, ret, raise.
  destruct (Nat.eqb (String.length lead_id) 24); [| right; eexists; reflexivity].
  destruct (parse_object_id lead_id); [right; eexists; reflexivity | now left].
Qed.

(** [approve_lead], case by case. *)
Lemma approve_lead_found (lead_id : string) (approval_data : LeadApproval)
    (current_user : CurrentUser) (now : datetime) (db : Db) (lead : Lead) :
  find_lead lead_id db = (db, Return (Some lead)) ->
  approve_lead lead_id approval_data current_user now db
  = if negb (Py.in_list (cu_role current_user) approver_roles) then
      (db, Raise (HTTPException HTTP_403_FORBIDDEN "You don't have permission to approve leads"))
    else if negb (String.eqb (l_lead_status lead) "pending") then
      (db, Raise invalid_state)
    else
      (after_approval current_user approval_data now lead db,
       Return {| lar_message :=
                   ("Lead " ++ (if la_approve approval_data then "approved" else "rejected")
                    ++ " successfully")%string;
                 lar_lead_id := l_lead_id lead;
                 lar_new_status := if la_approve approval_data then "approved" else "cancelled";
                 lar_points_awarded := if la_approve approval_data then 25 else 0 |}).
Proof.
  intros Hfind. unfold approve_lead, try_except, after_approval, approver_roles.
  unfold bind at 1. rewrite Hfind.
  unfold bind at 1.
  destruct (Py.in_list (cu_role current_user) ["super_admin"; "admin_manager"; "manager"]);
    cbn [negb raise_if raise ret]; [| reflexivity].
  unfold bind at 1.
  destruct (String.eqb (l_lead_status lead) "pending");
    cbn [negb raise_if raise ret]; [| reflexivity].
  unfold bind at 1.
  destruct (la_approve approval_data).
  - unfold bind at 1.
    destruct (Py.truthy_opt (l_created_by lead)); reflexivity.
  - reflexivity.
Qed.

Lemma approve_lead_not_found (lead_id : string) (approval_data : LeadApproval)
    (current_user : CurrentUser) (now : datetime) (db : Db) :
  (forall lead, find_lead lead_id db <> (db, Return (Some lead))) ->
  exists e, approve_lead lead_id approval_data current_user now db = (db, Raise e).
Proof.
  intros Hnone. unfold approve_lead, try_except. unfold bind at 1.
  destruct (find_lead_outcome lead_id db) as [H | [[lead |] H]]; rewrite H.
  - eexists. reflexivity.
  - now destruct (Hnone lead).
  - eexists. reflexivity.
Qed.

(** A filter of [find_lead] looks at [_id] or at [lead_id] only. *)
Lemma lead_filter_stable (lead_id : string) (q : Lead -> bool) (f : Lead -> Lead) :
  lead_filter lead_id = Some q ->
  (forall x, l_id (f x) = l_id x) ->
  (forall x, l_lead_id (f x) = l_lead_id x) ->
  forall x, q (f x) = q x.
Proof.
  unfold lead_filter. intros Hq Hid Hlead x.
  destruct (Nat.eqb (String.length lead_id) 24).
  - destruct (parse_object_id lead_id) as [oid |]; [| discriminate Hq].
    injection Hq as <-. unfold by_oid. now rewrite Hid.
  - injection Hq as <-. unfold by_lead_id. now rewrite Hlead.
Qed.

(** After the found lead has been rewritten under its [_id], looking the
    same identifier up again finds the rewritten lead. *)
Lemma find_lead_after_update (lead_id : string) (db db' : Db) (lead : Lead)
    (f : Lead -> Lead) :
  unique_lead_oids db ->
  (forall x, l_id (f x) = l_id x) ->
  (forall x, l_lead_id (f x) = l_lead_id x) ->
  find_lead lead_id db = (db, Return (Some lead)) ->
  leads db' = Mongo.update_one (by_oid (l_id lead)) f (leads db) ->
  find_lead lead_id db' = (db', Return (Some (f lead))).
Proof.
  intros Hnd Hid Hlead Hfind Hleads.
  apply find_lead_Some in Hfind. destruct Hfind as [_ [q [Hq Hfound]]].
  apply find_lead_Some. split; [reflexivity |]. exists q. split; [exact Hq |].
  rewrite Hleads. apply find_one_update_by_oid; try assumption.
  now apply (lead_filter_stable lead_id q f).
Qed.

Lemma leads_after_approval (current_user : CurrentUser) (approval_data : LeadApproval)
    (now : datetime) (lead : Lead) (db : Db) :
  leads (after_approval current_user approval_data now lead db)
  = Mongo.update_one (by_oid (l_id lead))
      (if la_approve approval_data then approved_update current_user approval_data now
       else rejected_update current_user approval_data now)
      (leads db).
Proof.
  unfold after_approval, awarded.
  destruct (la_approve approval_data); [| reflexivity].
  destruct (Py.truthy_opt (l_created_by lead)); [| reflexivity].
  now destruct (l_created_by lead).
Qed.

(** C2: [approve_lead] succeeds only on a lead whose lead_status is
    "pending".  On a lead in any other status the call fails and leaves the
    store as it was, and for a caller with an approver role the failure is
    the 400 "Only pending leads can be approved or rejected"; in
    particular, after a first successful call (approval or rejection) every
    further call by an approver fails with that error and changes nothing. *)
Theorem approve_only_from_pending (lead_id : string) (approval_data : LeadApproval)
    (current_user : CurrentUser) (now : datetime) (db : Db) :
  (forall db' response,
     approve_lead lead_id approval_data current_user now db = (db', Return response) ->
     exists lead,
       find_lead lead_id db = (db, Return (Some lead)) /\ l_lead_status lead = "pending")
  /\ (forall lead,
        find_lead lead_id db = (db, Return (Some lead)) ->
        l_lead_status lead <> "pending" ->
        (exists e, approve_lead lead_id approval_data current_user now db = (db, Raise e))
        /\ (In (cu_role current_user) approver_roles ->
            approve_lead lead_id approval_data current_user now db
            = (db, Raise invalid_state)))
  /\ (forall db' response second_data second_user later,
        unique_lead_oids db ->
        approve_lead lead_id approval_data current_user now db = (db', Return response) ->
        In (cu_role second_user) approver_roles ->
        approve_lead lead_id second_data second_user later db' = (db', Raise invalid_state)).
Proof.
  assert (Hsuccess : forall db' response,
            approve_lead lead_id approval_data current_user now db = (db', Return response) ->
            exists lead,
              find_lead lead_id db = (db, Return (Some lead))
              /\ l_lead_status lead = "pending"
              /\ db' = after_approval current_user approval_data now lead db).
  { intros db' response Hrun.
    destruct (find_lead_outcome lead_id db) as [H | [[lead |] H]].
    - unfold approve_lead, try_except in Hrun. unfold bind at 1 in Hrun.
      rewrite H in Hrun. discriminate Hrun.
    - exists lead. split; [exact H |].
      rewrite (approve_lead_found lead_id approval_data current_user now db lead H) in Hrun.
      destruct (negb (Py.in_list (cu_role current_user) approver_roles));
        [discriminate Hrun |].
      destruct (String.eqb (l_lead_status lead) "pending") eqn:Hst;
        cbn [negb] in Hrun; [| discriminate Hrun].
      apply String.eqb_eq in Hst. injection Hrun as <- _. now split.
    - unfold approve_lead, try_except in Hrun. unfold bind at 1 in Hrun.
      rewrite H in Hrun. discriminate Hrun. }
  assert (Hrefused : forall (a : LeadApproval) (cu : CurrentUser) (t : datetime) (d : Db)
                            (lead : Lead),
            find_lead lead_id d = (d, Return (Some lead)) ->
            l_lead_status lead <> "pending" ->
            (exists e, approve_lead lead_id a cu t d = (d, Raise e))
            /\ (In (cu_role cu) approver_roles ->
                approve_lead lead_id a cu t d = (d, Raise invalid_state))).
  { intros a cu t d lead Hfind Hst.
    rewrite (approve_lead_found lead_id a cu t d lead Hfind).
    apply String.eqb_neq in Hst. rewrite Hst. cbn [negb].
    split.
    - destruct (negb (Py.in_list (cu_role cu) approver_roles)); eexists; reflexivity.
    - intros Hrole. apply in_list_In in Hrole. now rewrite Hrole. }
  split; [| split].
  - intros db' response Hrun.
    destruct (Hsuccess db' response Hrun) as [lead [Hfind [Hst _]]]. now exists lead.
  - intros lead. apply Hrefused.
  - intros db' response second_data second_user later Hnd Hrun Hrole.
    destruct (Hsuccess db' response Hrun) as [lead [Hfind [Hst ->]]].
    set (f := if la_approve approval_data
              then approved_update current_user approval_data now
              else rejected_update current_user approval_data now).
    assert (Hagain : find_lead lead_id (after_approval current_user approval_data now lead db)
                     = (after_approval current_user approval_data now lead db,
                        Return (Some (f lead)))).
    { apply (find_lead_after_update lead_id db); try assumption.
      - intros x. unfold f. now destruct (la_approve approval_data).
      - intros x. unfold f. now destruct (la_approve approval_data).
      - apply leads_after_approval. }
    apply (Hrefused second_data second_user later _ (f lead) Hagain); [| exact Hrole].
    unfold f. destruct (la_approve approval_data); discriminate.
Qed.

(** The theorem at work: msmith approves jdoe's pending lead, and admin1's
    approval of the same lead afterwards is refused. *)
Lemma approve_only_from_pending_witness :
  exists db' response,
    approve_lead "LEAD_1_0001" Sample.approval (Sample.identity Sample.msmith) 200
      (Sample.store_with_lead "pending") = (db', Return response)
    /\ approve_lead "LEAD_1_0001" Sample.approval (Sample.identity Sample.admin1) 250 db'
       = (db', Raise invalid_state)
    /\ approve_lead "LEAD_1_0001" Sample.approval (Sample.identity Sample.admin1) 250
         (Sample.store_with_lead "sold")
       = (Sample.store_with_lead "sold", Raise invalid_state).
Proof.
  do 2 eexists. split; [reflexivity |]. split.
  - refine (proj2 (proj2
      (approve_only_from_pending "LEAD_1_0001" Sample.approval
         (Sample.identity Sample.msmith) 200 (Sample.store_with_lead "pending")))
      _ _ Sample.approval (Sample.identity Sample.admin1) 250 _ eq_refl _).
    + unfold unique_lead_oids. simpl. constructor; [intros [] | constructor].
    + simpl. auto.
  - refine (proj2 (proj1 (proj2
      (approve_only_from_pending "LEAD_1_0001" Sample.approval
         (Sample.identity Sample.admin1) 250 (Sample.store_with_lead "sold")))
      (Sample.lead "sold") eq_refl _) _).
    + discriminate.
    + simpl. auto.
Defined.

(** C9: a call of [approve_lead] with approve=false never writes to the
    user collection, so every user's points and points_history are as
    before, whatever the outcome.  A failed call leaves the whole store as
    it was; a successful one rewrites the lead found, and nothing else, to
    lead_status "cancelled" with the rejection reason of the request. *)
Theorem reject_leaves_points (lead_id : string) (approval_data : LeadApproval)
    (current_user : CurrentUser) (now : datetime) (db db' : Db)
    (outcome : Outcome ApproveResponse) :
  la_approve approval_data = false ->
  approve_lead lead_id approval_data current_user now db = (db', outcome) ->
  users db' = users db
  /\ (forall username, find_user username db' = find_user username db)
  /\ competitions db' = competitions db
  /\ (forall e, outcome = Raise e -> db' = db)
  /\ (forall response, outcome = Return response ->
        exists lead,
          find_lead lead_id db = (db, Return (Some lead))
          /\ leads db' = Mongo.update_one (by_oid (l_id lead))
                           (rejected_update current_user approval_data now) (leads db)
          /\ l_lead_status (rejected_update current_user approval_data now lead) = "cancelled"
          /\ l_rejection_reason (rejected_update current_user approval_data now lead)
             = la_rejection_reason approval_data
          /\ lar_points_awarded response = 0
          /\ (unique_lead_oids db ->
              find_lead lead_id db'
              = (db', Return (Some (rejected_update current_user approval_data now lead))))).
Proof.
  intros Hreject Hrun.
  assert (Hcases :
            (db' = db /\ exists e, outcome = Raise e)
            \/ exists lead response,
                 find_lead lead_id db = (db, Return (Some lead))
                 /\ outcome = Return response
                 /\ lar_points_awarded response = 0
                 /\ db' = set_leads (Mongo.update_one (by_oid (l_id lead))
                                        (rejected_update current_user approval_data now)) db).
  { destruct (find_lead_outcome lead_id db) as [H | [[lead |] H]].
    - left. unfold approve_lead, try_except in Hrun. unfold bind at 1 in Hrun.
      rewrite H in Hrun. injection Hrun as <- <-. split; [reflexivity | eexists; reflexivity].
    - rewrite (approve_lead_found lead_id approval_data current_user now db lead H) in Hrun.
      unfold after_approval in Hrun. rewrite Hreject in Hrun.
      destruct (negb (Py.in_list (cu_role current_user) approver_roles)).
      { left. injection Hrun as <- <-. split; [reflexivity | eexists; reflexivity]. }
      destruct (negb (String.eqb (l_lead_status lead) "pending")).
      { left. injection Hrun as <- <-. split; [reflexivity | eexists; reflexivity]. }
      right. injection Hrun as <- <-. exists lead. eexists.
      split; [exact H |]. split; [reflexivity |]. split; reflexivity.
    - left. unfold approve_lead, try_except in Hrun. unfold bind at 1 in Hrun.
      rewrite H in Hrun. injection Hrun as <- <-. split; [reflexivity | eexists; reflexivity]. }
  destruct Hcases as [[-> [e ->]] | [lead [response [Hfind [-> [Hzero ->]]]]]].
  - repeat split; try reflexivity. intros response [=].
  - split; [reflexivity |]. split; [reflexivity |]. split; [reflexivity |].
    split; [intros e [=] |].
    intros response' [= <-]. exists lead.
    split; [exact Hfind |]. split; [reflexivity |]. split; [reflexivity |].
    split; [reflexivity |]. split; [exact Hzero |].
    intros Hnd. apply (find_lead_after_update lead_id db); try assumption; reflexivity.
Qed.

(** The theorem at work: msmith rejects jdoe's pending lead. *)
Lemma reject_leaves_points_witness :
  users (fst (approve_lead "LEAD_1_0001" Sample.rejection (Sample.identity Sample.msmith) 200
                (Sample.store_with_lead "pending")))
  = users (Sample.store_with_lead "pending")
  /\ option_map l_lead_status
       (Mongo.find_one (by_lead_id "LEAD_1_0001")
          (leads (fst (approve_lead "LEAD_1_0001" Sample.rejection
                         (Sample.identity Sample.msmith) 200
                         (Sample.store_with_lead "pending")))))
     = Some "cancelled".
Proof.
  split; [| reflexivity].
  exact (proj1 (reject_leaves_points "LEAD_1_0001" Sample.rejection
                  (Sample.identity Sample.msmith) 200 (Sample.store_with_lead "pending")
                  _ _ eq_refl eq_refl)).
Defined.

(* ================================================================== *)
(** * Point awards of mark-sold and mark-superstar *)

Lemma leads_awarded (username : option string) (n : Z) (reason : Reason) (now : datetime)
    (db : Db) :
  leads (awarded username n reason now db) = leads db.
Proof. now destruct username. Qed.




(** The literal is the quotient 1/100 as binary64 division rounds it, and
    it lies within 12 * 2^-59 / 100 above 1/100. *)
Lemma lit_0_01_is_nearest :
  Float.lit_0_01 = SFdiv Float.prec Float.emax (Float.of_Z 1) (Float.of_Z 100)
  /\ valid_binary Float.prec Float.emax Float.lit_0_01 = true
  /\ 100 * 5764607523034235 - 2 ^ 59 = 12
  /\ 2 ^ 59 - 100 * (5764607523034235 - 1) = 88.
Proof. repeat split; vm_compute; reflexivity. Qed.

(** 1000.0 * 0.01 is 10.0 exactly. *)
Lemma thousand_times_0_01 :
  Float.mul (Float.of_Z 1000) Float.lit_0_01 = Float.of_Z 10
  /\ commission_points_of (Float.of_Z 1000) = Some 10.
Proof. split; vm_compute; reflexivity. Qed.







(** [mark_lead_sold], case by case. *)
Lemma mark_lead_sold_found (lead_id : string) (sale_data : LeadSold)
    (current_user : CurrentUser) (now : datetime) (db : Db) (lead : Lead) :
  find_lead lead_id db = (db, Return (Some lead)) ->
  mark_lead_sold lead_id sale_data current_user now db
  = if negb (check_lead_access db current_user lead) then
      (db, Raise (HTTPException HTTP_403_FORBIDDEN
                    "You don't have permission to mark this lead as sold"))
    else
      match commission_points_of (ls_sale_amount sale_data) with
      | None =>
          (after_sale current_user sale_data now lead db,
           Raise (HTTPException HTTP_500_INTERNAL_SERVER_ERROR
                    ("Failed to mark lead as sold: "
                     ++ Float.int_error
                          (Float.mul (ls_sale_amount sale_data) Float.lit_0_01))%string))
      | Some commission_points =>
          if Py.truthy_opt (l_created_by lead) && negb (Py.int64 commission_points) then
            (after_sale current_user sale_data now lead db,
             Raise (HTTPException HTTP_500_INTERNAL_SERVER_ERROR
                      "Failed to mark lead as sold: MongoDB can only handle up to 8-byte ints"))
          else
            ((if Py.truthy_opt (l_created_by lead)
              then awarded (l_created_by lead) commission_points
                     (LeadSoldFor (l_lead_id lead) (ls_sale_amount sale_data)) now
                     (after_sale current_user sale_data now lead db)
              else after_sale current_user sale_data now lead db),
             Return {| lsr_message := "Lead marked as sold successfully";
                       lsr_lead_id := l_lead_id lead;
                       lsr_sale_amount := ls_sale_amount sale_data;
                       lsr_commission_points := commission_points |})
      end.
Proof.
  intros Hfind. unfold mark_lead_sold, try_except, after_sale.
  unfold bind at 1. rewrite Hfind.
  unfold bind at 1, gets at 1.
  destruct (check_lead_access db current_user lead); cbn [negb]; [| reflexivity].
  unfold bind at 1. cbn [raise_if ret].
  unfold bind at 1, modify at 1.
  destruct (commission_points_of (ls_sale_amount sale_data)) as [points |]; [| reflexivity].
  unfold bind at 1.
  destruct (Py.truthy_opt (l_created_by lead)); cbn [andb]; [| reflexivity].
  unfold award_points, encode_int, bson_overflow. unfold bind at 1.
  destruct (Py.int64 points); reflexivity.
Qed.

(** C4, as stated, fails: admin1 marks a cancelled lead of the organization
    as sold; the call succeeds and the lead ends with lead_status "sold",
    although [list_leads] reports the cancelled lead with can_mark_sold
    false. *)
Lemma mark_sold_cancelled_lead :
  l_lead_status (Sample.lead "cancelled") = "cancelled"
  /\ can_mark_sold (Sample.lead "cancelled") = false
  /\ exists db' response,
       mark_lead_sold "LEAD_1_0001" (Sample.sale 1000) (Sample.identity Sample.admin1) 300
         (Sample.store_with_lead "cancelled") = (db', Return response)
       /\ option_map l_lead_status (Mongo.find_one (by_lead_id "LEAD_1_0001") (leads db'))
          = Some "sold".
Proof. do 2 (split; [reflexivity |]). do 2 eexists. split; reflexivity. Qed.

(** C4 (amended): [mark_lead_sold] has no precondition on lead_status.  For
    a lead found in any status, a caller whom [check_lead_access] refuses
    gets a 403 and the store is untouched; for a caller whom it admits, the
    lead is rewritten with lead_status "sold", the sale amount, the sale
    date (the current time when the request gives none) and sold_by the
    caller, whatever the call then answers. *)
Theorem mark_sold_from_any_status (lead_id : string) (sale_data : LeadSold)
    (current_user : CurrentUser) (now : datetime) (db : Db) (lead : Lead) :
  find_lead lead_id db = (db, Return (Some lead)) ->
  (check_lead_access db current_user lead = false ->
   mark_lead_sold lead_id sale_data current_user now db
   = (db, Raise (HTTPException HTTP_403_FORBIDDEN
                   "You don't have permission to mark this lead as sold")))
  /\ (check_lead_access db current_user lead = true ->
      forall db' outcome,
        mark_lead_sold lead_id sale_data current_user now db = (db', outcome) ->
        leads db' = Mongo.update_one (by_oid (l_id lead))
                      (sold_update current_user sale_data now) (leads db)
        /\ l_lead_status (sold_update current_user sale_data now lead) = "sold"
        /\ l_sale_amount (sold_update current_user sale_data now lead)
           = Some (ls_sale_amount sale_data)
        /\ l_sale_date (sold_update current_user sale_data now lead)
           = Some (match ls_sale_date sale_data with Some date => date | None => now end)
        /\ l_sold_by (sold_update current_user sale_data now lead)
           = Some (cu_username current_user)
        /\ (unique_lead_oids db ->
            find_lead lead_id db'
            = (db', Return (Some (sold_update current_user sale_data now lead))))).
Proof.
  intros Hfind. split.
  - intros Hdenied.
    rewrite (mark_lead_sold_found lead_id sale_data current_user now db lead Hfind), Hdenied.
    reflexivity.
  - intros Hallowed db' outcome Hrun.
    rewrite (mark_lead_sold_found lead_id sale_data current_user now db lead Hfind), Hallowed
      in Hrun.
    cbn [negb] in Hrun.
    assert (Hleads : leads db' = Mongo.update_one (by_oid (l_id lead))
                                   (sold_update current_user sale_data now) (leads db)).
    { destruct (commission_points_of (ls_sale_amount sale_data)) as [points |].
      - destruct (Py.truthy_opt (l_created_by lead)); cbn [andb] in Hrun.
        + destruct (Py.int64 points); cbn [negb] in Hrun; injection Hrun as <- _;
            [now rewrite leads_awarded | reflexivity].
        + injection Hrun as <- _. reflexivity.
      - injection Hrun as <- _. reflexivity. }
    split; [exact Hleads |]. do 4 (split; [reflexivity |]).
    intros Hnd. apply (find_lead_after_update lead_id db); try assumption; reflexivity.
Qed.

(** The theorem at work: a sale recorded by admin1 on an approved lead. *)
Lemma mark_sold_from_any_status_witness :
  mark_lead_sold "LEAD_1_0001" (Sample.sale 1000) (Sample.identity Sample.msmith) 300
    (set_users (fun _ => [Sample.msmith]) (Sample.store_with_lead "approved"))
  = (set_users (fun _ => [Sample.msmith]) (Sample.store_with_lead "approved"),
     Raise (HTTPException HTTP_403_FORBIDDEN
              "You don't have permission to mark this lead as sold"))
  /\ l_lead_status (sold_update (Sample.identity Sample.admin1) (Sample.sale 1000) 300
                      (Sample.lead "approved")) = "sold".
Proof.
  split.
  - exact (proj1 (mark_sold_from_any_status "LEAD_1_0001" (Sample.sale 1000)
                    (Sample.identity Sample.msmith) 300
                    (set_users (fun _ => [Sample.msmith]) (Sample.store_with_lead "approved"))
                    (Sample.lead "approved") eq_refl) eq_refl).
  - exact (proj1 (proj2 (proj2 (mark_sold_from_any_status "LEAD_1_0001" (Sample.sale 1000)
                    (Sample.identity Sample.admin1) 300 (Sample.store_with_lead "approved")
                    (Sample.lead "approved") eq_refl) eq_refl _ _ eq_refl))).
Defined.











(* ================================================================== *)
(** * The scenario of section 8 *)


(* ================================================================== *)
(** * The participant minimum of create_competition *)

Section CreateCompetitionFacts.

Variable check_competition_permission : CurrentUser -> string -> bool.
Variable generate_competition_id : Db -> string -> string.
Variable participants_of : Db -> Competition -> list string.

Let create := create_competition check_competition_permission generate_competition_id
                participants_of.

(** The check that runs before the insert: in mode "specific", a
    selection shorter than [min_participants] is refused and nothing is
    written. *)
Lemma create_competition_short_selection (competition_data : CompetitionCreate)
    (current_user : CurrentUser) (now : datetime) (inserted_id : string) (db : Db)
    (chosen : list string) :
  check_competition_permission current_user "create" = true ->
  cc_start_date competition_data < cc_end_date competition_data ->
  Py.truthy_opt (cu_organization_id current_user) = true ->
  cc_participant_selection_mode competition_data = "specific" ->
  cc_selected_participants competition_data = Some chosen ->
  Py.len chosen < cc_min_participants competition_data ->
  create competition_data current_user now inserted_id db
  = (db, Raise (HTTPException HTTP_400_BAD_REQUEST
                  ("Must select at least " ++ Py.str (cc_min_participants competition_data)
                   ++ " participants")%string)).
Proof.
  intros Hperm Hdates Horg Hmode Hsel Hshort.
  unfold create, create_competition. apply try_except_HTTPException.
  unfold bind at 1. rewrite Hperm. cbn [negb raise_if ret].
  unfold bind at 1.
  replace (cc_end_date competition_data <=? cc_start_date competition_data) with false
    by (symmetry; apply Z.leb_gt; exact Hdates).
  cbn [raise_if ret].
  unfold bind at 1. rewrite Horg. cbn [negb raise_if ret].
  unfold bind at 1. rewrite Hmode, Hsel. cbn [String.eqb Ascii.eqb Bool.eqb or_keep].
  unfold bind at 1.
  replace (Py.len chosen <? cc_min_participants competition_data) with true
    by (symmetry; apply Z.ltb_lt; exact Hshort).
  rewrite orb_true_r. reflexivity.
Qed.

(** C7 fails on the code: the check of the effective participant set runs
    after [insert_one].  When the selection mode is not "specific" and
    the participants found for the inserted document are fewer than
    [min_participants], the request is rejected with a 400, and the
    competition document is in the store all the same. *)
Theorem create_competition_persists_rejected (competition_data : CompetitionCreate)
    (current_user : CurrentUser) (now : datetime) (inserted_id : string) (db : Db)
    (org_id : string) :
  let doc := competition_doc competition_data current_user now inserted_id org_id
               (generate_competition_id db org_id)
               (cc_selected_participants competition_data) in
  let db' := set_competitions (Mongo.insert_one doc) db in
  check_competition_permission current_user "create" = true ->
  cc_start_date competition_data < cc_end_date competition_data ->
  cu_organization_id current_user = Some org_id ->
  org_id <> "" ->
  cc_participant_selection_mode competition_data <> "specific" ->
  existsb (fun c => String.eqb (c_id c) inserted_id
                    || String.eqb (c_competition_id c) (generate_competition_id db org_id))
    (competitions db) = false ->
  Py.len (participants_of db' doc) < cc_min_participants competition_data ->
  create competition_data current_user now inserted_id db
  = (db', Raise (HTTPException HTTP_400_BAD_REQUEST
                   ("Not enough eligible participants. Found "
                    ++ Py.str (Py.len (participants_of db' doc))
                    ++ ", need " ++ Py.str (cc_min_participants competition_data))%string))
  /\ In doc (competitions db')
  /\ List.length (competitions db') = S (List.length (competitions db)).
Proof.
  intros doc db' Hperm Hdates Horg Hne Hmode Hfresh Hshort.
  split; [| split].
  - unfold create, create_competition. apply try_except_HTTPException.
    unfold bind at 1. rewrite Hperm. cbn [negb raise_if ret].
    unfold bind at 1.
    replace (cc_end_date competition_data <=? cc_start_date competition_data) with false
      by (symmetry; apply Z.leb_gt; exact Hdates).
    cbn [raise_if ret].
    unfold bind at 1. rewrite Horg.
    replace (Py.truthy_opt (Some org_id)) with true
      by (symmetry; unfold Py.truthy_opt, Py.truthy;
          apply negb_true_iff; now apply String.eqb_neq).
    cbn [negb raise_if ret].
    unfold bind at 1.
    replace (String.eqb (cc_participant_selection_mode competition_data) "specific")
      with false by (symmetry; now apply String.eqb_neq).
    cbn [ret].
    unfold bind at 1, gets at 1.
    unfold bind at 1, insert_competition.
    unfold bind at 1, gets at 1. cbn [c_id c_competition_id competition_doc].
    rewrite Hfresh. unfold bind at 1. cbn [raise_if ret]. unfold modify at 1.
    unfold bind at 1, gets at 1.
    fold doc. fold db'.
    replace (Py.len (participants_of db' doc) <? cc_min_participants competition_data)
      with true by (symmetry; apply Z.ltb_lt; exact Hshort).
    reflexivity.
  - unfold db', set_competitions, Mongo.insert_one. cbn [competitions].
    apply in_or_app. right. now left.
  - unfold db', set_competitions, Mongo.insert_one. cbn [competitions].
    rewrite length_app. cbn [List.length]. lia.
Qed.

End CreateCompetitionFacts.

(** The theorem at work, with [get_competition_participants] as the
    specification describes it: admin1 asks for a competition among the
    canvassers of org_1 with at least 2 participants; jdoe is the only
    canvasser, the request is refused, and the competition is stored. *)
Lemma create_competition_persists_rejected_witness :
  exists doc,
    create_competition Sample.competition_permission Sample.competition_id_of
      get_competition_participants Sample.competition_form
      (Sample.identity Sample.admin1) 500 "64d000000000000000000001" (Sample.store 0 [])
    = (set_competitions (Mongo.insert_one doc) (Sample.store 0 []),
       Raise (HTTPException HTTP_400_BAD_REQUEST
                "Not enough eligible participants. Found 1, need 2"))
    /\ competitions (set_competitions (Mongo.insert_one doc) (Sample.store 0 [])) = [doc]
    /\ c_min_participants doc = 2.
Proof.
  eexists. split.
  - refine (proj1 (create_competition_persists_rejected Sample.competition_permission
                     Sample.competition_id_of get_competition_participants
                     Sample.competition_form (Sample.identity Sample.admin1) 500
                     "64d000000000000000000001" (Sample.store 0 []) "org_1"
                     eq_refl _ eq_refl _ _ eq_refl _)).
    + reflexivity.
    + discriminate.
    + discriminate.
    + reflexivity.
  - split; reflexivity.
Defined.


(* ================================================================== *)
(** * Further properties: who may see and change what *)

(** X1: whoever passes the permission check of [update_user] for a target
    also passes [check_user_access] for it; the two differ only for an
    admin_manager and a target of the admin tier, which may be read and not
    updated. *)
Theorem update_permission_implies_access (actor : CurrentUser) (target : User) :
  (can_update actor target = true -> check_user_access actor target = true)
  /\ (check_user_access actor target = true ->
      can_update actor target = false ->
      cu_role actor = "admin_manager"
      /\ In (u_role target) ["super_admin"; "admin_manager"]
      /\ u_organization_id target = cu_organization_id actor).
Proof.
  unfold can_update, check_user_access.
  destruct (String.eqb (cu_role actor) "super_admin"); [split; [reflexivity | discriminate] |].
  destruct (String.eqb (cu_role actor) "admin_manager") eqn:Ham.
  - apply String.eqb_eq in Ham.
    destruct (Py.opt_eqb (u_organization_id target) (cu_organization_id actor)) eqn:Horg;
      [| split; discriminate].
    apply opt_eqb_eq in Horg.
    destruct (Py.in_list (u_role target) ["super_admin"; "admin_manager"]) eqn:Hin;
      cbn [negb].
    + apply in_list_In in Hin. split.
      * now destruct (String.eqb (u_role target) "admin_manager"
                      && String.eqb (u_id target) (cu_id actor)).
      * intros _ _. now split.
    + split; [reflexivity | discriminate].
  - destruct (String.eqb (cu_role actor) "manager").
    + destruct (String.eqb (u_id target) (cu_id actor)); [split; [reflexivity | discriminate] |].
      destruct (Py.opt_eqb (u_manager_id target) (Some (cu_username actor))
                && String.eqb (u_role target) "canvasser");
        split; congruence.
    + destruct (String.eqb (cu_role actor) "canvasser"); [| split; discriminate].
      destruct (String.eqb (u_id target) (cu_id actor)); split; congruence.
Qed.

(** X2: [list_users] lists every user that [check_user_access] admits; a
    listed user that [check_user_access] refuses is, for a manager, a
    non-canvasser whose manager_id is the manager, and otherwise can only
    be the caller's own record under a role outside the four. *)
Theorem listed_users_cover_access (actor : CurrentUser) (u : User) :
  (check_user_access actor u = true -> list_users_filter actor u = true)
  /\ (list_users_filter actor u = true ->
      check_user_access actor u = false ->
      (cu_role actor = "manager"
       /\ u_manager_id u = Some (cu_username actor)
       /\ u_role u <> "canvasser"
       /\ u_id u <> cu_id actor)
      \/ (~ In (cu_role actor) four_roles /\ u_id u = cu_id actor)).
Proof.
  unfold check_user_access, list_users_filter, four_roles.
  destruct (String.eqb (cu_role actor) "super_admin") eqn:Hsa;
    [split; [reflexivity | discriminate] |].
  destruct (String.eqb (cu_role actor) "admin_manager") eqn:Ham;
    [split; [trivial | congruence] |].
  destruct (String.eqb (cu_role actor) "manager") eqn:Hm.
  - apply String.eqb_eq in Hm.
    destruct (String.eqb (u_id u) (cu_id actor)) eqn:Hid.
    + rewrite orb_true_r. split; [reflexivity | discriminate].
    + rewrite orb_false_r. apply String.eqb_neq in Hid.
      destruct (Py.opt_eqb (u_manager_id u) (Some (cu_username actor))) eqn:Hmgr;
        cbn [andb]; [| split; [discriminate | discriminate]].
      apply opt_eqb_eq in Hmgr. split; [reflexivity |].
      intros _ Hrole. apply String.eqb_neq in Hrole. left. now repeat split.
  - destruct (String.eqb (cu_role actor) "canvasser") eqn:Hc; [split; [trivial | congruence] |].
    split; [discriminate |].
    intros Hid _. right. apply String.eqb_eq in Hid. split; [| exact Hid].
    apply String.eqb_neq in Hsa, Ham, Hm, Hc.
    intros [H | [H | [H | [H | []]]]]; congruence.
Qed.

(** X3: access to a lead grows with the tier.  A super_admin has access to
    every lead; when a manager has access to a lead, so has every
    admin_manager of the manager's organization; a caller whose role is
    none of the four has access to no lead. *)
Theorem lead_access_grows_with_tier (db : Db) (lead : Lead) :
  (forall actor, cu_role actor = "super_admin" -> check_lead_access db actor lead = true)
  /\ (forall manager admin,
        cu_role manager = "manager" ->
        cu_role admin = "admin_manager" ->
        cu_organization_id admin = cu_organization_id manager ->
        check_lead_access db manager lead = true ->
        check_lead_access db admin lead = true)
  /\ (forall actor, ~ In (cu_role actor) four_roles -> check_lead_access db actor lead = false).
Proof.
  split; [| split].
  - intros actor Hrole. unfold check_lead_access. now rewrite Hrole.
  - intros manager admin Hm Ha Horg Haccess.
    rewrite (check_lead_access_manager db manager lead Hm) in Haccess.
    apply andb_true_iff in Haccess. destruct Haccess as [Hsame _].
    unfold check_lead_access. rewrite Ha, Horg. exact Hsame.
  - intros actor Hrole. unfold check_lead_access, four_roles in *.
    destruct (String.eqb (cu_role actor) "super_admin") eqn:H1;
      [apply String.eqb_eq in H1; exfalso; apply Hrole; simpl; auto |].
    destruct (String.eqb (cu_role actor) "admin_manager") eqn:H2;
      [apply String.eqb_eq in H2; exfalso; apply Hrole; simpl; auto |].
    destruct (String.eqb (cu_role actor) "manager") eqn:H3;
      [apply String.eqb_eq in H3; exfalso; apply Hrole; simpl; auto |].
    destruct (String.eqb (cu_role actor) "canvasser") eqn:H4;
      [apply String.eqb_eq in H4; exfalso; apply Hrole; simpl; auto |].
    reflexivity.
Qed.

(** The three theorems at work on the sample users. *)
Lemma update_permission_implies_access_witness :
  check_user_access (Sample.identity Sample.msmith) (Sample.jdoe 0 []) = true
  /\ (cu_role (Sample.identity Sample.admin1) = "admin_manager"
      /\ In (u_role Sample.admin2) ["super_admin"; "admin_manager"]
      /\ u_organization_id Sample.admin2 = cu_organization_id (Sample.identity Sample.admin1)).
Proof.
  split.
  - exact (proj1 (update_permission_implies_access (Sample.identity Sample.msmith)
                    (Sample.jdoe 0 [])) eq_refl).
  - exact (proj2 (update_permission_implies_access (Sample.identity Sample.admin1)
                    Sample.admin2) eq_refl eq_refl).
Defined.

Lemma listed_users_cover_access_witness :
  list_users_filter (Sample.identity Sample.msmith) (Sample.jdoe 0 []) = true.
Proof.
  exact (proj1 (listed_users_cover_access (Sample.identity Sample.msmith) (Sample.jdoe 0 []))
           eq_refl).
Defined.

Lemma lead_access_grows_with_tier_witness :
  check_lead_access (Sample.store_with_lead "pending") (Sample.identity Sample.admin1)
    (Sample.lead "pending") = true.
Proof.
  exact (proj1 (proj2 (lead_access_grows_with_tier (Sample.store_with_lead "pending")
                         (Sample.lead "pending")))
           (Sample.identity Sample.msmith) (Sample.identity Sample.admin1)
           eq_refl eq_refl eq_refl eq_refl).
Defined.

(** Under unique usernames, a name is among the usernames selected by a
    filter exactly when the user found under the name passes the filter. *)
Lemma in_selected_usernames (p : User -> bool) (name : string) (us : list User) :
  NoDup (map u_username us) ->
  Py.in_list name (map u_username (filter p us))
  = match Mongo.find_one (by_username name) us with
    | Some u => p u
    | None => false
    end.
Proof.
  induction us as [| x rest IH]; [reflexivity |].
  intros Hnd. inversion Hnd as [| y ys Hnotin Hrest]; subst.
  cbn [Mongo.find_one find filter]. unfold by_username at 1.
  destruct (String.eqb (u_username x) name) eqn:Hx.
  - apply String.eqb_eq in Hx. destruct (p x) eqn:Hp.
    + cbn [map]. unfold Py.in_list. cbn [existsb]. now rewrite Hx, String.eqb_refl.
    + apply in_list_not_In. intros Hin. apply Hnotin. rewrite Hx.
      apply in_map_iff in Hin. destruct Hin as [u [Hu Hf]].
      apply in_map_iff. exists u. split; [exact Hu |]. apply filter_In in Hf. tauto.
  - destruct (p x).
    + cbn [map]. unfold Py.in_list. cbn [existsb].
      rewrite String.eqb_sym, Hx. cbn [orb]. now apply IH.
    + now apply IH.
Qed.

(** X4: what [list_leads] shows is what [check_lead_access] admits.  Under
    unique usernames and a role among the four, an active lead passes the
    filter of [list_leads] iff the caller has access to it and the lead has
    the requested status, if one is requested; an inactive lead is never
    listed. *)
Theorem listed_leads_are_the_accessible (db : Db) (actor : CurrentUser)
    (status : option string) (lead : Lead) :
  unique_usernames db ->
  In (cu_role actor) four_roles ->
  list_leads_filter db actor status lead
  = l_is_active lead
    && check_lead_access db actor lead
    && (if Py.truthy_opt status then Py.opt_eqb (Some (l_lead_status lead)) status else true).
Proof.
  intros Hnd Hrole. unfold list_leads_filter.
  replace (Bool.eqb (l_is_active lead) true) with (l_is_active lead)
    by (now destruct (l_is_active lead)).
  f_equal. f_equal.
  destruct Hrole as [H | [H | [H | [H | []]]]]; symmetry in H.
  - unfold check_lead_access. now rewrite H.
  - unfold check_lead_access. now rewrite H.
  - rewrite (check_lead_access_manager db actor lead H). rewrite H.
    change (String.eqb "manager" "super_admin") with false.
    change (String.eqb "manager" "admin_manager") with false.
    change (String.eqb "manager" "manager") with true. cbv iota.
    f_equal. unfold created_by_in, assigned_canvassers, find_user.
    destruct (l_created_by lead) as [name |]; [| reflexivity].
    now apply in_selected_usernames.
  - unfold check_lead_access. now rewrite H.
Qed.

Lemma listed_leads_are_the_accessible_witness :
  list_leads_filter (Sample.store_with_lead "pending") (Sample.identity Sample.msmith)
    (Some "pending") (Sample.lead "pending") = true.
Proof.
  rewrite (listed_leads_are_the_accessible (Sample.store_with_lead "pending")
             (Sample.identity Sample.msmith) (Some "pending") (Sample.lead "pending")).
  - reflexivity.
  - unfold unique_usernames. simpl.
    repeat (apply NoDup_cons; [simpl; intuition discriminate |]). apply NoDup_nil.
  - simpl. auto.
Defined.

(** X5: [get_lead_stats] and [list_leads] count the same leads, except for a
    manager to whom no canvasser is assigned: [list_leads] then shows no
    lead at all, while [get_lead_stats] counts every active lead of the
    manager's organization. *)
Theorem stats_filter_versus_list_filter (db : Db) (actor : CurrentUser) (lead : Lead) :
  (cu_role actor <> "manager" \/ assigned_canvassers db actor <> [] ->
   lead_stats_filter db actor lead = list_leads_filter db actor None lead)
  /\ (cu_role actor = "manager" ->
      assigned_canvassers db actor = [] ->
      list_leads_filter db actor None lead = false
      /\ lead_stats_filter db actor lead
         = l_is_active lead
           && Py.opt_eqb (l_organization_id lead) (cu_organization_id actor)).
Proof.
  unfold lead_stats_filter, list_leads_filter. cbn [Py.truthy_opt]. rewrite andb_true_r.
  replace (Bool.eqb (l_is_active lead) true) with (l_is_active lead)
    by (now destruct (l_is_active lead)).
  split.
  - intros Hcase.
    destruct (String.eqb (cu_role actor) "super_admin"); [reflexivity |].
    destruct (String.eqb (cu_role actor) "admin_manager"); [reflexivity |].
    destruct (String.eqb (cu_role actor) "manager") eqn:Hm; [| reflexivity].
    apply String.eqb_eq in Hm.
    destruct Hcase as [Hnot | Hsome]; [contradiction |].
    now destruct (assigned_canvassers db actor).
  - intros Hm Hnone. rewrite Hm, Hnone.
    change (String.eqb "manager" "super_admin") with false.
    change (String.eqb "manager" "admin_manager") with false.
    change (String.eqb "manager" "manager") with true. cbv iota.
    unfold created_by_in. split.
    + destruct (l_created_by lead); cbn [Py.in_list existsb];
        now rewrite andb_false_r, andb_false_r.
    + now rewrite andb_true_r.
Qed.

(** The theorem at work: admin2 plays a manager without canvassers. *)
Lemma stats_filter_versus_list_filter_witness :
  list_leads_filter (Sample.store_with_lead "pending")
    {| cu_id := "64b000000000000000000009"; cu_username := "mjones"; cu_role := "manager";
       cu_organization_id := Some "org_1"; cu_email := None |}
    None (Sample.lead "pending") = false
  /\ lead_stats_filter (Sample.store_with_lead "pending")
       {| cu_id := "64b000000000000000000009"; cu_username := "mjones"; cu_role := "manager";
          cu_organization_id := Some "org_1"; cu_email := None |}
       (Sample.lead "pending") = true.
Proof.
  destruct (proj2 (stats_filter_versus_list_filter (Sample.store_with_lead "pending")
                     {| cu_id := "64b000000000000000000009"; cu_username := "mjones";
                        cu_role := "manager"; cu_organization_id := Some "org_1";
                        cu_email := None |}
                     (Sample.lead "pending")) eq_refl eq_refl) as [Hlist Hstats].
  split; [exact Hlist | rewrite Hstats; reflexivity].
Defined.

(** X6: for a caller with an approver role, the leads of
    [get_pending_approvals] are those of [list_leads] asked for the status
    "pending". *)
Theorem pending_approvals_are_listed_pending (db : Db) (actor : CurrentUser) (lead : Lead) :
  In (cu_role actor) approver_roles ->
  pending_approvals_filter db actor lead
  = list_leads_filter db actor (Some "pending") lead.
Proof.
  intros Hrole. unfold pending_approvals_filter, list_leads_filter.
  cbn [Py.truthy_opt Py.truthy Py.opt_eqb]. cbn [String.eqb Ascii.eqb Bool.eqb negb].
  destruct Hrole as [H | [H | [H | []]]]; rewrite <- H;
    cbn [String.eqb Ascii.eqb Bool.eqb];
    destruct (String.eqb (l_lead_status lead) "pending");
    destruct (Bool.eqb (l_is_active lead) true); cbn [andb];
    rewrite ?andb_true_r, ?andb_false_r; reflexivity.
Qed.

Lemma pending_approvals_are_listed_pending_witness :
  pending_approvals_filter (Sample.store_with_lead "pending") (Sample.identity Sample.msmith)
    (Sample.lead "pending") = true.
Proof.
  rewrite (pending_approvals_are_listed_pending (Sample.store_with_lead "pending")
             (Sample.identity Sample.msmith) (Sample.lead "pending")).
  - reflexivity.
  - simpl. auto.
Defined.

(** X7: the page count of the listings.  For a positive page size the
    count is the least number of pages that hold [total_count] documents,
    and every document index falls in the window of exactly the page
    [index / limit + 1]; a page size of 0 is a division by zero. *)
Theorem total_pages_cover (total_count limit : Z) :
  0 <= total_count ->
  0 < limit ->
  exists pages,
    total_pages total_count limit = Some pages
    /\ 0 <= pages
    /\ total_count <= pages * limit < total_count + limit
    /\ (forall index, 0 <= index < total_count ->
          let page := index / limit + 1 in
          1 <= page <= pages
          /\ page_skip page limit <= index < page_skip page limit + limit)
    /\ total_pages total_count 0 = None.
Proof.
  intros Htotal Hlimit. unfold total_pages, page_skip.
  replace (limit =? 0) with false by (symmetry; apply Z.eqb_neq; lia).
  eexists. split; [reflexivity |].
  pose proof (Z.div_mod (total_count + limit - 1) limit ltac:(lia)) as Hdm.
  pose proof (Z.mod_pos_bound (total_count + limit - 1) limit Hlimit) as Hmod.
  set (pages := (total_count + limit - 1) / limit) in *.
  assert (Hpages : 0 <= pages) by (apply Z.div_pos; lia).
  split; [exact Hpages |]. split; [nia |]. split; [| reflexivity].
  intros index Hindex.
  pose proof (Z.div_mod index limit ltac:(lia)) as Hidm.
  pose proof (Z.mod_pos_bound index limit Hlimit) as Himod.
  assert (Hq : 0 <= index / limit) by (apply Z.div_pos; lia).
  split; [| nia].
  split; [lia |].
  assert (index / limit < pages); [| lia].
  apply Z.div_lt_upper_bound; [lia |]. nia.
Qed.

Lemma total_pages_cover_witness :
  exists pages, total_pages 101 50 = Some pages /\ pages = 3.
Proof.
  destruct (total_pages_cover 101 50 ltac:(lia) ltac:(lia)) as [pages [Hpages _]].
  exists pages. split; [exact Hpages |].
  vm_compute in Hpages. now injection Hpages as <-.
Defined.

(* ================================================================== *)
(** * Further properties of update_user *)

Lemma write_user_update_blocks (user_id oid : string) (user_update : UserUpdate)
    (current_user : CurrentUser) (target_user : User) (now : datetime) :
  write_user_update user_id oid user_update current_user target_user now
  = (d_username <- username_block user_update target_user ;;
     d_email <- email_block user_update target_user ;;
     d_organization_id <- organization_block (cu_role current_user) user_update target_user ;;
     d_is_active <- active_block (cu_role current_user) user_update target_user ;;
     d_points <- points_block current_user user_update target_user now ;;
     let update_data := user_update_data user_update target_user d_username d_email
                          d_organization_id d_is_active d_points in
     raise_if (user_set_is_empty update_data)
       (HTTPException HTTP_400_BAD_REQUEST "No valid fields provided for update") ;;
     match d_points with
     | Some (pts, _) => encode_int pts
     | None => ret tt
     end ;;
     modify (set_users (Mongo.update_one (by_user_id oid)
                          (apply_user_set update_data now (cu_id current_user)))) ;;
     match d_points with
     | Some (_, points_history_entry) =>
         encode_int (pe_points points_history_entry) ;;
         modify (set_users (Mongo.update_one (by_user_id oid)
                              (push_history points_history_entry)))
     | None => ret tt
     end ;;
     updated <- gets (fun db => Mongo.find_one (by_user_id oid) (users db)) ;;
     match updated with
     | Some updated_user =>
         ret {| uur_message := "User updated successfully";
                uur_user_id := user_id;
                uur_updated_by_role := cu_role current_user;
                uur_user := updated_user |}
     | None => raise (Exception "TypeError")
     end).
Proof. reflexivity. Qed.

(** What a run of [bind] was made of. *)
Lemma bind_inv {A B : Type} (m : M A) (k : A -> M B) (db db' : Db) (o : Outcome B) :
  bind m k db = (db', o) ->
  (exists e, m db = (db', Raise e) /\ o = Raise e)
  \/ (exists a d, m db = (d, Return a) /\ k a d = (db', o)).
Proof.
  unfold bind. destruct (m db) as [d [a | e]].
  - intros H. right. now exists a, d.
  - intros [= <- <-]. left. now exists e.
Qed.

Lemma raise_if_inv (cond : bool) (e : Raised) (db db' : Db) (o : Outcome unit) :
  raise_if cond e db = (db', o) ->
  db' = db /\ ((cond = true /\ o = Raise e) \/ (cond = false /\ o = Return tt)).
Proof.
  unfold raise_if, raise, ret. destruct cond; intros [= <- <-]; split; auto.
Qed.

Lemma username_block_inv (user_update : UserUpdate) (target_user : User) (db db' : Db)
    (o : Outcome (option string)) :
  username_block user_update target_user db = (db', o) ->
  db' = db
  /\ match o with
     | Return (Some name) =>
         uu_username user_update = Some name
         /\ name <> u_username target_user
         /\ find_user (Some name) db = None
     | Return None => True
     | Raise e => e = HTTPException HTTP_400_BAD_REQUEST "Username already exists"
     end.
Proof.
  unfold username_block, bind, gets, ret, raise.
  destruct (uu_username user_update) as [name |]; [| intros [= <- <-]; now split].
  destruct (Py.truthy name && negb (String.eqb name (u_username target_user))) eqn:Hc;
    [| intros [= <- <-]; now split].
  apply andb_true_iff in Hc. destruct Hc as [_ Hne].
  apply negb_true_iff, String.eqb_neq in Hne.
  destruct (find_user (Some name) db) eqn:Hf; intros [= <- <-]; now repeat split.
Qed.

Lemma email_block_inv (user_update : UserUpdate) (target_user : User) (db db' : Db)
    (o : Outcome (option string)) :
  email_block user_update target_user db = (db', o) ->
  db' = db
  /\ match o with
     | Return (Some mail) =>
         uu_email user_update = Some mail
         /\ Mongo.find_one (fun u => Py.opt_eqb (u_email u) (Some mail)) (users db) = None
     | Return None => True
     | Raise e => e = HTTPException HTTP_400_BAD_REQUEST "Email already exists"
     end.
Proof.
  unfold email_block, bind, gets, ret, raise.
  destruct (uu_email user_update) as [mail |]; [| intros [= <- <-]; now split].
  destruct (Py.truthy mail && negb (Py.opt_eqb (Some mail) (u_email target_user)));
    [| intros [= <- <-]; now split].
  destruct (Mongo.find_one (fun u => Py.opt_eqb (u_email u) (Some mail)) (users db)) eqn:Hf;
    intros [= <- <-]; now repeat split.
Qed.

Lemma organization_block_inv (current_role : string) (user_update : UserUpdate)
    (target_user : User) (db db' : Db) (o : Outcome (option string)) :
  organization_block current_role user_update target_user db = (db', o) ->
  db' = db
  /\ match o with
     | Return (Some org) =>
         uu_organization_id user_update = Some org /\ current_role = "super_admin"
     | Return None =>
         forall org, uu_organization_id user_update = Some org ->
                     org = "" \/ Some org = u_organization_id target_user
     | Raise e =>
         e = HTTPException HTTP_403_FORBIDDEN "Only super admin can change user organizations"
     end.
Proof.
  unfold organization_block, bind, raise_if, ret, raise.
  destruct (uu_organization_id user_update) as [org |];
    [| intros [= <- <-]; split; [reflexivity | discriminate]].
  destruct (Py.truthy org) eqn:Ht; cbn [andb].
  - destruct (Py.opt_eqb (Some org) (u_organization_id target_user)) eqn:He; cbn [negb].
    + intros [= <- <-]. split; [reflexivity |]. intros org' [= <-]. right.
      now apply opt_eqb_eq.
    + destruct (String.eqb current_role "super_admin") eqn:Hr; cbn [negb];
        intros [= <- <-]; split; try reflexivity.
      split; [reflexivity | now apply String.eqb_eq].
  - intros [= <- <-]. split; [reflexivity |]. intros org' [= <-]. left.
    unfold Py.truthy in Ht. apply negb_false_iff in Ht. now apply String.eqb_eq.
Qed.

Lemma active_block_inv (current_role : string) (user_update : UserUpdate)
    (target_user : User) (db db' : Db) (o : Outcome (option bool)) :
  active_block current_role user_update target_user db = (db', o) ->
  db' = db
  /\ match o with
     | Return (Some active) =>
         uu_is_active user_update = Some active
         /\ In current_role ["super_admin"; "admin_manager"]
     | Return None =>
         forall active, uu_is_active user_update = Some active ->
                        active = u_is_active target_user
     | Raise e =>
         e = HTTPException HTTP_403_FORBIDDEN
               "You don't have permission to activate/deactivate users"
     end.
Proof.
  unfold active_block, bind, raise_if, ret, raise.
  destruct (uu_is_active user_update) as [active |];
    [| intros [= <- <-]; split; [reflexivity | discriminate]].
  destruct (Bool.eqb active (u_is_active target_user)) eqn:He; cbn [negb].
  - intros [= <- <-]. split; [reflexivity |]. intros a [= <-]. now apply eqb_prop.
  - destruct (Py.in_list current_role ["super_admin"; "admin_manager"]) eqn:Hr; cbn [negb];
      intros [= <- <-]; split; try reflexivity.
    split; [reflexivity | now apply in_list_In].
Qed.

Lemma points_block_inv (current_user : CurrentUser) (user_update : UserUpdate)
    (target_user : User) (now : datetime) (db db' : Db)
    (o : Outcome (option (Z * PointsEntry))) :
  points_block current_user user_update target_user now db = (db', o) ->
  db' = db
  /\ match o with
     | Return (Some (pts, entry)) =>
         uu_points user_update = Some pts
         /\ pts <> u_points target_user
         /\ entry = manual_entry current_user (u_points target_user) pts now
         /\ In (cu_role current_user) approver_roles
     | Return None =>
         forall pts, uu_points user_update = Some pts -> pts = u_points target_user
     | Raise e =>
         e = HTTPException HTTP_403_FORBIDDEN "You don't have permission to modify user points"
     end.
Proof.
  unfold points_block, bind, raise_if, ret, raise, approver_roles.
  destruct (uu_points user_update) as [pts |];
    [| intros [= <- <-]; split; [reflexivity | discriminate]].
  destruct (pts =? u_points target_user) eqn:He; cbn [negb].
  - intros [= <- <-]. split; [reflexivity |]. intros p [= <-]. now apply Z.eqb_eq.
  - apply Z.eqb_neq in He.
    destruct (Py.in_list (cu_role current_user) ["super_admin"; "admin_manager"; "manager"])
      eqn:Hr; cbn [negb]; intros [= <- <-]; split; try reflexivity.
    repeat split; [exact He | now apply in_list_In].
Qed.

Lemma find_updated_target (oid : string) (update_data : UserSet)
    (d_points : option (Z * PointsEntry)) (now : datetime) (updated_by : string)
    (us : list User) (target_user : User) :
  Mongo.find_one (by_user_id oid) us = Some target_user ->
  Mongo.find_one (by_user_id oid) (updated_users oid update_data d_points now updated_by us)
  = Some (updated_target update_data d_points now updated_by target_user).
Proof.
  intros Hfind. unfold updated_users, updated_target.
  destruct d_points as [[pts entry] |].
  - rewrite find_one_update_one by reflexivity.
    rewrite find_one_update_one by reflexivity. now rewrite Hfind.
  - rewrite find_one_update_one by reflexivity. now rewrite Hfind.
Qed.

Lemma role_change_validation_inv (current_role : string) (user_update : UserUpdate)
    (target_role : string) (db db' : Db) (o : Outcome unit) :
  role_change_validation current_role user_update target_role db = (db', o) ->
  db' = db /\ (o = Return tt \/ exists detail, o = Raise (HTTPException HTTP_403_FORBIDDEN detail)).
Proof.
  unfold role_change_validation, raise_if, raise, ret.
  destruct (role_change_requested user_update target_role).
  - destruct (negb (Py.in_list (or_keep (uu_role user_update) "")
                      (Py.dict_get current_role role_change_permissions [])));
      intros [= <- <-]; split; eauto.
  - intros [= <- <-]; split; eauto.
Qed.

Lemma canvasser_restriction_inv (current_role : string) (user_update : UserUpdate)
    (db db' : Db) (o : Outcome unit) :
  canvasser_restriction current_role user_update db = (db', o) ->
  db' = db
  /\ ((o = Return tt
       /\ (current_role = "canvasser" -> first_restricted_field user_update = None))
      \/ exists detail, o = Raise (HTTPException HTTP_403_FORBIDDEN detail)).
Proof.
  unfold canvasser_restriction, raise, ret.
  destruct (String.eqb current_role "canvasser") eqn:Hc.
  - destruct (first_restricted_field user_update);
      intros [= <- <-]; split; eauto.
  - intros [= <- <-]. split; [reflexivity |]. left. split; [reflexivity |].
    intros ->. discriminate Hc.
Qed.

Lemma encode_int_inv (n : Z) (db db' : Db) (o : Outcome unit) :
  encode_int n db = (db', o) ->
  db' = db
  /\ ((Py.int64 n = false /\ o = Raise bson_overflow)
      \/ (Py.int64 n = true /\ o = Return tt)).
Proof.
  unfold encode_int. intros H. apply raise_if_inv in H.
  destruct H as [-> [[Hc ->] | [Hc ->]]]; split; try reflexivity.
  - left. split; [now apply negb_true_iff | reflexivity].
  - right. split; [now apply negb_false_iff | reflexivity].
Qed.

(** What a run of [write_user_update] on the target found amounts to.  It
    fails after a write in one case only: the new points have been stored
    and the entry of the history cannot be encoded. *)
Lemma write_user_update_outcome (user_id oid : string) (user_update : UserUpdate)
    (current_user : CurrentUser) (target_user : User) (now : datetime) (db db' : Db)
    (o : Outcome UpdateUserResponse) :
  Mongo.find_one (by_user_id oid) (users db) = Some target_user ->
  write_user_update user_id oid user_update current_user target_user now db = (db', o) ->
  match o with
  | Raise e =>
      (e = bson_overflow \/ exists code detail, e = HTTPException code detail)
      /\ (db' = db
          \/ exists d_username d_email d_organization_id d_is_active pts,
               username_block user_update target_user db = (db, Return d_username)
               /\ uu_points user_update = Some pts
               /\ Py.int64 pts = true
               /\ Py.int64 (pts - u_points target_user) = false
               /\ e = bson_overflow
               /\ db' = set_users
                          (updated_users oid
                             (user_update_data user_update target_user d_username d_email
                                d_organization_id d_is_active
                                (Some (pts, manual_entry current_user
                                              (u_points target_user) pts now)))
                             None now (cu_id current_user)) db)
  | Return response =>
      exists d_username d_email d_organization_id d_is_active d_points,
        username_block user_update target_user db = (db, Return d_username)
        /\ email_block user_update target_user db = (db, Return d_email)
        /\ organization_block (cu_role current_user) user_update target_user db
           = (db, Return d_organization_id)
        /\ active_block (cu_role current_user) user_update target_user db
           = (db, Return d_is_active)
        /\ points_block current_user user_update target_user now db
           = (db, Return d_points)
        /\ user_set_is_empty (user_update_data user_update target_user d_username d_email
                                d_organization_id d_is_active d_points) = false
        /\ db' = set_users (updated_users oid
                              (user_update_data user_update target_user d_username d_email
                                 d_organization_id d_is_active d_points)
                              d_points now (cu_id current_user)) db
        /\ uur_user response
           = updated_target (user_update_data user_update target_user d_username d_email
                               d_organization_id d_is_active d_points)
               d_points now (cu_id current_user) target_user
  end.
Proof.
  intros Hfind. rewrite write_user_update_blocks. intros Hrun.
  apply bind_inv in Hrun. destruct Hrun as [[e [H1 ->]] | [d_username [s1 [H1 Hrun]]]].
  { apply username_block_inv in H1. destruct H1 as [-> ->]. split; eauto. }
  pose proof (username_block_inv _ _ _ _ _ H1) as [-> _].
  apply bind_inv in Hrun. destruct Hrun as [[e [H2 ->]] | [d_email [s2 [H2 Hrun]]]].
  { apply email_block_inv in H2. destruct H2 as [-> ->]. split; eauto. }
  pose proof (email_block_inv _ _ _ _ _ H2) as [-> _].
  apply bind_inv in Hrun. destruct Hrun as [[e [H3 ->]] | [d_org [s3 [H3 Hrun]]]].
  { apply organization_block_inv in H3. destruct H3 as [-> ->]. split; eauto. }
  pose proof (organization_block_inv _ _ _ _ _ _ H3) as [-> _].
  apply bind_inv in Hrun. destruct Hrun as [[e [H4 ->]] | [d_active [s4 [H4 Hrun]]]].
  { apply active_block_inv in H4. destruct H4 as [-> ->]. split; eauto. }
  pose proof (active_block_inv _ _ _ _ _ _ H4) as [-> _].
  apply bind_inv in Hrun. destruct Hrun as [[e [H5 ->]] | [d_points [s5 [H5 Hrun]]]].
  { apply points_block_inv in H5. destruct H5 as [-> ->]. split; eauto. }
  pose proof (points_block_inv _ _ _ _ _ _ _ H5) as [-> Hblock].
  cbv zeta in Hrun.
  apply bind_inv in Hrun. destruct Hrun as [[e [H6 ->]] | [[] [s6 [H6 Hrun]]]].
  { apply raise_if_inv in H6. destruct H6 as [-> [[_ [= ->]] | [_ [=]]]]. split; eauto. }
  apply raise_if_inv in H6. destruct H6 as [-> [[_ [=]] | [Hnonempty _]]].
  assert (Hstored := find_updated_target oid
                       (user_update_data user_update target_user d_username d_email d_org
                          d_active d_points)
                       d_points now (cu_id current_user) (users db) target_user Hfind).
  unfold updated_users in Hstored.
  destruct d_points as [[pts entry] |].
  - destruct Hblock as [Hreq [_ [-> _]]].
    (* the $set *)
    apply bind_inv in Hrun. destruct Hrun as [[e [H7 ->]] | [[] [s7 [H7 Hrun]]]].
    { apply encode_int_inv in H7. destruct H7 as [-> [[_ [= ->]] | [_ [=]]]].
      split; [now left | now left]. }
    apply encode_int_inv in H7. destruct H7 as [-> [[_ [=]] | [Hnew _]]].
    unfold bind at 1, modify at 1 in Hrun.
    (* the $push *)
    apply bind_inv in Hrun. destruct Hrun as [[e [H8 ->]] | [[] [s8 [H8 Hrun]]]].
    { apply bind_inv in H8. destruct H8 as [[e' [H8 [= <-]]] | [[] [s [_ [=]]]]].
      apply encode_int_inv in H8. destruct H8 as [-> [[Hdiff [= ->]] | [_ [=]]]].
      split; [now left |]. right.
      exists d_username, d_email, d_org, d_active, pts.
      cbn [manual_entry pe_points] in Hdiff. now repeat split. }
    apply bind_inv in H8. destruct H8 as [[e' [_ [=]]] | [[] [s [H8 H8']]]].
    apply encode_int_inv in H8. destruct H8 as [-> _].
    unfold modify in H8'. injection H8' as <-.
    unfold bind, gets, ret, raise in Hrun. cbn [set_users users] in Hrun.
    rewrite Hstored in Hrun. injection Hrun as <- <-.
    exists d_username, d_email, d_org, d_active,
      (Some (pts, manual_entry current_user (u_points target_user) pts now)).
    now repeat split.
  - unfold bind, modify, gets, ret, raise in Hrun. cbn [set_users users] in Hrun.
    rewrite Hstored in Hrun. injection Hrun as <- <-.
    exists d_username, d_email, d_org, d_active, None. now repeat split.
Qed.

(** What a run of [update_user] on an existing target amounts to. *)
Lemma update_user_outcome (user_id oid : string) (user_update : UserUpdate)
    (current_user : CurrentUser) (now : datetime) (db db' : Db) (target_user : User)
    (o : Outcome UpdateUserResponse) :
  parse_object_id user_id = Some oid ->
  Mongo.find_one (by_user_id oid) (users db) = Some target_user ->
  update_user user_id user_update current_user now db = (db', o) ->
  match o with
  | Raise e =>
      (exists code detail, e = HTTPException code detail)
      /\ (db' = db
          \/ exists d_username d_email d_organization_id d_is_active pts,
               username_block user_update target_user db = (db, Return d_username)
               /\ uu_points user_update = Some pts
               /\ Py.int64 pts = true
               /\ Py.int64 (pts - u_points target_user) = false
               /\ (exists detail, e = HTTPException HTTP_500_INTERNAL_SERVER_ERROR detail)
               /\ db' = set_users
                          (updated_users oid
                             (user_update_data user_update target_user d_username d_email
                                d_organization_id d_is_active
                                (Some (pts, manual_entry current_user
                                              (u_points target_user) pts now)))
                             None now (cu_id current_user)) db)
  | Return response =>
      can_update current_user target_user = true
      /\ role_change_validation (cu_role current_user) user_update (u_role target_user) db
         = (db, Return tt)
      /\ (cu_role current_user = "canvasser" -> first_restricted_field user_update = None)
      /\ write_user_update user_id oid user_update current_user target_user now db
         = (db', Return response)
  end.
Proof.
  intros Hparse Hfind.
  rewrite (update_user_found user_id oid user_update current_user now db target_user
             Hparse Hfind).
  unfold try_except.
  match goal with
  | |- context [match ?body db with _ => _ end] => destruct (body db) as [d x] eqn:Hbody
  end.
  assert (Hgoal : match x with
                  | Raise e =>
                      (e = bson_overflow \/ exists code detail, e = HTTPException code detail)
                      /\ (d = db
                          \/ exists d_username d_email d_organization_id d_is_active pts,
                               username_block user_update target_user db
                               = (db, Return d_username)
                               /\ uu_points user_update = Some pts
                               /\ Py.int64 pts = true
                               /\ Py.int64 (pts - u_points target_user) = false
                               /\ e = bson_overflow
                               /\ d = set_users
                                        (updated_users oid
                                           (user_update_data user_update target_user
                                              d_username d_email d_organization_id
                                              d_is_active
                                              (Some (pts, manual_entry current_user
                                                            (u_points target_user) pts now)))
                                           None now (cu_id current_user)) db)
                  | Return response =>
                      can_update current_user target_user = true
                      /\ role_change_validation (cu_role current_user) user_update
                           (u_role target_user) db = (db, Return tt)
                      /\ (cu_role current_user = "canvasser" ->
                          first_restricted_field user_update = None)
                      /\ write_user_update user_id oid user_update current_user target_user
                           now db = (d, Return response)
                  end).
  { apply bind_inv in Hbody. destruct Hbody as [[e [H1 ->]] | [[] [s1 [H1 Hbody]]]].
    { apply raise_if_inv in H1. destruct H1 as [-> [[_ [= ->]] | [_ [=]]]]. split; eauto. }
    apply raise_if_inv in H1. destruct H1 as [-> [[_ [=]] | [Hgate _]]].
    apply negb_false_iff in Hgate.
    apply bind_inv in Hbody. destruct Hbody as [[e [H2 ->]] | [[] [s2 [H2 Hbody]]]].
    { apply role_change_validation_inv in H2.
      destruct H2 as [-> [[=] | [detail [= ->]]]]. split; eauto. }
    pose proof (role_change_validation_inv _ _ _ _ _ _ H2) as [-> _].
    apply bind_inv in Hbody. destruct Hbody as [[e [H3 ->]] | [[] [s3 [H3 Hbody]]]].
    { apply canvasser_restriction_inv in H3.
      destruct H3 as [-> [[[=] _] | [detail [= ->]]]]. split; eauto. }
    apply canvasser_restriction_inv in H3.
    destruct H3 as [-> [[_ Hrestricted] | [detail [=]]]].
    pose proof (write_user_update_outcome user_id oid user_update current_user target_user
                  now db d x Hfind Hbody) as Hwrite.
    destruct x as [response | e]; [| exact Hwrite].
    now repeat split. }
  destruct x as [response | [code detail | what]].
  - intros [= <- <-]. exact Hgoal.
  - intros [= <- <-]. destruct Hgoal as [_ Hstore]. split; [eauto |].
    destruct Hstore as [-> | [d_username [d_email [d_org [d_active [pts
                                [_ [_ [_ [_ [[=] _]]]]]]]]]]]; now left.
  - intros [= <- <-]. destruct Hgoal as [_ Hstore]. split; [eauto |].
    destruct Hstore as [-> | [d_username [d_email [d_org [d_active [pts
                                [Hname [Hreq [Hnew [Hdiff [_ ->]]]]]]]]]]]; [now left |].
    right. exists d_username, d_email, d_org, d_active, pts.
    repeat split; try assumption. eauto.
Qed.

Lemma update_user_unfound (user_id : string) (user_update : UserUpdate)
    (current_user : CurrentUser) (now : datetime) (db : Db) :
  match parse_object_id user_id with
  | Some oid => Mongo.find_one (by_user_id oid) (users db) = None
  | None => True
  end ->
  exists code detail,
    update_user user_id user_update current_user now db
    = (db, Raise (HTTPException code detail)).
Proof.
  unfold update_user, try_except, ObjectId, bind, gets, ret, raise.
  destruct (parse_object_id user_id) as [oid |].
  - intros ->. eauto.
  - intros _. eauto.
Qed.

Lemma updated_target_fields (d : UserSet) (d_points : option (Z * PointsEntry))
    (now : datetime) (updated_by : string) (t : User) :
  let t' := updated_target d d_points now updated_by t in
  u_id t' = u_id t
  /\ u_username t' = or_keep (us_username d) (u_username t)
  /\ u_role t' = or_keep (us_role d) (u_role t)
  /\ u_organization_id t' = or_keep_opt (us_organization_id d) (u_organization_id t)
  /\ u_manager_id t' = or_keep_opt (us_manager_id d) (u_manager_id t)
  /\ u_is_active t' = or_keep (us_is_active d) (u_is_active t)
  /\ u_points t' = or_keep (us_points d) (u_points t)
  /\ u_points_history t'
     = u_points_history t
       ++ match d_points with Some (_, entry) => [entry] | None => [] end.
Proof.
  unfold updated_target.
  destruct d_points as [[pts entry] |]; cbn [push_history inc_points_push apply_user_set
    u_id u_username u_role u_organization_id u_manager_id u_is_active u_points
    u_points_history]; repeat split; try lia.
  now rewrite app_nil_r.
Qed.

(** X8: a failed [update_user] has written nothing, with one exception.
    Whenever the call ends in an error, the error is an HTTP error and the
    store is the one the call started from, unless the request changes the
    points by a difference that does not fit in 8 bytes while the new
    balance does: then the answer is a 500, the new balance and the other
    fields of the request have been stored on the target, its points
    history has no entry for the change, and nothing else has changed. *)
Theorem update_user_failure_effects (user_id : string) (user_update : UserUpdate)
    (current_user : CurrentUser) (now : datetime) (db db' : Db) (e : Raised) :
  update_user user_id user_update current_user now db = (db', Raise e) ->
  (exists code detail, e = HTTPException code detail)
  /\ (db' = db
      \/ exists oid target pts written,
           parse_object_id user_id = Some oid
           /\ Mongo.find_one (by_user_id oid) (users db) = Some target
           /\ uu_points user_update = Some pts
           /\ Py.int64 pts = true
           /\ Py.int64 (pts - u_points target) = false
           /\ (exists detail, e = HTTPException HTTP_500_INTERNAL_SERVER_ERROR detail)
           /\ Mongo.find_one (by_user_id oid) (users db') = Some written
           /\ u_points written = pts
           /\ u_points_history written = u_points_history target
           /\ leads db' = leads db
           /\ competitions db' = competitions db
           /\ (forall other, other <> oid ->
                 Mongo.find_one (by_user_id other) (users db')
                 = Mongo.find_one (by_user_id other) (users db))).
Proof.
  intros Hrun.
  destruct (parse_object_id user_id) as [oid |] eqn:Hparse.
  2: { destruct (update_user_unfound user_id user_update current_user now db)
         as [code [detail H]]; [now rewrite Hparse |].
       rewrite H in Hrun. injection Hrun as <- <-. split; [eauto | now left]. }
  destruct (Mongo.find_one (by_user_id oid) (users db)) as [target |] eqn:Hfind.
  2: { destruct (update_user_unfound user_id user_update current_user now db)
         as [code [detail H]]; [now rewrite Hparse |].
       rewrite H in Hrun. injection Hrun as <- <-. split; [eauto | now left]. }
  pose proof (update_user_outcome user_id oid user_update current_user now db db' target
                (Raise e) Hparse Hfind Hrun) as [Herror Hstore].
  split; [exact Herror |].
  destruct Hstore as [-> | [d_username [d_email [d_org [d_active [pts
                              [_ [Hreq [Hnew [Hdiff [Hcode ->]]]]]]]]]]]; [now left |].
  right.
  exists oid, target, pts,
    (updated_target
       (user_update_data user_update target d_username d_email d_org d_active
          (Some (pts, manual_entry current_user (u_points target) pts now)))
       None now (cu_id current_user) target).
  split; [reflexivity |]. do 5 (split; [assumption |]).
  cbn [set_users users leads competitions].
  split; [now apply find_updated_target |].
  pose proof (updated_target_fields
                (user_update_data user_update target d_username d_email d_org d_active
                   (Some (pts, manual_entry current_user (u_points target) pts now)))
                None now (cu_id current_user) target)
    as [_ [_ [_ [_ [_ [_ [Hfpoints Hfhistory]]]]]]].
  split; [exact Hfpoints |]. split; [now rewrite Hfhistory, app_nil_r |].
  split; [reflexivity |]. split; [reflexivity |].
  intros other Hother. unfold updated_users.
  apply find_one_update_one_other; [| reflexivity].
  intros x Hx. unfold by_user_id in *. apply String.eqb_eq in Hx.
  apply String.eqb_neq. congruence.
Qed.

(** The theorem at work: msmith sets jdoe's balance from -5 * 10^18 to
    5 * 10^18. *)
Lemma update_user_failure_effects_witness :
  exists db' detail,
    update_user "64b000000000000000000001"
      (user_request None None None None (Some 5000000000000000000))
      (Sample.identity Sample.msmith) 7 (Sample.store (-5000000000000000000) [])
    = (db', Raise (HTTPException HTTP_500_INTERNAL_SERVER_ERROR detail))
    /\ option_map u_points (find_user (Some "jdoe") db') = Some 5000000000000000000
    /\ option_map u_points_history (find_user (Some "jdoe") db') = Some [].
Proof.
  destruct (update_user_failure_effects "64b000000000000000000001"
              (user_request None None None None (Some 5000000000000000000))
              (Sample.identity Sample.msmith) 7 (Sample.store (-5000000000000000000) [])
              _ _ eq_refl) as [_ [Hsame | Hwritten]].
  - discriminate Hsame.
  - do 2 eexists. split; [reflexivity |]. split; reflexivity.
Defined.

(** X9: the fields of [update_user] that are reserved to the upper tiers.
    When a request that goes through changes the target's organization,
    the caller is super_admin; when it changes is_active, the caller is
    super_admin or admin_manager; in both cases the new value is stored. *)
Theorem update_user_reserved_fields (user_id oid : string) (user_update : UserUpdate)
    (current_user : CurrentUser) (now : datetime) (db db' : Db) (target : User)
    (response : UpdateUserResponse) :
  parse_object_id user_id = Some oid ->
  Mongo.find_one (by_user_id oid) (users db) = Some target ->
  update_user user_id user_update current_user now db = (db', Return response) ->
  Mongo.find_one (by_user_id oid) (users db') = Some (uur_user response)
  /\ (forall org,
        uu_organization_id user_update = Some org ->
        org <> "" ->
        Some org <> u_organization_id target ->
        cu_role current_user = "super_admin"
        /\ u_organization_id (uur_user response) = Some org)
  /\ (forall active,
        uu_is_active user_update = Some active ->
        active <> u_is_active target ->
        In (cu_role current_user) ["super_admin"; "admin_manager"]
        /\ u_is_active (uur_user response) = active).
Proof.
  intros Hparse Hfind Hrun.
  pose proof (update_user_outcome user_id oid user_update current_user now db db' target
                (Return response) Hparse Hfind Hrun) as [_ [_ [_ Hwrite]]].
  pose proof (write_user_update_outcome user_id oid user_update current_user target now
                db db' (Return response) Hfind Hwrite)
    as [d_username [d_email [d_org [d_active [d_points
         [_ [_ [Horg [Hactive [_ [_ [-> ->]]]]]]]]]]]].
  pose proof (updated_target_fields
                (user_update_data user_update target d_username d_email d_org d_active
                   d_points) d_points now (cu_id current_user) target)
    as [_ [_ [_ [Hforg [_ [Hfactive _]]]]]].
  split; [| split].
  - cbn [users set_users]. now apply find_updated_target.
  - intros org Hreq Hne Hchg. rewrite Hforg. cbn [user_update_data us_organization_id].
    apply organization_block_inv in Horg. destruct Horg as [_ Horg].
    destruct d_org as [org' |].
    + destruct Horg as [Hsame Hrole]. rewrite Hreq in Hsame. injection Hsame as <-.
      now split.
    + destruct (Horg org Hreq); [contradiction | contradiction].
  - intros active Hreq Hchg. rewrite Hfactive. cbn [user_update_data us_is_active].
    apply active_block_inv in Hactive. destruct Hactive as [_ Hactive].
    destruct d_active as [active' |].
    + destruct Hactive as [Hsame Hrole]. rewrite Hreq in Hsame. injection Hsame as <-.
      now split.
    + now destruct (Hchg (Hactive active Hreq)).
Qed.

(** X10: a change of points through [update_user].  When a request that
    goes through sets points to a value other than the target's, the caller
    is super_admin, admin_manager or manager, the new balance is stored and
    exactly one entry is appended to points_history, with the difference,
    the old and the new value and the caller's username; otherwise balance
    and history stay as they were. *)
Theorem update_user_points_ledger (user_id oid : string) (user_update : UserUpdate)
    (current_user : CurrentUser) (now : datetime) (db db' : Db) (target : User)
    (response : UpdateUserResponse) :
  parse_object_id user_id = Some oid ->
  Mongo.find_one (by_user_id oid) (users db) = Some target ->
  update_user user_id user_update current_user now db = (db', Return response) ->
  match uu_points user_update with
  | Some pts =>
      if pts =? u_points target then
        u_points (uur_user response) = u_points target
        /\ u_points_history (uur_user response) = u_points_history target
      else
        In (cu_role current_user) approver_roles
        /\ u_points (uur_user response) = pts
        /\ u_points_history (uur_user response)
           = u_points_history target
             ++ [manual_entry current_user (u_points target) pts now]
        /\ pe_points (manual_entry current_user (u_points target) pts now)
           = pts - u_points target
  | None =>
      u_points (uur_user response) = u_points target
      /\ u_points_history (uur_user response) = u_points_history target
  end.
Proof.
  intros Hparse Hfind Hrun.
  pose proof (update_user_outcome user_id oid user_update current_user now db db' target
                (Return response) Hparse Hfind Hrun) as [_ [_ [_ Hwrite]]].
  pose proof (write_user_update_outcome user_id oid user_update current_user target now
                db db' (Return response) Hfind Hwrite)
    as [d_username [d_email [d_org [d_active [d_points
         [_ [_ [_ [_ [Hpoints [_ [-> ->]]]]]]]]]]]].
  pose proof (updated_target_fields
                (user_update_data user_update target d_username d_email d_org d_active
                   d_points) d_points now (cu_id current_user) target)
    as [_ [_ [_ [_ [_ [_ [Hfpoints Hfhistory]]]]]]].
  rewrite Hfpoints, Hfhistory. cbn [user_update_data us_points].
  apply points_block_inv in Hpoints. destruct Hpoints as [_ Hpoints].
  destruct d_points as [[pts entry] |].
  - destruct Hpoints as [Hreq [Hchg [-> Hrole]]]. rewrite Hreq.
    apply Z.eqb_neq in Hchg. rewrite Hchg. cbn [option_map fst or_keep].
    repeat split; try reflexivity; exact Hrole.
  - cbn [option_map or_keep]. rewrite app_nil_r.
    destruct (uu_points user_update) as [pts |] eqn:Hreq; [| split; reflexivity].
    rewrite (Hpoints pts eq_refl), Z.eqb_refl. split; reflexivity.
Qed.

Lemma update_user_reserved_fields_witness :
  exists db' response,
    update_user "64b000000000000000000001" (user_request None (Some "org_2") None None None)
      (Sample.identity Sample.root) 7 (Sample.store 0 []) = (db', Return response)
    /\ cu_role (Sample.identity Sample.root) = "super_admin"
    /\ u_organization_id (uur_user response) = Some "org_2".
Proof.
  do 2 eexists. split; [reflexivity |].
  pose proof (update_user_reserved_fields "64b000000000000000000001"
                "64b000000000000000000001"
                (user_request None (Some "org_2") None None None)
                (Sample.identity Sample.root) 7 (Sample.store 0 []) _ (Sample.jdoe 0 []) _
                eq_refl eq_refl eq_refl) as [_ [Horg _]].
  destruct (Horg "org_2" eq_refl) as [Hrole Hnew]; [discriminate | discriminate |].
  split; [exact Hrole | exact Hnew].
Defined.

Lemma update_user_points_ledger_witness :
  exists db' response,
    update_user "64b000000000000000000001" (user_request None None None None (Some 40))
      (Sample.identity Sample.msmith) 7 (Sample.store 15 []) = (db', Return response)
    /\ u_points (uur_user response) = 40
    /\ u_points_history (uur_user response)
       = [] ++ [manual_entry (Sample.identity Sample.msmith) 15 40 7].
Proof.
  do 2 eexists. split; [reflexivity |].
  pose proof (update_user_points_ledger "64b000000000000000000001"
                "64b000000000000000000001" (user_request None None None None (Some 40))
                (Sample.identity Sample.msmith) 7 (Sample.store 15 []) _
                (Sample.jdoe 15 []) _ eq_refl eq_refl eq_refl) as H.
  cbn [uu_points user_request Sample.jdoe Sample.user u_points Z.eqb Pos.eqb] in H.
  destruct H as [_ [Hpoints [Hhistory _]]].
  split; [exact Hpoints | exact Hhistory].
Defined.

Lemma update_one_map_same {A B : Type} (g : A -> B) (p : A -> bool) (f : A -> A)
    (coll : list A) :
  (forall x, g (f x) = g x) ->
  map g (Mongo.update_one p f coll) = map g coll.
Proof.
  intros Hg. induction coll as [| x rest IH]; [reflexivity |].
  cbn [Mongo.update_one]. destruct (p x); cbn [map]; [now rewrite Hg | now rewrite IH].
Qed.

(** Renaming one user to a name nobody has keeps the usernames unique. *)
Lemma usernames_after_rename (p : User -> bool) (f : User -> User) (name : string)
    (us : list User) :
  NoDup (map u_username us) ->
  (forall u, In u us -> u_username u <> name) ->
  (forall x, u_username (f x) = name) ->
  NoDup (map u_username (Mongo.update_one p f us)).
Proof.
  intros Hnd Hfresh Hf. induction us as [| x rest IH]; [constructor |].
  inversion Hnd as [| y ys Hnotin Hrest]; subst.
  cbn [Mongo.update_one]. destruct (p x); cbn [map].
  - constructor; [| exact Hrest].
    rewrite Hf. intros Hin. apply in_map_iff in Hin. destruct Hin as [u [Hu Hin]].
    apply (Hfresh u); [now right | exact Hu].
  - constructor.
    + intros Hin. apply in_map_iff in Hin. destruct Hin as [u [Hu Hin]].
      assert (Hcases : u_username u = name \/ In (u_username u) (map u_username rest)).
      { clear - Hin Hf. induction rest as [| z zs IHz]; [destruct Hin |].
        cbn [Mongo.update_one] in Hin. destruct (p z).
        - destruct Hin as [<- | Hin]; [left; apply Hf | right; right; now apply in_map].
        - destruct Hin as [<- | Hin]; [right; now left |].
          destruct (IHz Hin) as [H | H]; [now left | right; now right]. }
      destruct Hcases as [Hname | Hold].
      * apply (Hfresh x); [now left | congruence].
      * apply Hnotin. now rewrite <- Hu.
    + apply IH; [exact Hrest | intros u Hu; apply Hfresh; now right].
Qed.

Lemma find_user_none (name : string) (db : Db) :
  find_user (Some name) db = None -> forall u, In u (users db) -> u_username u <> name.
Proof.
  unfold find_user, Mongo.find_one. intros Hnone u Hin Heq.
  pose proof (find_none _ _ Hnone u Hin) as H. unfold by_username in H.
  rewrite Heq, String.eqb_refl in H. discriminate H.
Qed.

(** X11: [update_user] keeps usernames unique.  If no two users of the store
    share a username before a call, none do after it, whatever the request
    and its outcome. *)
Theorem update_user_keeps_usernames_unique (user_id : string) (user_update : UserUpdate)
    (current_user : CurrentUser) (now : datetime) (db db' : Db)
    (o : Outcome UpdateUserResponse) :
  unique_usernames db ->
  update_user user_id user_update current_user now db = (db', o) ->
  unique_usernames db'.
Proof.
  intros Hnd Hrun.
  destruct (parse_object_id user_id) as [oid |] eqn:Hparse.
  2: { destruct (update_user_unfound user_id user_update current_user now db)
         as [code [detail H]]; [now rewrite Hparse |].
       rewrite H in Hrun. now injection Hrun as <- _. }
  destruct (Mongo.find_one (by_user_id oid) (users db)) as [target |] eqn:Hfind.
  2: { destruct (update_user_unfound user_id user_update current_user now db)
         as [code [detail H]]; [now rewrite Hparse |].
       rewrite H in Hrun. now injection Hrun as <- _. }
  assert (Hset : forall d_username d_email d_org d_active d_points,
            username_block user_update target db = (db, Return d_username) ->
            NoDup (map u_username
                     (Mongo.update_one (by_user_id oid)
                        (apply_user_set
                           (user_update_data user_update target d_username d_email
                              d_org d_active d_points) now (cu_id current_user))
                        (users db)))).
  { intros d_username d_email d_org d_active d_points Hname.
    apply username_block_inv in Hname. destruct Hname as [_ Hname].
    destruct d_username as [name |].
    - destruct Hname as [_ [_ Hfresh]].
      apply (usernames_after_rename _ _ name); [exact Hnd | | reflexivity].
      now apply find_user_none.
    - rewrite update_one_map_same; [exact Hnd | reflexivity]. }
  pose proof (update_user_outcome user_id oid user_update current_user now db db' target
                o Hparse Hfind Hrun) as Hout.
  destruct o as [response | e].
  - destruct Hout as [_ [_ [_ Hwrite]]].
    pose proof (write_user_update_outcome user_id oid user_update current_user target now
                  db db' (Return response) Hfind Hwrite)
      as [d_username [d_email [d_org [d_active [d_points
           [Hname [_ [_ [_ [_ [_ [-> _]]]]]]]]]]]].
    unfold unique_usernames, updated_users in *. cbn [users set_users].
    pose proof (Hset d_username d_email d_org d_active d_points Hname) as Hfirst.
    destruct d_points as [[pts entry] |]; [| exact Hfirst].
    rewrite update_one_map_same; [exact Hfirst | reflexivity].
  - destruct Hout as [_ [-> | [d_username [d_email [d_org [d_active [pts
                                [Hname [_ [_ [_ [_ ->]]]]]]]]]]]]; [exact Hnd |].
    unfold unique_usernames, updated_users in *. cbn [users set_users].
    now apply Hset.
Qed.

Lemma update_user_keeps_usernames_unique_witness :
  unique_usernames (fst (update_user "64b000000000000000000001" (rename_request "jd")
                           (Sample.identity (Sample.jdoe 0 [])) 7 (Sample.store 0 []))).
Proof.
  apply (update_user_keeps_usernames_unique "64b000000000000000000001" (rename_request "jd")
           (Sample.identity (Sample.jdoe 0 [])) 7 (Sample.store 0 []) _
           (snd (update_user "64b000000000000000000001" (rename_request "jd")
                   (Sample.identity (Sample.jdoe 0 [])) 7 (Sample.store 0 [])))).
  - unfold unique_usernames. simpl.
    repeat (apply NoDup_cons; [simpl; intuition discriminate |]). apply NoDup_nil.
  - reflexivity.
Defined.

(** X12: [update_user] touches one user document and nothing else.  After
    any call, the leads and competitions are as before, the user documents
    have the same [_id]s in the same order, and every user other than the
    one addressed is unchanged. *)
Theorem update_user_touches_only_target (user_id : string) (user_update : UserUpdate)
    (current_user : CurrentUser) (now : datetime) (db db' : Db)
    (o : Outcome UpdateUserResponse) :
  update_user user_id user_update current_user now db = (db', o) ->
  leads db' = leads db
  /\ competitions db' = competitions db
  /\ map u_id (users db') = map u_id (users db)
  /\ (forall other,
        parse_object_id user_id <> Some other ->
        Mongo.find_one (by_user_id other) (users db')
        = Mongo.find_one (by_user_id other) (users db)).
Proof.
  intros Hrun.
  assert (Hsame : db' = db -> leads db' = leads db
                              /\ competitions db' = competitions db
                              /\ map u_id (users db') = map u_id (users db)
                              /\ (forall other,
                                    parse_object_id user_id <> Some other ->
                                    Mongo.find_one (by_user_id other) (users db')
                                    = Mongo.find_one (by_user_id other) (users db)))
    by (intros ->; now repeat split).
  destruct (parse_object_id user_id) as [oid |] eqn:Hparse.
  2: { destruct (update_user_unfound user_id user_update current_user now db)
         as [code [detail H]]; [now rewrite Hparse |].
       rewrite H in Hrun. apply Hsame. now injection Hrun as <- _. }
  destruct (Mongo.find_one (by_user_id oid) (users db)) as [target |] eqn:Hfind.
  2: { destruct (update_user_unfound user_id user_update current_user now db)
         as [code [detail H]]; [now rewrite Hparse |].
       rewrite H in Hrun. apply Hsame. now injection Hrun as <- _. }
  assert (Hwritten : forall data d_points,
            db' = set_users (updated_users oid data d_points now (cu_id current_user)) db ->
            leads db' = leads db
            /\ competitions db' = competitions db
            /\ map u_id (users db') = map u_id (users db)
            /\ (forall other,
                  Some oid <> Some other ->
                  Mongo.find_one (by_user_id other) (users db')
                  = Mongo.find_one (by_user_id other) (users db))).
  { intros data d_points ->.
    cbn [users leads competitions set_users]. split; [reflexivity |]. split; [reflexivity |].
    unfold updated_users. split.
    - destruct d_points as [[pts entry] |]; rewrite !update_one_map_same; reflexivity.
    - intros other Hother.
      assert (Hdisjoint : forall x, by_user_id oid x = true -> by_user_id other x = false).
      { intros x Hx. unfold by_user_id in *. apply String.eqb_eq in Hx.
        apply String.eqb_neq. congruence. }
      destruct d_points as [[pts entry] |];
        rewrite !find_one_update_one_other; try reflexivity; exact Hdisjoint. }
  pose proof (update_user_outcome user_id oid user_update current_user now db db' target
                o Hparse Hfind Hrun) as Hout.
  destruct o as [response | e].
  - destruct Hout as [_ [_ [_ Hwrite]]].
    pose proof (write_user_update_outcome user_id oid user_update current_user target now
                  db db' (Return response) Hfind Hwrite)
      as [d_username [d_email [d_org [d_active [d_points
           [_ [_ [_ [_ [_ [_ [Hdb _]]]]]]]]]]]].
    exact (Hwritten _ _ Hdb).
  - destruct Hout as [_ [Hdb | [d_username [d_email [d_org [d_active [pts
                                 [_ [_ [_ [_ [_ Hdb]]]]]]]]]]]]; [now apply Hsame |].
    exact (Hwritten _ _ Hdb).
Qed.

Lemma update_user_touches_only_target_witness :
  exists db' o,
    update_user "64b000000000000000000001" (user_request None None None None (Some 40))
      (Sample.identity Sample.msmith) 7 (Sample.store 15 []) = (db', o)
    /\ Mongo.find_one (by_user_id "64b000000000000000000002") (users db')
       = Mongo.find_one (by_user_id "64b000000000000000000002") (users (Sample.store 15 [])).
Proof.
  do 2 eexists. split; [reflexivity |].
  refine (proj2 (proj2 (proj2
            (update_user_touches_only_target "64b000000000000000000001"
               (user_request None None None None (Some 40))
               (Sample.identity Sample.msmith) 7 (Sample.store 15 []) _ _ eq_refl)))
            "64b000000000000000000002" _).
  discriminate.
Defined.

Lemma first_restricted_field_none (user_update : UserUpdate) :
  first_restricted_field user_update = None ->
  uu_role user_update = None
  /\ uu_organization_id user_update = None
  /\ uu_manager_id user_update = None
  /\ uu_is_active user_update = None
  /\ uu_points user_update = None.
Proof.
  unfold first_restricted_field.
  destruct (uu_role user_update); [discriminate |].
  destruct (uu_organization_id user_update); [discriminate |].
  destruct (uu_manager_id user_update); [discriminate |].
  destruct (uu_is_active user_update); [discriminate |].
  destruct (uu_points user_update); [discriminate |].
  now repeat split.
Qed.

(** X13: what a canvasser can do with [update_user].  A request of a
    canvasser that goes through addresses the canvasser's own record and
    leaves its role, organization, manager_id, is_active flag, balance and
    points history as they were. *)
Theorem canvasser_updates_own_profile_only (user_id oid : string) (user_update : UserUpdate)
    (current_user : CurrentUser) (now : datetime) (db db' : Db) (target : User)
    (response : UpdateUserResponse) :
  parse_object_id user_id = Some oid ->
  Mongo.find_one (by_user_id oid) (users db) = Some target ->
  cu_role current_user = "canvasser" ->
  update_user user_id user_update current_user now db = (db', Return response) ->
  u_id target = cu_id current_user
  /\ u_id (uur_user response) = u_id target
  /\ u_role (uur_user response) = u_role target
  /\ u_organization_id (uur_user response) = u_organization_id target
  /\ u_manager_id (uur_user response) = u_manager_id target
  /\ u_is_active (uur_user response) = u_is_active target
  /\ u_points (uur_user response) = u_points target
  /\ u_points_history (uur_user response) = u_points_history target.
Proof.
  intros Hparse Hfind Hrole Hrun.
  pose proof (update_user_outcome user_id oid user_update current_user now db db' target
                (Return response) Hparse Hfind Hrun) as [Hgate [_ [Hrestricted Hwrite]]].
  destruct (first_restricted_field_none user_update (Hrestricted Hrole))
    as [Hr [Ho [Hm [Ha Hp]]]].
  pose proof (write_user_update_outcome user_id oid user_update current_user target now
                db db' (Return response) Hfind Hwrite)
    as [d_username [d_email [d_org [d_active [d_points
         [_ [_ [Horg [Hactive [Hpoints [_ [_ ->]]]]]]]]]]]].
  apply organization_block_inv in Horg. destruct Horg as [_ Horg].
  apply active_block_inv in Hactive. destruct Hactive as [_ Hactive].
  apply points_block_inv in Hpoints. destruct Hpoints as [_ Hpoints].
  destruct d_org as [org |]; [destruct Horg; congruence |].
  destruct d_active as [active |]; [destruct Hactive; congruence |].
  destruct d_points as [[pts entry] |]; [destruct Hpoints; congruence |].
  split.
  - unfold can_update in Hgate. rewrite Hrole in Hgate.
    change (String.eqb "canvasser" "super_admin") with false in Hgate.
    change (String.eqb "canvasser" "admin_manager") with false in Hgate.
    change (String.eqb "canvasser" "manager") with false in Hgate.
    change (String.eqb "canvasser" "canvasser") with true in Hgate.
    cbv iota in Hgate.
    destruct (String.eqb (u_id target) (cu_id current_user)) eqn:Hid; [| discriminate Hgate].
    now apply String.eqb_eq.
  - unfold updated_target, user_update_data, role_change_requested.
    rewrite Hr, Hm. now repeat split.
Qed.

Lemma canvasser_updates_own_profile_only_witness :
  exists db' response,
    update_user "64b000000000000000000001" (rename_request "jd")
      (Sample.identity (Sample.jdoe 0 [])) 7 (Sample.store 0 []) = (db', Return response)
    /\ u_username (uur_user response) = "jd"
    /\ u_role (uur_user response) = "canvasser"
    /\ u_manager_id (uur_user response) = Some "msmith".
Proof.
  do 2 eexists. split; [reflexivity |]. split; [reflexivity |].
  pose proof (canvasser_updates_own_profile_only "64b000000000000000000001"
                "64b000000000000000000001" (rename_request "jd")
                (Sample.identity (Sample.jdoe 0 [])) 7 (Sample.store 0 []) _
                (Sample.jdoe 0 []) _ eq_refl eq_refl eq_refl eq_refl)
    as [_ [_ [Hrole [_ [Hmanager _]]]]].
  split; [exact Hrole | exact Hmanager].
Defined.

(** X14: a manager can hand a canvasser over and thereby lose it.
    [update_user] stores any manager_id that a manager sets on one of the
    manager's canvassers, without checking that it names a manager; once
    the new manager_id is not the manager's own username, the manager
    passes neither the permission check of [update_user] nor
    [check_user_access] for that canvasser. *)
Theorem manager_hands_canvasser_over (user_id oid : string) (manager : CurrentUser)
    (now : datetime) (db : Db) (target : User) (new_manager : string) :
  parse_object_id user_id = Some oid ->
  Mongo.find_one (by_user_id oid) (users db) = Some target ->
  cu_role manager = "manager" ->
  u_role target = "canvasser" ->
  u_manager_id target = Some (cu_username manager) ->
  u_id target <> cu_id manager ->
  new_manager <> cu_username manager ->
  exists db' response,
    update_user user_id (manager_id_only new_manager) manager now db = (db', Return response)
    /\ Mongo.find_one (by_user_id oid) (users db') = Some (uur_user response)
    /\ u_manager_id (uur_user response) = Some new_manager
    /\ can_update manager (uur_user response) = false
    /\ check_user_access manager (uur_user response) = false.
Proof.
  intros Hparse Hfind Hrole Htarget Hmanaged Hself Hnew.
  assert (Hid : String.eqb (u_id target) (cu_id manager) = false)
    by (now apply String.eqb_neq).
  assert (Hgate : can_update manager target = true).
  { unfold can_update. rewrite Hrole, Hid, Hmanaged, Htarget.
    cbn [String.eqb Ascii.eqb Bool.eqb Py.opt_eqb]. now rewrite String.eqb_refl. }
  rewrite (update_user_found user_id oid (manager_id_only new_manager) manager now db target
             Hparse Hfind).
  set (stored := apply_user_set
                   (user_update_data (manager_id_only new_manager) target None None None
                      None None) now (cu_id manager) target).
  exists (set_users (Mongo.update_one (by_user_id oid)
                       (apply_user_set
                          (user_update_data (manager_id_only new_manager) target None None
                             None None None) now (cu_id manager))) db).
  exists {| uur_message := "User updated successfully";
            uur_user_id := user_id;
            uur_updated_by_role := cu_role manager;
            uur_user := stored |}.
  assert (Hstored : Mongo.find_one (by_user_id oid)
                      (Mongo.update_one (by_user_id oid)
                         (apply_user_set
                            (user_update_data (manager_id_only new_manager) target None None
                               None None None) now (cu_id manager)) (users db))
                    = Some stored).
  { rewrite find_one_update_one by reflexivity. now rewrite Hfind. }
  split; [| split; [exact Hstored | split; [reflexivity |]]].
  - apply try_except_Return.
    unfold bind at 1. rewrite Hgate. cbn [negb raise_if ret].
    unfold bind at 1, role_change_validation, role_change_requested.
    cbn [uu_role manager_id_only ret].
    unfold bind at 1, canvasser_restriction. rewrite Hrole.
    cbn [String.eqb Ascii.eqb Bool.eqb ret].
    rewrite write_user_update_blocks.
    unfold username_block, email_block, organization_block, active_block, points_block.
    cbn [uu_username uu_email uu_organization_id uu_is_active uu_points manager_id_only].
    unfold bind, ret, raise_if, modify, gets.
    cbn [user_set_is_empty user_update_data us_username us_email us_role
         us_organization_id us_first_name us_last_name us_phone us_manager_id
         uu_first_name uu_last_name uu_phone uu_manager_id uu_terms_accepted
         manager_id_only role_change_requested uu_role set_users users].
    unfold ret. cbn beta iota. rewrite Hstored, ?Hrole. reflexivity.
  - assert (Hids : String.eqb (u_id stored) (cu_id manager) = false) by exact Hid.
    assert (Hmgr : Py.opt_eqb (u_manager_id stored) (Some (cu_username manager)) = false).
    { apply opt_eqb_neq. cbn. congruence. }
    cbn [uur_user]. split.
    + unfold can_update. rewrite Hrole, Hids, Hmgr. reflexivity.
    + unfold check_user_access. rewrite Hrole, Hids, Hmgr. reflexivity.
Qed.

Lemma manager_hands_canvasser_over_witness :
  exists db' response,
    update_user "64b000000000000000000001" (manager_id_only "nobody")
      (Sample.identity Sample.msmith) 7 (Sample.store 0 []) = (db', Return response)
    /\ can_update (Sample.identity Sample.msmith) (uur_user response) = false.
Proof.
  destruct (manager_hands_canvasser_over "64b000000000000000000001"
              "64b000000000000000000001" (Sample.identity Sample.msmith) 7
              (Sample.store 0 []) (Sample.jdoe 0 []) "nobody"
              eq_refl eq_refl eq_refl eq_refl eq_refl)
    as [db' [response [Hrun [_ [_ [Hgate _]]]]]]; [discriminate | discriminate |].
  now exists db', response.
Defined.

(* ================================================================== *)
(** * Properties of create_user, delete_user and reactivate_user *)

Lemma try_except_inv {A : Type} (prefix : string) (m : M A) (db db' : Db) (o : Outcome A) :
  try_except prefix m db = (db', o) ->
  (m db = (db', o) /\ forall what, o <> Raise (Exception what))
  \/ (exists what, m db = (db', Raise (Exception what))
      /\ o = Raise (HTTPException HTTP_500_INTERNAL_SERVER_ERROR
                      (prefix ++ ": " ++ what)%string)).
Proof.
  unfold try_except. destruct (m db) as [d [a | [code detail | what]]].
  - intros [= <- <-]. left. split; [reflexivity | discriminate].
  - intros [= <- <-]. left. split; [reflexivity | discriminate].
  - intros [= <- <-]. right. now exists what.
Qed.

Lemma insert_user_inv (doc : User) (db db' : Db) (o : Outcome unit) :
  insert_user doc db = (db', o) ->
  (o = Raise (Exception "DuplicateKeyError") /\ db' = db)
  \/ (o = Return tt
      /\ db' = set_users (Mongo.insert_one doc) db
      /\ forall u, In u (users db) -> u_id u <> u_id doc).
Proof.
  unfold insert_user, bind, gets, raise_if, raise, ret, modify.
  destruct (existsb (fun u => by_user_id (u_id doc) u || by_username (u_username doc) u
                              || Py.opt_eqb (u_email u) (u_email doc)) (users db)) eqn:Hdup.
  - intros [= <- <-]. now left.
  - intros [= <- <-]. right. split; [reflexivity |]. split; [reflexivity |].
    intros u Hin Heq.
    assert (Hex : existsb (fun u => by_user_id (u_id doc) u || by_username (u_username doc) u
                                    || Py.opt_eqb (u_email u) (u_email doc)) (users db) = true).
    { apply existsb_exists. exists u. split; [exact Hin |].
      unfold by_user_id. now rewrite Heq, String.eqb_refl. }
    congruence.
Qed.

(** What a run of [create_user] amounts to. *)
Lemma create_user_outcome (user_data : UserCreate) (current_user : CurrentUser)
    (now : datetime) (inserted_id : string) (db db' : Db) (o : Outcome CreateUserResponse) :
  create_user user_data current_user now inserted_id db = (db', o) ->
  match o with
  | Raise e => db' = db /\ exists code detail, e = HTTPException code detail
  | Return response =>
      Py.in_list (uc_role user_data)
        (Py.dict_get (cu_role current_user) role_permissions []) = true
      /\ (cu_role current_user = "admin_manager" ->
          uc_organization_id user_data = cu_organization_id current_user)
      /\ exists organization_id manager_id,
           (if String.eqb (cu_role current_user) "manager"
            then organization_id = cu_organization_id current_user
                 /\ manager_id = Some (cu_username current_user)
            else organization_id = uc_organization_id user_data
                 /\ manager_id = uc_manager_id user_data)
           /\ find_user (Some (uc_username user_data)) db = None
           /\ (forall u, In u (users db) -> u_id u <> inserted_id)
           /\ db' = set_users (Mongo.insert_one
                                 (user_doc user_data organization_id manager_id inserted_id)) db
           /\ cur_user_id response = inserted_id
  end.
Proof.
  intros Hrun. apply try_except_inv in Hrun.
  assert (Hbody : forall d x,
            (raise_if (negb (Py.in_list (uc_role user_data)
                               (Py.dict_get (cu_role current_user) role_permissions [])))
               (HTTPException HTTP_403_FORBIDDEN
                  (cu_role current_user ++ " can only create users with roles: "
                   ++ join ", " (Py.dict_get (cu_role current_user) role_permissions []))%string) ;;
             (if String.eqb (cu_role current_user) "admin_manager" then
                raise_if (negb (Py.truthy_opt (uc_organization_id user_data)))
                  (HTTPException HTTP_400_BAD_REQUEST
                     "Admin managers must specify organization_id") ;;
                raise_if (negb (Py.opt_eqb (uc_organization_id user_data)
                                  (cu_organization_id current_user)))
                  (HTTPException HTTP_403_FORBIDDEN
                     "Admin managers can only create users in their own organization")
              else ret tt) ;;
             assigned <-
               (if String.eqb (cu_role current_user) "manager" then
                  organization_id <-
                    (if negb (Py.truthy_opt (uc_organization_id user_data)) then
                       ret (cu_organization_id current_user)
                     else
                       raise_if (negb (Py.opt_eqb (uc_organization_id user_data)
                                         (cu_organization_id current_user)))
                         (HTTPException HTTP_403_FORBIDDEN
                            "Managers can only create users in their own organization") ;;
                       ret (uc_organization_id user_data)) ;;
                  ret (organization_id, Some (cu_username current_user))
                else ret (uc_organization_id user_data, uc_manager_id user_data)) ;;
             existing_username <- gets (find_user (Some (uc_username user_data))) ;;
             raise_if (match existing_username with Some _ => true | None => false end)
               (HTTPException HTTP_400_BAD_REQUEST "Username already exists") ;;
             existing_email <-
               gets (fun db => Mongo.find_one
                                 (fun u => Py.opt_eqb (u_email u) (Some (uc_email user_data)))
                                 (users db)) ;;
             raise_if (match existing_email with Some _ => true | None => false end)
               (HTTPException HTTP_400_BAD_REQUEST "Email already exists") ;;
             insert_user (user_doc user_data (fst assigned) (snd assigned) inserted_id) ;;
             ret {| cur_message := "User created successfully";
                    cur_user_id := inserted_id;
                    cur_username := uc_username user_data;
                    cur_role := uc_role user_data;
                    cur_created_by_role := cu_role current_user |}) db = (d, x) ->
            match x with
            | Raise e => d = db
            | Return response =>
                Py.in_list (uc_role user_data)
                  (Py.dict_get (cu_role current_user) role_permissions []) = true
                /\ (cu_role current_user = "admin_manager" ->
                    uc_organization_id user_data = cu_organization_id current_user)
                /\ exists organization_id manager_id,
                     (if String.eqb (cu_role current_user) "manager"
                      then organization_id = cu_organization_id current_user
                           /\ manager_id = Some (cu_username current_user)
                      else organization_id = uc_organization_id user_data
                           /\ manager_id = uc_manager_id user_data)
                     /\ find_user (Some (uc_username user_data)) db = None
                     /\ (forall u, In u (users db) -> u_id u <> inserted_id)
                     /\ d = set_users (Mongo.insert_one
                                         (user_doc user_data organization_id manager_id
                                            inserted_id)) db
                     /\ cur_user_id response = inserted_id
            end).
  { intros d x Hb.
    apply bind_inv in Hb. destruct Hb as [[e [H1 ->]] | [[] [s1 [H1 Hb]]]].
    { now apply raise_if_inv in H1. }
    apply raise_if_inv in H1. destruct H1 as [-> [[_ [=]] | [Hallowed _]]].
    apply negb_false_iff in Hallowed.
    apply bind_inv in Hb. destruct Hb as [[e [H2 ->]] | [[] [s2 [H2 Hb]]]].
    { destruct (String.eqb (cu_role current_user) "admin_manager").
      - apply bind_inv in H2. destruct H2 as [[e' [H2 _]] | [[] [s [H2 H2']]]].
        + now apply raise_if_inv in H2.
        + apply raise_if_inv in H2. destruct H2 as [-> _]. now apply raise_if_inv in H2'.
      - now injection H2 as <-. }
    assert (Hadmin : s2 = db
                     /\ (cu_role current_user = "admin_manager" ->
                         uc_organization_id user_data = cu_organization_id current_user)).
    { destruct (String.eqb (cu_role current_user) "admin_manager") eqn:Ham.
      - apply bind_inv in H2. destruct H2 as [[e' [_ [=]]] | [[] [s [H2 H2']]]].
        apply raise_if_inv in H2. destruct H2 as [-> _].
        apply raise_if_inv in H2'. destruct H2' as [-> [[_ [=]] | [Hsame _]]].
        split; [reflexivity |]. intros _. apply negb_false_iff in Hsame.
        now apply opt_eqb_eq.
      - injection H2 as <-. split; [reflexivity |]. intros Hrole.
        rewrite Hrole in Ham. discriminate Ham. }
    destruct Hadmin as [-> Hadmin].
    apply bind_inv in Hb. destruct Hb as [[e [H3 ->]] | [[org mgr] [s3 [H3 Hb]]]].
    { destruct (String.eqb (cu_role current_user) "manager"); [| discriminate H3].
      apply bind_inv in H3. destruct H3 as [[e' [H3 _]] | [a [s [_ [=]]]]].
      destruct (negb (Py.truthy_opt (uc_organization_id user_data))); [discriminate H3 |].
      apply bind_inv in H3. destruct H3 as [[e'' [H3 _]] | [[] [s [_ [=]]]]].
      now apply raise_if_inv in H3. }
    assert (Hassigned : s3 = db
                        /\ if String.eqb (cu_role current_user) "manager"
                           then org = cu_organization_id current_user
                                /\ mgr = Some (cu_username current_user)
                           else org = uc_organization_id user_data
                                /\ mgr = uc_manager_id user_data).
    { destruct (String.eqb (cu_role current_user) "manager").
      - apply bind_inv in H3. destruct H3 as [[e' [_ [=]]] | [a [s [H3 H3']]]].
        injection H3' as <- <- <-.
        destruct (negb (Py.truthy_opt (uc_organization_id user_data))).
        + injection H3 as <- <-. now repeat split.
        + apply bind_inv in H3. destruct H3 as [[e' [_ [=]]] | [[] [s' [H3 H3']]]].
          apply raise_if_inv in H3. destruct H3 as [-> [[_ [=]] | [Hsame _]]].
          injection H3' as <- <-. apply negb_false_iff, opt_eqb_eq in Hsame.
          now repeat split.
      - injection H3 as <- <- <-. now repeat split. }
    destruct Hassigned as [-> Hassigned].
    unfold bind at 1, gets at 1 in Hb.
    destruct (find_user (Some (uc_username user_data)) db) as [existing |] eqn:Hname.
    { unfold bind at 1 in Hb. cbn [raise_if raise] in Hb. now injection Hb as <- <-. }
    unfold bind at 1 in Hb. cbn [raise_if ret] in Hb.
    unfold bind at 1, gets at 1 in Hb.
    destruct (Mongo.find_one (fun u => Py.opt_eqb (u_email u) (Some (uc_email user_data)))
                (users db)) as [existing |].
    { unfold bind at 1 in Hb. cbn [raise_if raise] in Hb. now injection Hb as <- <-. }
    unfold bind at 1 in Hb. cbn [raise_if ret] in Hb.
    apply bind_inv in Hb. destruct Hb as [[e [H4 ->]] | [[] [s4 [H4 Hb]]]].
    { apply insert_user_inv in H4. destruct H4 as [[_ ->] | [[=] _]]. reflexivity. }
    apply insert_user_inv in H4. destruct H4 as [[[=] _] | [_ [-> Hfresh]]].
    injection Hb as <- <-.
    split; [exact Hallowed |]. split; [exact Hadmin |].
    exists org, mgr. cbn [fst snd]. now repeat split. }
  destruct Hrun as [[Hrun Hnot] | [what [Hrun ->]]].
  - pose proof (Hbody db' o Hrun) as H. destruct o as [response | e]; [exact H |].
    split; [exact H |]. destruct e as [code detail | what]; [eauto |].
    now destruct (Hnot what).
  - pose proof (Hbody db' _ Hrun) as H. cbn in H. split; [exact H | eauto].
Qed.

Lemma role_permissions_spec (current_role target_role : string) :
  Py.in_list target_role (Py.dict_get current_role role_permissions []) = true <->
  (current_role = "super_admin" /\ In target_role four_roles) \/
  (current_role = "admin_manager" /\ In target_role ["manager"; "canvasser"]) \/
  (current_role = "manager" /\ target_role = "canvasser").
Proof.
  unfold role_permissions, Py.dict_get.
  destruct (String.eqb current_role "super_admin") eqn:Hsa;
    [apply String.eqb_eq in Hsa | apply String.eqb_neq in Hsa].
  { rewrite in_list_In. subst. split; [intros H; left; now split |].
    intros [[_ H] | [[H _] | [H _]]]; [exact H | discriminate H | discriminate H]. }
  destruct (String.eqb current_role "admin_manager") eqn:Ham;
    [apply String.eqb_eq in Ham | apply String.eqb_neq in Ham].
  { rewrite in_list_In. subst. split; [intros H; right; left; now split |].
    intros [[H _] | [[_ H] | [H _]]]; [discriminate H | exact H | discriminate H]. }
  destruct (String.eqb current_role "manager") eqn:Hm;
    [apply String.eqb_eq in Hm | apply String.eqb_neq in Hm].
  { rewrite in_list_In. subst. split.
    - intros [H | []]. right. right. now split.
    - intros [[H _] | [[H _] | [_ H]]]; [discriminate H | discriminate H |].
      subst. now left. }
  split; [discriminate | intros [[H _] | [[H _] | [H _]]]; contradiction].
Qed.

Lemma find_one_app_none {A : Type} (p : A -> bool) (l : list A) (x : A) :
  Mongo.find_one p l = None ->
  Mongo.find_one p (l ++ [x]) = if p x then Some x else None.
Proof.
  unfold Mongo.find_one. induction l as [| y l IH]; cbn; [reflexivity |].
  destruct (p y); [discriminate | exact IH].
Qed.

Lemma find_one_app_some {A : Type} (p : A -> bool) (l : list A) (x y : A) :
  Mongo.find_one p l = Some y -> Mongo.find_one p (l ++ [x]) = Some y.
Proof.
  unfold Mongo.find_one. induction l as [| z l IH]; cbn; [discriminate |].
  destruct (p z); [trivial | exact IH].
Qed.

(** X15: below the top tier, [create_user] confines a caller to its own
    tenant and to the tiers under its own.  When a caller that is not a
    super_admin creates a user, the stored document is in the caller's
    organization whatever the request said; an admin_manager has created a
    manager or a canvasser, a manager has created a canvasser whose
    manager_id is the manager's own username, and no other role has created
    anything. *)
Theorem create_user_confined (user_data : UserCreate) (current_user : CurrentUser)
    (now : datetime) (inserted_id : string) (db db' : Db) (response : CreateUserResponse) :
  create_user user_data current_user now inserted_id db = (db', Return response) ->
  cu_role current_user <> "super_admin" ->
  exists doc,
    users db' = users db ++ [doc]
    /\ u_id doc = inserted_id
    /\ u_username doc = uc_username user_data
    /\ u_organization_id doc = cu_organization_id current_user
    /\ ((cu_role current_user = "admin_manager"
         /\ (u_role doc = "manager" \/ u_role doc = "canvasser")
         /\ u_manager_id doc = uc_manager_id user_data)
        \/ (cu_role current_user = "manager"
            /\ u_role doc = "canvasser"
            /\ u_manager_id doc = Some (cu_username current_user))).
Proof.
  intros Hrun Hnot.
  pose proof (create_user_outcome user_data current_user now inserted_id db db' _ Hrun)
    as [Hallowed [Hadmin [organization_id [manager_id [Hassigned [_ [_ [-> _]]]]]]]].
  exists (user_doc user_data organization_id manager_id inserted_id).
  split; [reflexivity |]. split; [reflexivity |]. split; [reflexivity |].
  cbn [user_doc u_organization_id u_role u_manager_id].
  apply role_permissions_spec in Hallowed.
  destruct Hallowed as [[Hrole _] | [[Hrole Htarget] | [Hrole Htarget]]].
  - contradiction.
  - rewrite Hrole in Hassigned.
    change (String.eqb "admin_manager" "manager") with false in Hassigned.
    destruct Hassigned as [-> ->]. split; [exact (Hadmin Hrole) |].
    left. split; [exact Hrole |]. split; [| reflexivity].
    destruct Htarget as [H | [H | []]]; [left | right]; now symmetry.
  - rewrite Hrole in Hassigned.
    change (String.eqb "manager" "manager") with true in Hassigned.
    destruct Hassigned as [-> ->]. split; [reflexivity |].
    right. now repeat split.
Qed.

Lemma create_user_confined_witness :
  exists db' response doc,
    create_user Fixture.new_canvasser (Sample.identity Sample.msmith) 50
      "64b0000000000000000000ff" (Sample.store 0 []) = (db', Return response)
    /\ users db' = users (Sample.store 0 []) ++ [doc]
    /\ u_organization_id doc = Some "org_1"
    /\ u_role doc = "canvasser"
    /\ u_manager_id doc = Some "msmith".
Proof.
  destruct (create_user_confined Fixture.new_canvasser (Sample.identity Sample.msmith) 50
              "64b0000000000000000000ff" (Sample.store 0 []) _ _ eq_refl)
    as [doc [Husers [_ [_ [Horg [[Hrole _] | [_ [Hrole Hmanager]]]]]]]].
  - discriminate.
  - discriminate Hrole.
  - eexists _, _, doc. split; [reflexivity |]. now repeat split.
Defined.

(** X16: [create_user] round trip.  After a successful creation the new
    username looks up the stored document, which carries the request's
    profile, is active and has an empty points history; every other
    username looks up what it did before, leads and competitions are
    untouched, and usernames that were unique stay unique. *)
Theorem create_user_then_lookup (user_data : UserCreate) (current_user : CurrentUser)
    (now : datetime) (inserted_id : string) (db db' : Db) (response : CreateUserResponse) :
  unique_usernames db ->
  create_user user_data current_user now inserted_id db = (db', Return response) ->
  unique_usernames db'
  /\ leads db' = leads db
  /\ competitions db' = competitions db
  /\ (forall name, name <> uc_username user_data ->
      find_user (Some name) db' = find_user (Some name) db)
  /\ exists doc,
       find_user (Some (uc_username user_data)) db' = Some doc
       /\ Mongo.find_one (by_user_id (cur_user_id response)) (users db') = Some doc
       /\ u_email doc = Some (uc_email user_data)
       /\ u_role doc = uc_role user_data
       /\ u_first_name doc = uc_first_name user_data
       /\ u_last_name doc = uc_last_name user_data
       /\ u_phone doc = uc_phone user_data
       /\ u_points doc = uc_points user_data
       /\ u_points_history doc = []
       /\ u_is_active doc = true.
Proof.
  intros Hunique Hrun.
  pose proof (create_user_outcome user_data current_user now inserted_id db db' _ Hrun)
    as [_ [_ [organization_id [manager_id [_ [Hname [Hfresh [-> ->]]]]]]]].
  cbn [set_users users leads competitions]. unfold Mongo.insert_one.
  split.
  { unfold unique_usernames. cbn [set_users users]. unfold Mongo.insert_one.
    rewrite map_app. cbn [map user_doc u_username].
    apply NoDup_app; [exact Hunique | apply NoDup_cons; [intros [] | apply NoDup_nil] |].
    intros name Hin [<- | []]. apply in_map_iff in Hin. destruct Hin as [u [Heq Hin]].
    exact (find_user_none _ _ Hname u Hin Heq). }
  split; [reflexivity |]. split; [reflexivity |]. split.
  { intros name Hname'. unfold find_user. cbn [set_users users]. unfold Mongo.insert_one.
    destruct (Mongo.find_one (by_username name) (users db)) as [u |] eqn:Hfind.
    - exact (find_one_app_some _ _ _ _ Hfind).
    - rewrite (find_one_app_none _ _ _ Hfind). unfold by_username. cbn [user_doc u_username].
      destruct (String.eqb (uc_username user_data) name) eqn:Heq; [| reflexivity].
      apply String.eqb_eq in Heq. now destruct Hname'. }
  exists (user_doc user_data organization_id manager_id inserted_id).
  split.
  { unfold find_user in *. cbn [set_users users]. unfold Mongo.insert_one.
    rewrite (find_one_app_none _ _ _ Hname). unfold by_username. cbn [user_doc u_username].
    now rewrite String.eqb_refl. }
  split; [| now repeat split].
  assert (Hnone : Mongo.find_one (by_user_id inserted_id) (users db) = None).
  { unfold Mongo.find_one. destruct (find (by_user_id inserted_id) (users db)) as [u |] eqn:Hf;
      [| reflexivity].
    apply find_some in Hf. destruct Hf as [Hin Heq]. apply String.eqb_eq in Heq.
    now destruct (Hfresh u Hin). }
  rewrite (find_one_app_none _ _ _ Hnone). unfold by_user_id. cbn [user_doc u_id].
  now rewrite String.eqb_refl.
Qed.

Lemma create_user_then_lookup_witness :
  exists db' response,
    create_user Fixture.new_canvasser (Sample.identity Sample.root) 50
      "64b0000000000000000000ff" (Sample.store 0 []) = (db', Return response)
    /\ unique_usernames db'
    /\ exists doc, find_user (Some "kim") db' = Some doc /\ u_is_active doc = true.
Proof.
  assert (Hunique : unique_usernames (Sample.store 0 [])).
  { unfold unique_usernames. cbn.
    repeat (apply NoDup_cons; [simpl; intuition discriminate |]). apply NoDup_nil. }
  destruct (create_user_then_lookup Fixture.new_canvasser (Sample.identity Sample.root) 50
              "64b0000000000000000000ff" (Sample.store 0 []) _ _ Hunique eq_refl)
    as [Hunique' [_ [_ [_ [doc [Hfind [_ [_ [_ [_ [_ [_ [_ [_ Hactive]]]]]]]]]]]]]].
  eexists _, _. split; [reflexivity |]. split; [exact Hunique' |].
  exists doc. split; [exact Hfind | exact Hactive].
Defined.

(** X17: a username is taken once.  After a successful [create_user], any
    later [create_user] for the same username, by whatever caller and with
    whatever else in the request, is answered with an HTTP error and leaves
    the store as it is. *)
Theorem create_user_username_taken (user_data again : UserCreate)
    (current_user caller : CurrentUser) (now later : datetime) (inserted_id next_id : string)
    (db db' : Db) (response : CreateUserResponse) :
  create_user user_data current_user now inserted_id db = (db', Return response) ->
  uc_username again = uc_username user_data ->
  exists code detail,
    create_user again caller later next_id db' = (db', Raise (HTTPException code detail)).
Proof.
  intros Hrun Hsame.
  pose proof (create_user_outcome user_data current_user now inserted_id db db' _ Hrun)
    as [_ [_ [organization_id [manager_id [_ [Hname [_ [Hdb' _]]]]]]]].
  assert (Hfound : find_user (Some (uc_username again)) db'
                   = Some (user_doc user_data organization_id manager_id inserted_id)).
  { rewrite Hsame, Hdb'. unfold find_user in *. cbn [set_users users]. unfold Mongo.insert_one.
    rewrite (find_one_app_none _ _ _ Hname). unfold by_username. cbn [user_doc u_username].
    now rewrite String.eqb_refl. }
  destruct (create_user again caller later next_id db') as [db'' o] eqn:Hagain.
  pose proof (create_user_outcome again caller later next_id db' db'' o Hagain) as H.
  destruct o as [response' | e].
  - destruct H as [_ [_ [org [mgr [_ [Hnone _]]]]]]. rewrite Hfound in Hnone.
    discriminate Hnone.
  - destruct H as [-> [code [detail ->]]]. now exists code, detail.
Qed.

Lemma create_user_username_taken_witness :
  exists db' response code detail,
    create_user Fixture.new_canvasser (Sample.identity Sample.root) 50
      "64b0000000000000000000ff" (Sample.store 0 []) = (db', Return response)
    /\ create_user Fixture.new_canvasser (Sample.identity Sample.msmith) 60
         "64b0000000000000000000fe" db' = (db', Raise (HTTPException code detail)).
Proof.
  destruct (create_user_username_taken Fixture.new_canvasser Fixture.new_canvasser
              (Sample.identity Sample.root) (Sample.identity Sample.msmith) 50 60
              "64b0000000000000000000ff" "64b0000000000000000000fe"
              (Sample.store 0 []) _ _ eq_refl eq_refl) as [code [detail Hagain]].
  eexists _, _, code, detail. split; [reflexivity | exact Hagain].
Defined.

(** X18: a manager controls the canvassers it creates.  Right after a
    manager's successful [create_user], the manager passes
    [check_user_access] and [can_update] for the new user, [list_users]
    shows it to the manager, and a lead of the manager's organization
    created by the new user passes [check_lead_access] for the manager. *)
Theorem manager_controls_created_canvasser (user_data : UserCreate) (manager : CurrentUser)
    (now : datetime) (inserted_id : string) (db db' : Db) (response : CreateUserResponse) :
  cu_role manager = "manager" ->
  create_user user_data manager now inserted_id db = (db', Return response) ->
  exists doc,
    find_user (Some (uc_username user_data)) db' = Some doc
    /\ check_user_access manager doc = true
    /\ can_update manager doc = true
    /\ list_users_filter manager doc = true
    /\ forall lead,
         l_created_by lead = Some (uc_username user_data) ->
         l_organization_id lead = cu_organization_id manager ->
         check_lead_access db' manager lead = true.
Proof.
  intros Hrole Hrun.
  pose proof (create_user_outcome user_data manager now inserted_id db db' _ Hrun)
    as [Hallowed [_ [organization_id [manager_id [Hassigned [Hname [_ [-> _]]]]]]]].
  apply role_permissions_spec in Hallowed.
  destruct Hallowed as [[H _] | [[H _] | [_ Htarget]]]; [congruence | congruence |].
  rewrite Hrole in Hassigned.
  change (String.eqb "manager" "manager") with true in Hassigned.
  destruct Hassigned as [-> ->].
  assert (Hfound : find_user (Some (uc_username user_data))
                     (set_users (Mongo.insert_one
                                   (user_doc user_data (cu_organization_id manager)
                                      (Some (cu_username manager)) inserted_id)) db)
                   = Some (user_doc user_data (cu_organization_id manager)
                             (Some (cu_username manager)) inserted_id)).
  { unfold find_user in *. cbn [set_users users]. unfold Mongo.insert_one.
    rewrite (find_one_app_none _ _ _ Hname). unfold by_username. cbn [user_doc u_username].
    now rewrite String.eqb_refl. }
  assert (Hself : Py.opt_eqb (Some (cu_username manager)) (Some (cu_username manager)) = true)
    by now apply opt_eqb_eq.
  exists (user_doc user_data (cu_organization_id manager) (Some (cu_username manager))
            inserted_id).
  split; [exact Hfound |]. split.
  { unfold check_user_access. rewrite Hrole.
    change (String.eqb "manager" "super_admin") with false.
    change (String.eqb "manager" "admin_manager") with false.
    change (String.eqb "manager" "manager") with true.
    cbn [user_doc u_id u_manager_id u_role]. rewrite Hself, Htarget.
    change (String.eqb "canvasser" "canvasser") with true.
    now destruct (String.eqb inserted_id (cu_id manager)). }
  split.
  { unfold can_update. rewrite Hrole.
    change (String.eqb "manager" "super_admin") with false.
    change (String.eqb "manager" "admin_manager") with false.
    change (String.eqb "manager" "manager") with true.
    cbn [user_doc u_id u_manager_id u_role]. rewrite Hself, Htarget.
    change (String.eqb "canvasser" "canvasser") with true.
    now destruct (String.eqb inserted_id (cu_id manager)). }
  split.
  { unfold list_users_filter. rewrite Hrole.
    change (String.eqb "manager" "super_admin") with false.
    change (String.eqb "manager" "admin_manager") with false.
    change (String.eqb "manager" "manager") with true.
    cbn [user_doc u_id u_manager_id]. now rewrite Hself. }
  intros lead Hcreator Horg.
  unfold check_lead_access. rewrite Hrole.
  change (String.eqb "manager" "super_admin") with false.
  change (String.eqb "manager" "admin_manager") with false.
  change (String.eqb "manager" "manager") with true.
  rewrite Hcreator, Hfound. cbn [user_doc u_manager_id]. rewrite Hself.
  assert (Heq : Py.opt_eqb (l_organization_id lead) (cu_organization_id manager) = true)
    by now apply opt_eqb_eq.
  now rewrite Heq.
Qed.

Lemma manager_controls_created_canvasser_witness :
  exists db' response doc,
    create_user Fixture.new_canvasser (Sample.identity Sample.msmith) 50
      "64b0000000000000000000ff" (Sample.store 0 []) = (db', Return response)
    /\ find_user (Some "kim") db' = Some doc
    /\ can_update (Sample.identity Sample.msmith) doc = true.
Proof.
  destruct (manager_controls_created_canvasser Fixture.new_canvasser
              (Sample.identity Sample.msmith) 50 "64b0000000000000000000ff"
              (Sample.store 0 []) _ _ eq_refl eq_refl)
    as [doc [Hfind [_ [Hupdate _]]]].
  eexists _, _, doc. split; [reflexivity |]. split; [exact Hfind | exact Hupdate].
Defined.

(** [delete_user] and [reactivate_user] once the target is found. *)
Lemma delete_user_found (user_id oid : string) (current_user : CurrentUser) (now : datetime)
    (db : Db) (target_user : User) :
  parse_object_id user_id = Some oid ->
  Mongo.find_one (by_user_id oid) (users db) = Some target_user ->
  delete_user user_id current_user now db
  = (if negb (Py.in_list (cu_role current_user) ["super_admin"; "admin_manager"]) then
       (db, Raise (HTTPException HTTP_403_FORBIDDEN
                     "You don't have permission to delete users"))
     else if String.eqb (cu_role current_user) "admin_manager"
             && negb (Py.opt_eqb (u_organization_id target_user)
                        (cu_organization_id current_user)) then
       (db, Raise (HTTPException HTTP_403_FORBIDDEN
                     "You can only delete users from your organization"))
     else if negb (u_is_active target_user) then
       (db, Raise (HTTPException HTTP_400_BAD_REQUEST "User is already deactivated"))
     else if String.eqb (u_id target_user) (cu_id current_user) then
       (db, Raise (HTTPException HTTP_400_BAD_REQUEST "You cannot delete your own account"))
     else
       (set_users (Mongo.update_one (by_user_id oid) (set_active false now)) db,
        Return {| dur_message := "User deactivated successfully";
                  dur_user_id := user_id;
                  dur_username := u_username target_user;
                  dur_deactivated_at := now;
                  dur_active_leads_count :=
                    let active_leads_count :=
                      Mongo.count_documents
                        (fun l => Py.opt_eqb (l_created_by l) (Some (u_username target_user))
                                  && Py.in_list (l_lead_status l) ["pending"; "approved"]
                                  && Bool.eqb (l_is_active l) true)
                        (leads db) in
                    if 0 <? active_leads_count then Some active_leads_count else None |})).
Proof.
  intros Hparse Hfind. unfold delete_user, try_except, ObjectId. rewrite Hparse.
  unfold bind at 1, ret at 1. unfold bind at 1, gets at 1. rewrite Hfind.
  unfold bind, raise_if, raise, ret, gets, modify.
  destruct (negb (Py.in_list (cu_role current_user) ["super_admin"; "admin_manager"]));
    [reflexivity |].
  destruct (String.eqb (cu_role current_user) "admin_manager"); cbn [andb].
  - destruct (negb (Py.opt_eqb (u_organization_id target_user)
                      (cu_organization_id current_user))); [reflexivity |].
    destruct (negb (u_is_active target_user)); [reflexivity |].
    destruct (String.eqb (u_id target_user) (cu_id current_user)); reflexivity.
  - destruct (negb (u_is_active target_user)); [reflexivity |].
    destruct (String.eqb (u_id target_user) (cu_id current_user)); reflexivity.
Qed.

Lemma delete_user_unfound (user_id : string) (current_user : CurrentUser) (now : datetime)
    (db : Db) :
  match parse_object_id user_id with
  | Some oid => Mongo.find_one (by_user_id oid) (users db) = None
  | None => True
  end ->
  exists code detail,
    delete_user user_id current_user now db = (db, Raise (HTTPException code detail)).
Proof.
  unfold delete_user, try_except, ObjectId, bind, gets, ret, raise.
  destruct (parse_object_id user_id) as [oid |].
  - intros ->. eauto.
  - intros _. eauto.
Qed.

Lemma reactivate_user_found (user_id oid : string) (current_user : CurrentUser)
    (now : datetime) (db : Db) (target_user : User) :
  parse_object_id user_id = Some oid ->
  Mongo.find_one (by_user_id oid) (users db) = Some target_user ->
  reactivate_user user_id current_user now db
  = (if negb (Py.in_list (cu_role current_user) ["super_admin"; "admin_manager"]) then
       (db, Raise (HTTPException HTTP_403_FORBIDDEN
                     "You don't have permission to reactivate users"))
     else if String.eqb (cu_role current_user) "admin_manager"
             && negb (Py.opt_eqb (u_organization_id target_user)
                        (cu_organization_id current_user)) then
       (db, Raise (HTTPException HTTP_403_FORBIDDEN
                     "You can only reactivate users from your organization"))
     else if u_is_active target_user then
       (db, Raise (HTTPException HTTP_400_BAD_REQUEST "User is already active"))
     else
       (set_users (Mongo.update_one (by_user_id oid) (set_active true now)) db,
        Return {| rur_message := "User reactivated successfully";
                  rur_user_id := user_id;
                  rur_username := u_username target_user;
                  rur_reactivated_at := now |})).
Proof.
  intros Hparse Hfind. unfold reactivate_user, try_except, ObjectId. rewrite Hparse.
  unfold bind at 1, ret at 1. unfold bind at 1, gets at 1. rewrite Hfind.
  unfold bind, raise_if, raise, ret, gets, modify.
  destruct (negb (Py.in_list (cu_role current_user) ["super_admin"; "admin_manager"]));
    [reflexivity |].
  destruct (String.eqb (cu_role current_user) "admin_manager"); cbn [andb].
  - destruct (negb (Py.opt_eqb (u_organization_id target_user)
                      (cu_organization_id current_user))); [reflexivity |].
    destruct (u_is_active target_user); reflexivity.
  - destruct (u_is_active target_user); reflexivity.
Qed.

(** What a successful [delete_user] has checked and written. *)
Lemma delete_user_returns (user_id : string) (current_user : CurrentUser) (now : datetime)
    (db db' : Db) (response : DeleteUserResponse) :
  delete_user user_id current_user now db = (db', Return response) ->
  exists oid target_user,
    parse_object_id user_id = Some oid
    /\ Mongo.find_one (by_user_id oid) (users db) = Some target_user
    /\ Py.in_list (cu_role current_user) ["super_admin"; "admin_manager"] = true
    /\ (String.eqb (cu_role current_user) "admin_manager"
        && negb (Py.opt_eqb (u_organization_id target_user)
                   (cu_organization_id current_user))) = false
    /\ u_is_active target_user = true
    /\ String.eqb (u_id target_user) (cu_id current_user) = false
    /\ db' = set_users (Mongo.update_one (by_user_id oid) (set_active false now)) db
    /\ dur_username response = u_username target_user.
Proof.
  intros Hrun.
  destruct (parse_object_id user_id) as [oid |] eqn:Hparse.
  2: { destruct (delete_user_unfound user_id current_user now db) as [code [detail H]].
       - now rewrite Hparse.
       - rewrite H in Hrun. discriminate Hrun. }
  destruct (Mongo.find_one (by_user_id oid) (users db)) as [target_user |] eqn:Hfind.
  2: { destruct (delete_user_unfound user_id current_user now db) as [code [detail H]].
       - now rewrite Hparse.
       - rewrite H in Hrun. discriminate Hrun. }
  rewrite (delete_user_found user_id oid current_user now db target_user Hparse Hfind) in Hrun.
  exists oid, target_user.
  destruct (negb (Py.in_list (cu_role current_user) ["super_admin"; "admin_manager"])) eqn:H1;
    [discriminate Hrun |].
  destruct (String.eqb (cu_role current_user) "admin_manager"
            && negb (Py.opt_eqb (u_organization_id target_user)
                       (cu_organization_id current_user))) eqn:H2; [discriminate Hrun |].
  destruct (negb (u_is_active target_user)) eqn:H3; [discriminate Hrun |].
  destruct (String.eqb (u_id target_user) (cu_id current_user)) eqn:H4; [discriminate Hrun |].
  injection Hrun as <- <-. apply negb_false_iff in H1, H3. now repeat split.
Qed.

Lemma update_one_twice {A : Type} (p : A -> bool) (f g : A -> A) (coll : list A) :
  (forall x, p (f x) = p x) ->
  Mongo.update_one p g (Mongo.update_one p f coll)
  = Mongo.update_one p (fun x => g (f x)) coll.
Proof.
  intros Hp. induction coll as [| x rest IH]; simpl; [reflexivity |].
  destruct (p x) eqn:Hx; simpl.
  - now rewrite Hp, Hx.
  - now rewrite Hx, IH.
Qed.

Lemma update_one_ext {A : Type} (p : A -> bool) (f g : A -> A) (coll : list A) :
  (forall x, f x = g x) -> Mongo.update_one p f coll = Mongo.update_one p g coll.
Proof.
  intros Hfg. induction coll as [| x rest IH]; simpl; [reflexivity |].
  destruct (p x); [now rewrite Hfg | now rewrite IH].
Qed.

(** X19: deactivation can be taken back, and cannot be repeated.  Once
    [delete_user] has deactivated a user, the same call again is refused
    with 400 and writes nothing, while [reactivate_user] by the same caller
    succeeds: the user is active again, with the username, email, role,
    organization, manager, names, phone, terms flag, balance and points
    history that it had before the deactivation, and no other user, lead or
    competition has changed.  (The document itself also records the
    reactivation, under updated_at and under keys that [User] does not
    carry.) *)
Theorem deactivation_round_trip (user_id : string) (current_user : CurrentUser)
    (now later : datetime) (db db1 : Db) (response : DeleteUserResponse) :
  delete_user user_id current_user now db = (db1, Return response) ->
  delete_user user_id current_user later db1
  = (db1, Raise (HTTPException HTTP_400_BAD_REQUEST "User is already deactivated"))
  /\ exists oid target_user db2 response' restored,
       parse_object_id user_id = Some oid
       /\ Mongo.find_one (by_user_id oid) (users db) = Some target_user
       /\ reactivate_user user_id current_user later db1 = (db2, Return response')
       /\ Mongo.find_one (by_user_id oid) (users db2) = Some restored
       /\ u_is_active target_user = true
       /\ u_is_active restored = true
       /\ u_id restored = u_id target_user
       /\ u_username restored = u_username target_user
       /\ u_email restored = u_email target_user
       /\ u_role restored = u_role target_user
       /\ u_organization_id restored = u_organization_id target_user
       /\ u_manager_id restored = u_manager_id target_user
       /\ u_first_name restored = u_first_name target_user
       /\ u_last_name restored = u_last_name target_user
       /\ u_phone restored = u_phone target_user
       /\ u_terms_accepted restored = u_terms_accepted target_user
       /\ u_points restored = u_points target_user
       /\ u_points_history restored = u_points_history target_user
       /\ map u_id (users db2) = map u_id (users db)
       /\ (forall other, other <> oid ->
             Mongo.find_one (by_user_id other) (users db2)
             = Mongo.find_one (by_user_id other) (users db))
       /\ leads db2 = leads db
       /\ competitions db2 = competitions db.
Proof.
  intros Hrun.
  destruct (delete_user_returns user_id current_user now db db1 response Hrun)
    as [oid [target_user [Hparse [Hfind [Hrole [Horg [Hactive [Hself [-> _]]]]]]]]].
  assert (Hkeeps : forall flag t x, by_user_id oid (set_active flag t x) = by_user_id oid x)
    by reflexivity.
  assert (Hfind1 : Mongo.find_one (by_user_id oid)
                     (users (set_users (Mongo.update_one (by_user_id oid)
                                          (set_active false now)) db))
                   = Some (set_active false now target_user)).
  { cbn [set_users users]. rewrite find_one_update_one by exact (Hkeeps false now).
    now rewrite Hfind. }
  split.
  - rewrite (delete_user_found user_id oid current_user later _ _ Hparse Hfind1).
    rewrite Hrole. cbn [negb set_active u_organization_id u_is_active].
    now rewrite Horg.
  - exists oid, target_user. eexists _, _.
    exists (set_active true later (set_active false now target_user)).
    split; [exact Hparse |]. split; [exact Hfind |].
    split.
    { rewrite (reactivate_user_found user_id oid current_user later _ _ Hparse Hfind1).
      rewrite Hrole. cbn [negb set_active u_organization_id u_is_active].
      rewrite Horg. reflexivity. }
    cbn [set_users users leads competitions].
    split.
    { rewrite find_one_update_one by exact (Hkeeps true later).
      rewrite find_one_update_one by exact (Hkeeps false now). now rewrite Hfind. }
    split; [exact Hactive |].
    do 13 (split; [reflexivity |]).
    split; [now rewrite !update_one_map_same by reflexivity |].
    split; [| now split].
    intros other Hother.
    assert (Hdisjoint : forall x, by_user_id oid x = true -> by_user_id other x = false).
    { intros x Hx. unfold by_user_id in *. apply String.eqb_eq in Hx.
      apply String.eqb_neq. congruence. }
    rewrite !find_one_update_one_other; try reflexivity; exact Hdisjoint.
Qed.

Lemma deactivation_round_trip_witness :
  exists db1 response db2 response' restored,
    delete_user "64b000000000000000000001" (Sample.identity Sample.admin1) 70
      (Sample.store 0 []) = (db1, Return response)
    /\ delete_user "64b000000000000000000001" (Sample.identity Sample.admin1) 80 db1
       = (db1, Raise (HTTPException HTTP_400_BAD_REQUEST "User is already deactivated"))
    /\ reactivate_user "64b000000000000000000001" (Sample.identity Sample.admin1) 80 db1
       = (db2, Return response')
    /\ find_user (Some "jdoe") db2 = Some restored
    /\ u_is_active restored = true
    /\ u_role restored = "canvasser".
Proof.
  destruct (deactivation_round_trip "64b000000000000000000001"
              (Sample.identity Sample.admin1) 70 80 (Sample.store 0 []) _ _ eq_refl)
    as [Hagain _].
  eexists _, _, _, _, _. split; [reflexivity |]. split; [exact Hagain |].
  split; [reflexivity |]. split; [reflexivity |]. split; reflexivity.
Defined.

(** X20: the two ways of deactivating a user disagree.  An admin_manager
    may not touch an admin-tier colleague of its organization through
    [update_user], whatever the request (setting is_active to false
    included): the answer is 403 and nothing is written.  The same
    admin_manager deactivates that colleague through [delete_user]. *)
Theorem admin_manager_deactivates_peer (user_id oid : string) (user_update : UserUpdate)
    (actor : CurrentUser) (now : datetime) (db : Db) (target : User) :
  parse_object_id user_id = Some oid ->
  Mongo.find_one (by_user_id oid) (users db) = Some target ->
  cu_role actor = "admin_manager" ->
  In (u_role target) ["super_admin"; "admin_manager"] ->
  u_organization_id target = cu_organization_id actor ->
  u_id target <> cu_id actor ->
  u_is_active target = true ->
  update_user user_id user_update actor now db
  = (db, Raise (HTTPException HTTP_403_FORBIDDEN "admin_manager cannot update this user"))
  /\ exists db' response,
       delete_user user_id actor now db = (db', Return response)
       /\ Mongo.find_one (by_user_id oid) (users db') = Some (set_active false now target)
       /\ u_is_active (set_active false now target) = false.
Proof.
  intros Hparse Hfind Hrole Htier Horg Hother Hactive.
  apply String.eqb_neq in Hother. apply in_list_In in Htier.
  assert (Hsame : Py.opt_eqb (u_organization_id target) (cu_organization_id actor) = true)
    by now apply opt_eqb_eq.
  split.
  - rewrite (update_user_found user_id oid user_update actor now db target Hparse Hfind).
    apply try_except_HTTPException.
    rewrite (can_update_admin_manager actor target Hrole), Hsame, Htier, Hother.
    rewrite Bool.andb_false_r. cbn [negb orb andb].
    unfold bind at 1. cbn [raise_if raise]. rewrite Hrole. reflexivity.
  - eexists _, _. split.
    + rewrite (delete_user_found user_id oid actor now db target Hparse Hfind).
      rewrite Hrole, Hsame, Hactive, Hother.
      change (Py.in_list "admin_manager" ["super_admin"; "admin_manager"]) with true.
      change (String.eqb "admin_manager" "admin_manager") with true.
      cbn [negb andb]. reflexivity.
    + cbn [set_users users]. rewrite find_one_update_one by reflexivity.
      rewrite Hfind. split; reflexivity.
Qed.

Lemma admin_manager_deactivates_peer_witness :
  update_user "64b000000000000000000004" (user_request None None None (Some false) None)
    (Sample.identity Sample.admin1) 70 (Sample.store 0 [])
  = (Sample.store 0 [],
     Raise (HTTPException HTTP_403_FORBIDDEN "admin_manager cannot update this user"))
  /\ exists db' response,
       delete_user "64b000000000000000000004" (Sample.identity Sample.admin1) 70
         (Sample.store 0 []) = (db', Return response)
       /\ Mongo.find_one (by_user_id "64b000000000000000000004") (users db')
          = Some (set_active false 70 Sample.admin2)
       /\ u_is_active (set_active false 70 Sample.admin2) = false.
Proof.
  apply (admin_manager_deactivates_peer "64b000000000000000000004"
           "64b000000000000000000004" (user_request None None None (Some false) None)
           (Sample.identity Sample.admin1) 70 (Sample.store 0 []) Sample.admin2).
  - reflexivity.
  - reflexivity.
  - reflexivity.
  - right. now left.
  - reflexivity.
  - discriminate.
  - reflexivity.
Defined.

(** The canonical form of an ObjectId parses to itself. *)
Lemma lower_hex (c : ascii) :
  Py.is_hex_digit c = true ->
  Py.is_hex_digit (Py.lower c) = true /\ Py.lower (Py.lower c) = Py.lower c.
Proof.
  destruct c as [[|] [|] [|] [|] [|] [|] [|] [|]]; vm_compute; intros H;
    (discriminate H || (split; reflexivity)).
Qed.

Lemma lowercase_hex (s : string) :
  Py.all_hex s = true ->
  Py.all_hex (Py.lowercase s) = true
  /\ Py.lowercase (Py.lowercase s) = Py.lowercase s
  /\ String.length (Py.lowercase s) = String.length s.
Proof.
  induction s as [| c s IH]; [now repeat split |].
  cbn [Py.all_hex Py.lowercase String.length]. intros H.
  apply andb_true_iff in H. destruct H as [Hc Hs].
  destruct (lower_hex c Hc) as [Hc1 Hc2]. destruct (IH Hs) as [H1 [H2 H3]].
  rewrite Hc1, H1, Hc2, H2, H3. now repeat split.
Qed.

Lemma parse_object_id_canonical (s oid : string) :
  parse_object_id s = Some oid -> parse_object_id oid = Some oid.
Proof.
  unfold parse_object_id.
  destruct (Nat.eqb (String.length s) 24 && Py.all_hex s)%bool eqn:H; [| discriminate].
  intros [= <-]. apply andb_true_iff in H. destruct H as [Hlen Hhex].
  destruct (lowercase_hex s Hhex) as [H1 [H2 H3]]. now rewrite H3, Hlen, H1, H2.
Qed.

(** Two filters that select the same document select its rewriting. *)
Lemma find_one_update_one_same {A : Type} (p q : A -> bool) (f : A -> A) (coll : list A)
    (x : A) :
  (forall y, q (f y) = q y) ->
  Mongo.find_one p coll = Some x ->
  Mongo.find_one q coll = Some x ->
  Mongo.find_one q (Mongo.update_one p f coll) = Some (f x).
Proof.
  intros Hq. unfold Mongo.find_one. induction coll as [| y rest IH]; simpl; [discriminate |].
  destruct (p y) eqn:Hp; simpl.
  - intros [= <-] Hfind. rewrite Hq.
    destruct (q y) eqn:Hqy; [reflexivity |].
    apply find_some in Hfind. destruct Hfind as [_ Hfind]. congruence.
  - intros Hfind. destruct (q y) eqn:Hqy.
    + intros [= <-]. apply find_some in Hfind. destruct Hfind as [_ Hfind]. congruence.
    + now apply IH.
Qed.

Lemma unique_usernames_eq (db : Db) (u v : User) :
  unique_usernames db -> In u (users db) -> In v (users db) ->
  u_username u = u_username v -> u = v.
Proof.
  unfold unique_usernames. induction (users db) as [| x rest IH]; [intros _ [] |].
  cbn [map]. intros Hnd Hu Hv Heq. inversion Hnd as [| ? ? Hnotin Hrest]; subst.
  destruct Hu as [<- | Hu], Hv as [<- | Hv].
  - reflexivity.
  - destruct Hnotin. rewrite Heq. now apply in_map.
  - destruct Hnotin. rewrite <- Heq. now apply in_map.
  - now apply IH.
Qed.

(** What a successful [login] has found. *)
Lemma login_returns (verify_password : string -> User -> bool) (user_data : UserLogin)
    (db db' : Db) (token : LoginResponse) :
  login verify_password user_data db = (db', Return token) ->
  exists user,
    find_user (Some (ul_username user_data)) db = Some user
    /\ verify_password (ul_password user_data) user = true
    /\ u_is_active user = true
    /\ db' = db
    /\ lr_sub token = u_id user
    /\ lr_username token = u_username user
    /\ lr_role token = u_role user
    /\ lr_organization_id token = u_organization_id user.
Proof.
  unfold login, try_except. unfold bind at 1, gets at 1.
  destruct (find_user (Some (ul_username user_data)) db) as [user |]; [| discriminate].
  unfold bind, raise_if, raise, ret.
  destruct (verify_password (ul_password user_data) user) eqn:Hpw; cbn [negb]; [| discriminate].
  destruct (u_is_active user) eqn:Hactive; cbn [negb]; [| discriminate].
  intros [= <- <-]. exists user. now repeat split.
Qed.

(** X21: deactivation closes the door and leaves the keys working.  Let a
    user log in and then be deactivated through [delete_user].  Every
    later [login] under that username is refused with 401, whatever the
    password check says; but [get_current_user_from_token], which every
    handler relies on, still accepts the subject of the token issued
    before and returns the user's identity with its role and organization. *)
Theorem token_outlives_deactivation (verify_password : string -> User -> bool)
    (user_data : UserLogin) (user_id : string) (admin : CurrentUser) (now : datetime)
    (db db1 : Db) (token : LoginResponse) (response : DeleteUserResponse) :
  unique_usernames db ->
  login verify_password user_data db = (db, Return token) ->
  delete_user user_id admin now db = (db1, Return response) ->
  dur_username response = ul_username user_data ->
  (forall check again, ul_username again = ul_username user_data ->
     exists detail,
       login check again db1 = (db1, Raise (HTTPException HTTP_401_UNAUTHORIZED detail)))
  /\ exists identity,
       get_current_user_from_token (Some (lr_sub token)) db1 = (db1, Return identity)
       /\ cu_username identity = ul_username user_data
       /\ cu_role identity = lr_role token
       /\ cu_organization_id identity = lr_organization_id token.
Proof.
  intros Hunique Hlogin Hdelete Hname.
  destruct (login_returns verify_password user_data db db token Hlogin)
    as [user [Hfound [_ [_ [_ [Hsub [_ [Hrole Horg]]]]]]]].
  destruct (delete_user_returns user_id admin now db db1 response Hdelete)
    as [oid [target_user [Hparse [Hfind [_ [_ [_ [_ [-> Hresponse]]]]]]]]].
  assert (Huser : user = target_user).
  { unfold find_user, Mongo.find_one in Hfound, Hfind.
    apply find_some in Hfound, Hfind. destruct Hfound as [Hin1 Heq1], Hfind as [Hin2 _].
    apply (unique_usernames_eq db); [exact Hunique | exact Hin1 | exact Hin2 |].
    apply String.eqb_eq in Heq1. congruence. }
  subst user.
  assert (Hoid : u_id target_user = oid).
  { unfold Mongo.find_one in Hfind. apply find_some in Hfind. destruct Hfind as [_ Heq].
    now apply String.eqb_eq in Heq. }
  assert (Hfound1 : find_user (Some (ul_username user_data))
                      (set_users (Mongo.update_one (by_user_id oid) (set_active false now)) db)
                    = Some (set_active false now target_user)).
  { unfold find_user in *. cbn [set_users users].
    now apply find_one_update_one_same. }
  split.
  - intros check again Hsame. unfold login, try_except. unfold bind at 1, gets at 1.
    rewrite Hsame, Hfound1. unfold bind, raise_if, raise, ret.
    destruct (check (ul_password again) (set_active false now target_user));
      cbn [negb set_active u_is_active]; eauto.
  - exists (identity_of (set_active false now target_user)). split.
    + unfold get_current_user_from_token, ObjectId.
      rewrite Hsub, Hoid, (parse_object_id_canonical user_id oid Hparse).
      unfold bind at 1, ret at 1. unfold bind at 1, gets at 1.
      cbn [set_users users]. rewrite find_one_update_one by reflexivity.
      now rewrite Hfind.
    + cbn [identity_of set_active cu_username cu_role cu_organization_id
             u_username u_role u_organization_id].
      rewrite Hrole, Horg. split; [congruence |]. now split.
Qed.

Lemma token_outlives_deactivation_witness :
  exists token db1 response identity,
    login (fun _ _ => true) {| ul_username := "jdoe"; ul_password := "secret" |}
      (Sample.store 0 []) = (Sample.store 0 [], Return token)
    /\ delete_user "64b000000000000000000001" (Sample.identity Sample.admin1) 70
         (Sample.store 0 []) = (db1, Return response)
    /\ get_current_user_from_token (Some (lr_sub token)) db1 = (db1, Return identity)
    /\ cu_role identity = "canvasser"
    /\ exists detail,
         login (fun _ _ => true) {| ul_username := "jdoe"; ul_password := "secret" |} db1
         = (db1, Raise (HTTPException HTTP_401_UNAUTHORIZED detail)).
Proof.
  assert (Hunique : unique_usernames (Sample.store 0 [])).
  { unfold unique_usernames. cbn.
    repeat (apply NoDup_cons; [simpl; intuition discriminate |]). apply NoDup_nil. }
  destruct (token_outlives_deactivation (fun _ _ => true)
              {| ul_username := "jdoe"; ul_password := "secret" |}
              "64b000000000000000000001" (Sample.identity Sample.admin1) 70
              (Sample.store 0 []) _ _ _ Hunique eq_refl eq_refl eq_refl)
    as [Hlogin [identity [Htoken [_ [Hrole _]]]]].
  eexists _, _, _, identity. split; [reflexivity |]. split; [reflexivity |].
  split; [exact Htoken |]. split; [exact Hrole |].
  exact (Hlogin (fun _ _ => true) {| ul_username := "jdoe"; ul_password := "secret" |}
           eq_refl).
Defined.

(* ================================================================== *)
(** * Further properties of the lead operations *)



Lemma commission_of_non_finite (amount : float) :
  amount = S754_nan \/ (exists s, amount = S754_infinity s) ->
  commission_points_of amount = None.
Proof.
  intros [-> | [s ->]]; [reflexivity |]. now destruct s.
Qed.

(** A commission that cannot be encoded is refused after the lead has been
    rewritten: for the sale amount 10^21 the commission int(1e19) takes more
    than 8 bytes, [mark_lead_sold] answers 500, the lead is found "sold" and
    nobody has been awarded points. *)
Lemma mark_sold_unencodable_commission :
  commission_points_of (Float.of_Z 1000000000000000000000) = Some 10000000000000000000
  /\ exists db' detail,
       mark_lead_sold "LEAD_1_0001" (Sample.sale 1000000000000000000000)
         (Sample.identity Sample.admin1) 300 (Sample.store_with_lead "approved")
       = (db', Raise (HTTPException HTTP_500_INTERNAL_SERVER_ERROR detail))
       /\ option_map l_lead_status (Mongo.find_one (by_lead_id "LEAD_1_0001") (leads db'))
          = Some "sold"
       /\ users db' = users (Sample.store_with_lead "approved").
Proof.
  split; [reflexivity |].
  do 2 eexists. split; [reflexivity |]. split; reflexivity.
Qed.

(** X23: a sale amount that is not a finite number is stored all the same.
    When the amount is NaN or an infinity and the caller has access to the
    lead, [mark_lead_sold] answers 500, yet the lead has already been
    rewritten: it is found afterwards with lead_status "sold", the amount as
    sale_amount and the caller as sold_by, and nobody has been awarded
    points. *)
Theorem mark_sold_non_finite_amount (lead_id : string) (sale_data : LeadSold)
    (current_user : CurrentUser) (now : datetime) (db : Db) (lead : Lead) :
  unique_lead_oids db ->
  find_lead lead_id db = (db, Return (Some lead)) ->
  check_lead_access db current_user lead = true ->
  ls_sale_amount sale_data = S754_nan
  \/ (exists s, ls_sale_amount sale_data = S754_infinity s) ->
  exists db' detail sold,
    mark_lead_sold lead_id sale_data current_user now db
    = (db', Raise (HTTPException HTTP_500_INTERNAL_SERVER_ERROR detail))
    /\ users db' = users db
    /\ find_lead lead_id db' = (db', Return (Some sold))
    /\ is_sold sold = true
    /\ l_sale_amount sold = Some (ls_sale_amount sale_data)
    /\ l_sold_by sold = Some (cu_username current_user).
Proof.
  intros Hunique Hfind Haccess Hamount.
  exists (after_sale current_user sale_data now lead db). eexists.
  exists (sold_update current_user sale_data now lead).
  split.
  { rewrite (mark_lead_sold_found lead_id sale_data current_user now db lead Hfind).
    rewrite Haccess, (commission_of_non_finite _ Hamount). cbn [negb]. reflexivity. }
  split; [reflexivity |]. split; [| now repeat split].
  apply (find_lead_after_update lead_id db _ lead (sold_update current_user sale_data now));
    try assumption; reflexivity.
Qed.

Lemma mark_sold_non_finite_amount_witness :
  exists db' detail sold,
    mark_lead_sold "LEAD_1_0001" (sale_of S754_nan) (Sample.identity Sample.admin1) 200
      (Sample.store_with_lead "approved")
    = (db', Raise (HTTPException HTTP_500_INTERNAL_SERVER_ERROR detail))
    /\ users db' = users (Sample.store_with_lead "approved")
    /\ find_lead "LEAD_1_0001" db' = (db', Return (Some sold))
    /\ is_sold sold = true.
Proof.
  destruct (mark_sold_non_finite_amount "LEAD_1_0001" (sale_of S754_nan)
              (Sample.identity Sample.admin1) 200 (Sample.store_with_lead "approved")
              (Sample.lead "approved"))
    as [db' [detail [sold [Hrun [Husers [Hfound [Hsold _]]]]]]].
  - unfold unique_lead_oids. cbn. apply NoDup_cons; [intros [] | apply NoDup_nil].
  - reflexivity.
  - reflexivity.
  - now left.
  - exists db', detail, sold. now repeat split.
Defined.

(** [create_lead_with_notifications], case by case. *)
Lemma create_lead_cases (lead_data : LeadCreate) (current_user : CurrentUser)
    (now : datetime) (ext : LeadExternals) (db : Db) :
  create_lead_with_notifications lead_data current_user now ext db
  = match cu_organization_id current_user with
    | None =>
        (db, Raise (HTTPException HTTP_500_INTERNAL_SERVER_ERROR
                      "Failed to create lead: TypeError"))
    | Some org =>
        match assigned_manager_of db current_user with
        | None =>
            (db, Raise (HTTPException HTTP_500_INTERNAL_SERVER_ERROR
                          "Failed to create lead: AttributeError"))
        | Some assigned_manager =>
            let doc := created_lead lead_data current_user now ext (next_lead_id db org)
                         assigned_manager in
            if existsb (fun l => by_oid (l_id doc) l || by_lead_id (l_lead_id doc) l)
                 (leads db)
            then (db, Raise (HTTPException HTTP_500_INTERNAL_SERVER_ERROR
                               "Failed to create lead: DuplicateKeyError"))
            else (after_creation current_user now doc db,
                  Return {| clr_message := "Lead created successfully";
                            clr_lead_id := next_lead_id db org;
                            clr_database_id := ext_inserted_id ext;
                            clr_status := l_lead_status doc;
                            clr_points_earned :=
                              if String.eqb (cu_role current_user) "canvasser" then 10 else 0;
                            clr_quickbase_sync := quickbase_of current_user now ext |})
        end
    end.
Proof.
  unfold create_lead_with_notifications, try_except_all, generate_lead_id.
  unfold bind at 1. unfold bind at 1, gets at 1.
  destruct (cu_organization_id current_user) as [org |] eqn:Horg; [| reflexivity].
  unfold ret at 1. unfold bind at 1.
  unfold assigned_manager_of.
  destruct (String.eqb (cu_role current_user) "canvasser") eqn:Hrole.
  - unfold bind at 1, gets at 1.
    destruct (find_user (Some (cu_username current_user)) db) as [u |]; [| reflexivity].
    cbn [option_map]. unfold ret at 1.
    unfold insert_lead. unfold bind at 1. unfold bind at 1, gets at 1.
    cbn [l_id l_lead_id created_lead].
    destruct (existsb _ (leads db)); [reflexivity |].
    cbn [raise_if]. unfold bind at 1, ret at 1. unfold modify at 1.
    unfold bind at 1. unfold bind at 1. unfold award_points, modify, ret.
    unfold after_creation, created_lead, quickbase_of, next_lead_id.
    rewrite Hrole, Horg. reflexivity.
  - unfold ret at 1.
    unfold insert_lead. unfold bind at 1. unfold bind at 1, gets at 1.
    cbn [l_id l_lead_id created_lead].
    destruct (existsb _ (leads db)); [reflexivity |].
    cbn [raise_if]. unfold bind at 1, ret at 1. unfold modify at 1.
    unfold bind at 1. unfold ret.
    unfold after_creation, created_lead, quickbase_of, next_lead_id.
    rewrite Hrole, Horg. reflexivity.
Qed.

(** X24: what a created lead looks like depends on the creator's role
    alone.  After a successful [create_lead_with_notifications] exactly one
    lead has been appended, under an [_id] and a lead_id that no earlier
    lead carries, created_by the caller in the caller's organization, which
    is not [None].  For a super_admin or admin_manager it is born
    "approved", approved_by its creator, and nobody is awarded anything;
    otherwise it is born "pending".  Only a canvasser earns the 10 points,
    and only a canvasser's lead has an assigned_manager. *)
Theorem create_lead_by_role (lead_data : LeadCreate) (current_user : CurrentUser)
    (now : datetime) (ext : LeadExternals) (db db' : Db) (response : CreateLeadResponse) :
  create_lead_with_notifications lead_data current_user now ext db = (db', Return response) ->
  exists doc,
    leads db' = leads db ++ [doc]
    /\ competitions db' = competitions db
    /\ l_id doc = clr_database_id response
    /\ l_lead_id doc = clr_lead_id response
    /\ (forall l, In l (leads db) -> l_id l <> l_id doc /\ l_lead_id l <> l_lead_id doc)
    /\ l_created_by doc = Some (cu_username current_user)
    /\ l_organization_id doc = cu_organization_id current_user
    /\ cu_organization_id current_user <> None
    /\ (if Py.in_list (cu_role current_user) ["super_admin"; "admin_manager"]
        then l_lead_status doc = "approved"
             /\ l_approved_by doc = Some (cu_username current_user)
             /\ users db' = users db
        else l_lead_status doc = "pending" /\ l_approved_by doc = None)
    /\ (if String.eqb (cu_role current_user) "canvasser"
        then users db' = Mongo.update_one (by_username (cu_username current_user))
                           (inc_points_push 10
                              (add_entry 10 (CreatedLead (l_lead_id doc)) now))
                           (users db)
             /\ clr_points_earned response = 10
             /\ Some (l_assigned_manager doc)
                = option_map u_manager_id (find_user (Some (cu_username current_user)) db)
        else users db' = users db
             /\ clr_points_earned response = 0
             /\ l_assigned_manager doc = None).
Proof.
  rewrite create_lead_cases.
  destruct (cu_organization_id current_user) as [org |] eqn:Horg; [| discriminate].
  destruct (assigned_manager_of db current_user) as [assigned_manager |] eqn:Hassigned;
    [| discriminate].
  cbv zeta.
  destruct (existsb _ (leads db)) eqn:Hdup; [discriminate |].
  intros [= <- <-].
  exists (created_lead lead_data current_user now ext (next_lead_id db org) assigned_manager).
  unfold after_creation, assigned_manager_of in *.
  assert (Hfresh : forall l, In l (leads db) ->
                     l_id l <> ext_inserted_id ext /\ l_lead_id l <> next_lead_id db org).
  { intros l Hin.
    assert (Hl : by_oid (ext_inserted_id ext) l || by_lead_id (next_lead_id db org) l = false).
    { destruct (by_oid (ext_inserted_id ext) l || by_lead_id (next_lead_id db org) l) eqn:H;
        [| reflexivity].
      rewrite <- Hdup. symmetry. apply existsb_exists. exists l. split; [exact Hin | exact H]. }
    apply Bool.orb_false_iff in Hl. destruct Hl as [H1 H2]. unfold by_oid, by_lead_id in H1, H2.
    split; intros Heq; [rewrite Heq, String.eqb_refl in H1 | rewrite Heq, String.eqb_refl in H2];
      discriminate. }
  destruct (String.eqb (cu_role current_user) "canvasser") eqn:Hrole.
  - apply String.eqb_eq in Hrole.
    cbn [created_lead l_id l_lead_id l_created_by l_organization_id l_lead_status
           l_approved_by l_assigned_manager clr_database_id clr_lead_id clr_points_earned].
    rewrite Hrole.
    change (Py.in_list "canvasser" ["super_admin"; "admin_manager"]) with false. cbv iota.
    unfold awarded. cbn [set_users set_leads users leads competitions].
    unfold Mongo.insert_one. rewrite Horg.
    repeat split; try reflexivity; try discriminate; try (apply Hfresh; assumption).
    now symmetry.
  - injection Hassigned as <-.
    cbn [created_lead l_id l_lead_id l_created_by l_organization_id l_lead_status
           l_approved_by l_assigned_manager clr_database_id clr_lead_id clr_points_earned
           set_leads users leads competitions].
    unfold Mongo.insert_one. rewrite Horg.
    destruct (Py.in_list (cu_role current_user) ["super_admin"; "admin_manager"]);
      repeat split; try reflexivity; try discriminate; apply Hfresh; assumption.
Qed.

Lemma create_lead_by_role_witness :
  exists db' response doc,
    create_lead_with_notifications Sample.lead_form (Sample.identity Sample.admin1) 100
      Sample.externals (Sample.store 0 []) = (db', Return response)
    /\ leads db' = [doc]
    /\ l_lead_status doc = "approved"
    /\ l_approved_by doc = Some "admin1"
    /\ users db' = users (Sample.store 0 []).
Proof.
  destruct (create_lead_by_role Sample.lead_form (Sample.identity Sample.admin1) 100
              Sample.externals (Sample.store 0 []) _ _ eq_refl)
    as [doc [Hleads [_ [_ [_ [_ [_ [_ [_ [Hstatus _]]]]]]]]]].
  change (Py.in_list (cu_role (Sample.identity Sample.admin1))
            ["super_admin"; "admin_manager"]) with true in Hstatus.
  destruct Hstatus as [Hstatus [Happroved Husers]].
  eexists _, _, doc. split; [reflexivity |]. now repeat split.
Defined.



(** X26: a manager has no access to the leads it creates itself.  When a
    manager whose own user document does not name it as its manager creates
    a lead, the lead is pending, and the manager is refused by
    [check_lead_access] for it: [list_leads] does not show the lead to its
    creator and [mark_lead_sold] answers 403. *)
Theorem manager_cannot_reach_own_lead (lead_data : LeadCreate) (manager : CurrentUser)
    (now : datetime) (ext : LeadExternals) (db db' : Db) (response : CreateLeadResponse) :
  cu_role manager = "manager" ->
  (forall u, In u (users db) -> u_username u = cu_username manager ->
             u_manager_id u <> Some (cu_username manager)) ->
  create_lead_with_notifications lead_data manager now ext db = (db', Return response) ->
  exists doc,
    leads db' = leads db ++ [doc]
    /\ l_created_by doc = Some (cu_username manager)
    /\ l_lead_status doc = "pending"
    /\ check_lead_access db' manager doc = false
    /\ (forall status, list_leads_filter db' manager status doc = false)
    /\ (forall lead_id sale_data later,
          find_lead lead_id db' = (db', Return (Some doc)) ->
          mark_lead_sold lead_id sale_data manager later db'
          = (db', Raise (HTTPException HTTP_403_FORBIDDEN
                           "You don't have permission to mark this lead as sold"))).
Proof.
  intros Hrole Hself. rewrite create_lead_cases.
  destruct (cu_organization_id manager) as [org |] eqn:Horg; [| discriminate].
  unfold assigned_manager_of. rewrite Hrole.
  change (String.eqb "manager" "canvasser") with false. cbv iota zeta.
  destruct (existsb _ (leads db)); [discriminate |].
  intros [= <- <-].
  unfold after_creation. rewrite Hrole.
  change (String.eqb "manager" "canvasser") with false. cbv iota.
  set (doc := created_lead lead_data manager now ext (next_lead_id db org) None).
  assert (Haccess : check_lead_access (set_leads (Mongo.insert_one doc) db) manager doc
                    = false).
  { unfold check_lead_access. rewrite Hrole.
    change (String.eqb "manager" "super_admin") with false.
    change (String.eqb "manager" "admin_manager") with false.
    change (String.eqb "manager" "manager") with true. cbv iota.
    destruct (negb (Py.opt_eqb (l_organization_id doc) (cu_organization_id manager)));
      [reflexivity |].
    cbn [doc created_lead l_created_by]. unfold find_user. cbn [set_leads users].
    destruct (Mongo.find_one (by_username (cu_username manager)) (users db))
      as [creator |] eqn:Hfind; [| reflexivity].
    unfold Mongo.find_one in Hfind. apply find_some in Hfind. destruct Hfind as [Hin Hname].
    apply String.eqb_eq in Hname.
    pose proof (Hself creator Hin Hname) as Hnot. apply opt_eqb_neq in Hnot.
    now rewrite Hnot. }
  exists doc. split; [reflexivity |]. split; [reflexivity |]. split.
  { cbn [doc created_lead l_lead_status]. rewrite Hrole. reflexivity. }
  split; [exact Haccess |]. split.
  - intros status. unfold list_leads_filter. rewrite Hrole.
    change (String.eqb "manager" "super_admin") with false.
    change (String.eqb "manager" "admin_manager") with false.
    change (String.eqb "manager" "manager") with true. cbv iota.
    assert (Hnone : created_by_in
                      (assigned_canvassers (set_leads (Mongo.insert_one doc) db) manager) doc
                    = false).
    { unfold created_by_in, assigned_canvassers. cbn [doc created_lead l_created_by].
      cbn [set_leads users]. apply in_list_not_In. intros Hin.
      apply in_map_iff in Hin. destruct Hin as [u [Hname Hin]].
      apply filter_In in Hin. destruct Hin as [Hin Hmanager].
      apply opt_eqb_eq in Hmanager. exact (Hself u Hin Hname Hmanager). }
    rewrite Hnone. now rewrite Bool.andb_false_r, Bool.andb_false_r.
  - intros lead_id sale_data later Hfound.
    rewrite (mark_lead_sold_found lead_id sale_data manager later
               (set_leads (Mongo.insert_one doc) db) doc Hfound).
    now rewrite Haccess.
Qed.

Lemma manager_cannot_reach_own_lead_witness :
  exists db' response doc,
    create_lead_with_notifications Sample.lead_form (Sample.identity Sample.msmith) 100
      Sample.externals (Sample.store 0 []) = (db', Return response)
    /\ leads db' = [doc]
    /\ l_created_by doc = Some "msmith"
    /\ check_lead_access db' (Sample.identity Sample.msmith) doc = false.
Proof.
  assert (Hself : forall u, In u (users (Sample.store 0 [])) ->
                    u_username u = cu_username (Sample.identity Sample.msmith) ->
                    u_manager_id u <> Some (cu_username (Sample.identity Sample.msmith))).
  { intros u Hin Hname. cbn in Hin.
    destruct Hin as [<- | [<- | [<- | [<- | [<- | []]]]]]; discriminate. }
  destruct (manager_cannot_reach_own_lead Sample.lead_form (Sample.identity Sample.msmith)
              100 Sample.externals (Sample.store 0 []) _ _ eq_refl Hself eq_refl)
    as [doc [Hleads [Hcreator [_ [Haccess _]]]]].
  eexists _, _, doc. split; [reflexivity |]. now repeat split.
Defined.

Lemma lead_count_app (org : string) (ls : list Lead) (doc : Lead) :
  l_organization_id doc <> Some org ->
  Mongo.count_documents (fun l => Py.opt_eqb (l_organization_id l) (Some org)) (ls ++ [doc])
  = Mongo.count_documents (fun l => Py.opt_eqb (l_organization_id l) (Some org)) ls.
Proof.
  intros Hother. unfold Mongo.count_documents. rewrite filter_app. cbn [filter].
  apply opt_eqb_neq in Hother. rewrite Hother. now rewrite app_nil_r.
Qed.

(** X27: lead ids are not kept apart by organization.  [generate_lead_id]
    sees of an organization only the text after the last underscore of its
    id ("001" when there is none) and the number of its leads.  So when two
    different organizations share that text and have the same number of
    leads, a lead created in the first takes the id that the second would
    get: the next creation in the second organization runs into the unique
    index on lead_id and is answered with a 500; no lead has been created
    and no user or competition has changed. *)
Theorem lead_ids_collide_across_organizations (lead_data again : LeadCreate)
    (first second : CurrentUser) (now later : datetime) (ext ext' : LeadExternals)
    (a b : string) (db db1 : Db) (response : CreateLeadResponse) :
  cu_organization_id first = Some a ->
  cu_organization_id second = Some b ->
  a <> b ->
  org_number a = org_number b ->
  lead_count db a = lead_count db b ->
  create_lead_with_notifications lead_data first now ext db = (db1, Return response) ->
  exists db2 detail,
    create_lead_with_notifications again second later ext' db1
    = (db2, Raise (HTTPException HTTP_500_INTERNAL_SERVER_ERROR detail))
    /\ leads db2 = leads db1
    /\ users db2 = users db1
    /\ competitions db2 = competitions db1.
Proof.
  intros Ha Hb Hab Hnumber Hcount Hrun.
  rewrite create_lead_cases in Hrun. rewrite Ha in Hrun.
  destruct (assigned_manager_of db first) as [assigned_manager |]; [| discriminate Hrun].
  cbv zeta in Hrun.
  destruct (existsb _ (leads db)); [discriminate Hrun |].
  injection Hrun as <- _.
  set (doc := created_lead lead_data first now ext (next_lead_id db a) assigned_manager) in *.
  assert (Hleads : leads (after_creation first now doc db) = leads db ++ [doc]).
  { unfold after_creation.
    destruct (String.eqb (cu_role first) "canvasser"); [rewrite leads_awarded |];
      reflexivity. }
  assert (Hid : next_lead_id (after_creation first now doc db) b = l_lead_id doc).
  { cbn [doc created_lead l_lead_id]. unfold next_lead_id, lead_count.
    rewrite Hleads, lead_count_app.
    - fold (lead_count db b). now rewrite <- Hcount, <- Hnumber.
    - cbn [doc created_lead l_organization_id]. rewrite Ha. congruence. }
  rewrite create_lead_cases. rewrite Hb.
  destruct (assigned_manager_of (after_creation first now doc db) second)
    as [assigned |]; [| do 2 eexists; split; [reflexivity | now repeat split]].
  cbv zeta.
  assert (Hdup : existsb
                   (fun l => by_oid (l_id (created_lead again second later ext'
                                             (next_lead_id (after_creation first now doc db) b)
                                             assigned)) l
                             || by_lead_id (l_lead_id (created_lead again second later ext'
                                                         (next_lead_id
                                                            (after_creation first now doc db) b)
                                                         assigned)) l)
                   (leads (after_creation first now doc db)) = true).
  { apply existsb_exists. exists doc. split.
    - rewrite Hleads. apply in_or_app. right. now left.
    - cbn [created_lead l_lead_id l_id]. rewrite Hid. unfold by_lead_id.
      rewrite String.eqb_refl. apply Bool.orb_true_r. }
  rewrite Hdup. do 2 eexists. split; [reflexivity | now repeat split].
Qed.

Lemma lead_ids_collide_across_organizations_witness :
  exists db1 response db2 detail,
    create_lead_with_notifications Sample.lead_form (Sample.identity (Sample.jdoe 0 [])) 100
      Sample.externals (Sample.store 0 []) = (db1, Return response)
    /\ clr_lead_id response = "LEAD_1_0001"
    /\ create_lead_with_notifications Sample.lead_form Fixture.rival 110
         Sample.externals db1
       = (db2, Raise (HTTPException HTTP_500_INTERNAL_SERVER_ERROR detail))
    /\ leads db2 = leads db1.
Proof.
  assert (Hdistinct : "org_1" <> "team_1") by discriminate.
  destruct (lead_ids_collide_across_organizations Sample.lead_form Sample.lead_form
              (Sample.identity (Sample.jdoe 0 [])) Fixture.rival 100 110
              Sample.externals Sample.externals "org_1" "team_1" (Sample.store 0 []) _ _
              eq_refl eq_refl Hdistinct eq_refl eq_refl eq_refl)
    as [db2 [detail [Hrun [Hleads _]]]].
  eexists _, _, db2, detail. split; [reflexivity |]. split; [reflexivity |].
  split; [exact Hrun | exact Hleads].
Defined.

(* ================================================================== *)
(** * Properties of update_competition and delete_competition *)

(** The validation loop reads the store and hands the selection back as it
    came, or stops with a 400 at the first name it does not find. *)
Lemma verify_participants_outcome (organization_id : string) (chosen : list string) (db : Db) :
  (verify_participants organization_id chosen db = (db, Return chosen)
   /\ Forall (fun username =>
                Mongo.find_one (active_member organization_id username) (users db) <> None)
        chosen)
  \/ (exists detail,
        verify_participants organization_id chosen db
        = (db, Raise (HTTPException HTTP_400_BAD_REQUEST detail))).
Proof.
  induction chosen as [| username rest IH].
  - left. split; [reflexivity | constructor].
  - assert (Hstep : verify_participants organization_id (username :: rest) db
                    = match Mongo.find_one (active_member organization_id username)
                              (users db) with
                      | Some _ =>
                          match verify_participants organization_id rest db with
                          | (d, Return valid_usernames) =>
                              (d, Return (username :: valid_usernames))
                          | (d, Raise e) => (d, Raise e)
                          end
                      | None =>
                          (db, Raise (HTTPException HTTP_400_BAD_REQUEST
                                        ("User '" ++ username
                                         ++ "' not found in organization")%string))
                      end).
    { cbn [verify_participants]. unfold bind at 1, gets at 1.
      fold (active_member organization_id username).
      now destruct (Mongo.find_one (active_member organization_id username) (users db)). }
    rewrite Hstep.
    destruct (Mongo.find_one (active_member organization_id username) (users db))
      as [u |] eqn:Hfind.
    + destruct IH as [[Hrest Hall] | [detail Hrest]]; rewrite Hrest.
      * left. split; [reflexivity |]. constructor; [congruence | exact Hall].
      * right. now exists detail.
    + right. eexists. reflexivity.
Qed.

Lemma verify_participants_all (organization_id : string) (chosen : list string) (db : Db) :
  Forall (fun username =>
            Mongo.find_one (active_member organization_id username) (users db) <> None)
    chosen ->
  verify_participants organization_id chosen db = (db, Return chosen).
Proof.
  induction 1 as [| username rest Hfound _ IH]; [reflexivity |].
  cbn [verify_participants]. unfold bind at 1, gets at 1.
  fold (active_member organization_id username).
  destruct (Mongo.find_one (active_member organization_id username) (users db));
    [| now destruct Hfound].
  unfold bind. now rewrite IH.
Qed.

Section CompetitionFacts.

Variable check_competition_permission : CurrentUser -> string -> bool.

Let update := update_competition check_competition_permission.
Let delete := delete_competition check_competition_permission.

(** The selection step of [update_competition]. *)
Lemma selection_step_outcome (competition_update : CompetitionUpdate)
    (competition : Competition) (db d : Db) (o : Outcome (option (list string))) :
  match cup_selected_participants competition_update with
  | Some chosen =>
      if Py.opt_eqb (cup_participant_selection_mode competition_update) (Some "specific")
         || String.eqb (c_participant_selection_mode competition) "specific"
      then
        valid_usernames <- verify_participants (c_organization_id competition) chosen ;;
        ret (Some valid_usernames)
      else ret (Some chosen)
  | None => ret None
  end db = (d, o) ->
  d = db
  /\ (o = Return (cup_selected_participants competition_update)
      \/ exists detail, o = Raise (HTTPException HTTP_400_BAD_REQUEST detail)).
Proof.
  destruct (cup_selected_participants competition_update) as [chosen |].
  2: { intros [= <- <-]. split; [reflexivity | now left]. }
  destruct (Py.opt_eqb (cup_participant_selection_mode competition_update) (Some "specific")
            || String.eqb (c_participant_selection_mode competition) "specific").
  2: { intros [= <- <-]. split; [reflexivity | now left]. }
  unfold bind.
  destruct (verify_participants_outcome (c_organization_id competition) chosen db)
    as [[Hrun _] | [detail Hrun]]; rewrite Hrun.
  - intros [= <- <-]. split; [reflexivity | now left].
  - intros [= <- <-]. split; [reflexivity | right; now exists detail].
Qed.

(** What a run of [update_competition] amounts to. *)
Lemma update_competition_outcome (competition_id : string)
    (competition_update : CompetitionUpdate) (current_user : CurrentUser) (now : datetime)
    (db db' : Db) (o : Outcome UpdateCompetitionResponse) :
  update competition_id competition_update current_user now db = (db', o) ->
  match o with
  | Raise e => db' = db /\ exists code detail, e = HTTPException code detail
  | Return response =>
      exists competition,
        check_competition_permission current_user "update" = true
        /\ Mongo.find_one (by_competition_id competition_id) (competitions db)
           = Some competition
        /\ same_tenant current_user competition = true
        /\ String.eqb (c_status competition) "completed" = false
        /\ competition_set_is_empty (competition_set_of competition_update) = false
        /\ db' = set_competitions
                   (Mongo.update_one (by_competition_id competition_id)
                      (apply_competition_set (competition_set_of competition_update))) db
        /\ ucr_updated_fields response
           = competition_set_keys (competition_set_of competition_update)
  end.
Proof.
  unfold update, update_competition. intros Hrun. apply try_except_inv in Hrun.
  match type of Hrun with
  | (?body db = _ /\ _) \/ _ =>
      assert (Hbody : forall d x, body db = (d, x) ->
                match x with
                | Raise e => d = db /\ exists code detail, e = HTTPException code detail
                | Return response =>
                    exists competition,
                      check_competition_permission current_user "update" = true
                      /\ Mongo.find_one (by_competition_id competition_id) (competitions db)
                         = Some competition
                      /\ same_tenant current_user competition = true
                      /\ String.eqb (c_status competition) "completed" = false
                      /\ competition_set_is_empty (competition_set_of competition_update)
                         = false
                      /\ d = set_competitions
                               (Mongo.update_one (by_competition_id competition_id)
                                  (apply_competition_set
                                     (competition_set_of competition_update))) db
                      /\ ucr_updated_fields response
                         = competition_set_keys (competition_set_of competition_update)
                end)
  end.
  { intros d x Hb.
    apply bind_inv in Hb. destruct Hb as [[e [H1 ->]] | [[] [s1 [H1 Hb]]]].
    { apply raise_if_inv in H1. destruct H1 as [-> [[_ [= ->]] | [_ [=]]]]. split; eauto. }
    apply raise_if_inv in H1. destruct H1 as [-> [[_ [=]] | [Hperm _]]].
    apply negb_false_iff in Hperm.
    unfold bind at 1, gets at 1 in Hb.
    destruct (Mongo.find_one (by_competition_id competition_id) (competitions db))
      as [competition |] eqn:Hfind.
    2: { injection Hb as <- <-. split; eauto. }
    apply bind_inv in Hb. destruct Hb as [[e [H2 ->]] | [[] [s2 [H2 Hb]]]].
    { apply raise_if_inv in H2. destruct H2 as [-> [[_ [= ->]] | [_ [=]]]]. split; eauto. }
    apply raise_if_inv in H2. destruct H2 as [-> [[_ [=]] | [Htenant _]]].
    apply bind_inv in Hb. destruct Hb as [[e [H3 ->]] | [[] [s3 [H3 Hb]]]].
    { apply raise_if_inv in H3. destruct H3 as [-> [[_ [= ->]] | [_ [=]]]]. split; eauto. }
    apply raise_if_inv in H3. destruct H3 as [-> [[_ [=]] | [Hstatus _]]].
    apply bind_inv in Hb. destruct Hb as [[e [H4 ->]] | [selected [s4 [H4 Hb]]]].
    { apply selection_step_outcome in H4. destruct H4 as [-> [[=] | [detail [= ->]]]].
      split; eauto. }
    apply selection_step_outcome in H4. destruct H4 as [-> [[= ->] | [detail [=]]]].
    fold (competition_set_of competition_update) in Hb.
    apply bind_inv in Hb. destruct Hb as [[e [H5 ->]] | [[] [s5 [H5 Hb]]]].
    { apply raise_if_inv in H5. destruct H5 as [-> [[_ [= ->]] | [_ [=]]]]. split; eauto. }
    apply raise_if_inv in H5. destruct H5 as [-> [[_ [=]] | [Hempty _]]].
    unfold bind, modify, ret in Hb. injection Hb as <- <-.
    exists competition. unfold same_tenant. rewrite Htenant. now repeat split. }
  destruct Hrun as [[Hrun Hnot] | [what [Hrun ->]]].
  - exact (Hbody db' o Hrun).
  - pose proof (Hbody db' _ Hrun) as [_ [code [detail [=]]]].
Qed.

(** X28: [update_competition] does not know the participant minimum.  A
    caller who may update a competition that is not completed can replace
    its selected participants by any list of active members of the
    competition's organization, whatever its length: shorter than
    min_participants, or empty.  The list is stored as given;
    min_participants, the selection mode and the status stay as they were. *)
Theorem update_competition_ignores_minimum (competition_id : string) (chosen : list string)
    (current_user : CurrentUser) (now : datetime) (db : Db) (competition : Competition) :
  check_competition_permission current_user "update" = true ->
  Mongo.find_one (by_competition_id competition_id) (competitions db) = Some competition ->
  same_tenant current_user competition = true ->
  c_status competition <> "completed" ->
  Forall (fun username =>
            Mongo.find_one (active_member (c_organization_id competition) username)
              (users db) <> None) chosen ->
  exists db' response updated,
    update competition_id (Fixture.participants_only chosen) current_user now db
    = (db', Return response)
    /\ Mongo.find_one (by_competition_id competition_id) (competitions db') = Some updated
    /\ c_selected_participants updated = Some chosen
    /\ c_min_participants updated = c_min_participants competition
    /\ c_participant_selection_mode updated = c_participant_selection_mode competition
    /\ c_status updated = c_status competition.
Proof.
  intros Hperm Hfind Htenant Hstatus Hmembers.
  apply String.eqb_neq in Hstatus.
  unfold same_tenant in Htenant. apply negb_true_iff in Htenant.
  exists (set_competitions
            (Mongo.update_one (by_competition_id competition_id)
               (apply_competition_set
                  (competition_set_of (Fixture.participants_only chosen)))) db).
  eexists.
  exists (apply_competition_set (competition_set_of (Fixture.participants_only chosen))
            competition).
  split.
  { unfold update, update_competition. apply try_except_Return.
    unfold bind at 1. rewrite Hperm. cbn [negb raise_if ret].
    unfold bind at 1, gets at 1. rewrite Hfind.
    unfold bind at 1. rewrite Htenant. cbn [raise_if ret].
    unfold bind at 1. rewrite Hstatus. cbn [raise_if ret].
    unfold bind at 1.
    cbn [Fixture.participants_only cup_selected_participants
           cup_participant_selection_mode Py.opt_eqb orb].
    destruct (String.eqb (c_participant_selection_mode competition) "specific").
    - unfold bind at 1.
      rewrite (verify_participants_all (c_organization_id competition) chosen db Hmembers).
      unfold ret at 1. unfold bind at 1. cbn [competition_set_is_empty cs_title
        cs_description cs_start_date cs_end_date cs_prize_description cs_prize_points
        cs_is_active cs_participant_selection_mode cs_selected_participants
        cup_title cup_description cup_start_date cup_end_date cup_prize_description
        cup_prize_points cup_is_active raise_if ret].
      unfold bind, modify, ret. reflexivity.
    - unfold ret at 1. unfold bind at 1. cbn [competition_set_is_empty cs_title
        cs_description cs_start_date cs_end_date cs_prize_description cs_prize_points
        cs_is_active cs_participant_selection_mode cs_selected_participants
        cup_title cup_description cup_start_date cup_end_date cup_prize_description
        cup_prize_points cup_is_active raise_if ret].
      unfold bind, modify, ret. reflexivity. }
  split.
  { cbn [set_competitions competitions]. rewrite find_one_update_one by reflexivity.
    now rewrite Hfind. }
  now repeat split.
Qed.

(** X29: what [update_competition] never touches.  A failed call leaves
    the store as it was.  A successful one rewrites one competition, in
    which the identifiers, the organization, the type, the target roles,
    min_participants, the winner and the status are as before, the status
    not being recomputed from new dates; the dates are stored as given,
    without the comparison that [create_competition] makes.  Users and
    leads are never written. *)
Theorem update_competition_frame (competition_id : string)
    (competition_update : CompetitionUpdate) (current_user : CurrentUser) (now : datetime)
    (db db' : Db) (o : Outcome UpdateCompetitionResponse) :
  update competition_id competition_update current_user now db = (db', o) ->
  users db' = users db
  /\ leads db' = leads db
  /\ List.length (competitions db') = List.length (competitions db)
  /\ match o with
     | Raise e => db' = db
     | Return response =>
         exists competition updated,
           Mongo.find_one (by_competition_id competition_id) (competitions db)
           = Some competition
           /\ Mongo.find_one (by_competition_id competition_id) (competitions db')
              = Some updated
           /\ c_id updated = c_id competition
           /\ c_competition_id updated = c_competition_id competition
           /\ c_organization_id updated = c_organization_id competition
           /\ c_competition_type updated = c_competition_type competition
           /\ c_target_roles updated = c_target_roles competition
           /\ c_min_participants updated = c_min_participants competition
           /\ c_winner updated = c_winner competition
           /\ c_status updated = c_status competition
           /\ c_start_date updated
              = or_keep (cup_start_date competition_update) (c_start_date competition)
           /\ c_end_date updated
              = or_keep (cup_end_date competition_update) (c_end_date competition)
     end.
Proof.
  intros Hrun. apply update_competition_outcome in Hrun.
  destruct o as [response | e].
  - destruct Hrun as [competition [_ [Hfind [_ [_ [_ [-> _]]]]]]].
    cbn [set_competitions users leads competitions].
    split; [reflexivity |]. split; [reflexivity |].
    split; [apply update_one_length |].
    exists competition,
      (apply_competition_set (competition_set_of competition_update) competition).
    split; [exact Hfind |]. split; [| now repeat split].
    rewrite find_one_update_one by reflexivity. now rewrite Hfind.
  - destruct Hrun as [-> _]. now repeat split.
Qed.

(** X30: [delete_competition] asks for the permission and nothing else.
    A caller with the "delete" permission deactivates any competition that
    exists, whatever its organization and its status, and may do so again;
    the same caller, when it is not a super_admin and the competition
    belongs to another organization, is refused by [update_competition]
    with a 403. *)
Theorem delete_competition_any_organization (competition_id : string)
    (current_user : CurrentUser) (now : datetime) (db : Db) (competition : Competition) :
  check_competition_permission current_user "delete" = true ->
  Mongo.find_one (by_competition_id competition_id) (competitions db) = Some competition ->
  (exists db' response,
     delete competition_id current_user now db = (db', Return response)
     /\ Mongo.find_one (by_competition_id competition_id) (competitions db')
        = Some (soft_deleted competition)
     /\ c_is_active (soft_deleted competition) = false
     /\ c_status (soft_deleted competition) = c_status competition
     /\ exists db'' response',
          delete competition_id current_user now db' = (db'', Return response'))
  /\ (check_competition_permission current_user "update" = true ->
      same_tenant current_user competition = false ->
      forall competition_update,
        update competition_id competition_update current_user now db
        = (db, Raise (HTTPException HTTP_403_FORBIDDEN
                        "You can only update competitions in your organization"))).
Proof.
  intros Hperm Hfind.
  assert (Hdelete : forall d c,
            Mongo.find_one (by_competition_id competition_id) (competitions d) = Some c ->
            delete competition_id current_user now d
            = (set_competitions
                 (Mongo.update_one (by_competition_id competition_id) soft_deleted) d,
               Return {| dcr_message := "Competition deleted successfully";
                         dcr_competition_id := competition_id |})).
  { intros d c Hc. unfold delete, delete_competition. apply try_except_Return.
    unfold bind at 1. rewrite Hperm. cbn [negb raise_if ret].
    unfold bind at 1, gets at 1. rewrite Hc. reflexivity. }
  assert (Hfind' : Mongo.find_one (by_competition_id competition_id)
                     (competitions
                        (set_competitions
                           (Mongo.update_one (by_competition_id competition_id)
                              soft_deleted) db))
                   = Some (soft_deleted competition)).
  { cbn [set_competitions competitions]. rewrite find_one_update_one by reflexivity.
    now rewrite Hfind. }
  split.
  - eexists _, _. split; [exact (Hdelete db competition Hfind) |].
    split; [exact Hfind' |]. split; [reflexivity |]. split; [reflexivity |].
    eexists _, _. exact (Hdelete _ _ Hfind').
  - intros Hupdate Htenant competition_update.
    unfold same_tenant in Htenant. apply negb_false_iff in Htenant.
    unfold update, update_competition. apply try_except_HTTPException.
    unfold bind at 1. rewrite Hupdate. cbn [negb raise_if ret].
    unfold bind at 1, gets at 1. rewrite Hfind.
    unfold bind at 1. rewrite Htenant. reflexivity.
Qed.

End CompetitionFacts.

Lemma update_competition_ignores_minimum_witness :
  exists db' response updated,
    update_competition Sample.competition_permission "COMP_1_0001"
      (Fixture.participants_only []) (Sample.identity Sample.admin1) 600
      (Fixture.store_with_competition (Fixture.competition "COMP_1_0001" "upcoming"
                                         "specific" (Some ["jdoe"; "msmith"])))
    = (db', Return response)
    /\ Mongo.find_one (by_competition_id "COMP_1_0001") (competitions db') = Some updated
    /\ c_selected_participants updated = Some []
    /\ c_min_participants updated = 2.
Proof.
  destruct (update_competition_ignores_minimum Sample.competition_permission "COMP_1_0001"
              [] (Sample.identity Sample.admin1) 600
              (Fixture.store_with_competition
                 (Fixture.competition "COMP_1_0001" "upcoming" "specific"
                    (Some ["jdoe"; "msmith"])))
              (Fixture.competition "COMP_1_0001" "upcoming" "specific"
                 (Some ["jdoe"; "msmith"]))
              eq_refl eq_refl eq_refl)
    as [db' [response [updated [Hrun [Hfind [Hselected [Hmin _]]]]]]].
  - discriminate.
  - constructor.
  - exists db', response, updated. now repeat split.
Defined.

Lemma update_competition_frame_witness :
  exists db' response updated,
    update_competition Sample.competition_permission "COMP_1_0001"
      (Fixture.participants_only ["jdoe"]) (Sample.identity Sample.admin1) 600
      (Fixture.store_with_competition (Fixture.competition "COMP_1_0001" "upcoming"
                                         "specific" (Some ["jdoe"; "msmith"])))
    = (db', Return response)
    /\ Mongo.find_one (by_competition_id "COMP_1_0001") (competitions db') = Some updated
    /\ c_status updated = "upcoming".
Proof.
  destruct (update_competition_frame Sample.competition_permission "COMP_1_0001"
              (Fixture.participants_only ["jdoe"]) (Sample.identity Sample.admin1) 600
              (Fixture.store_with_competition
                 (Fixture.competition "COMP_1_0001" "upcoming" "specific"
                    (Some ["jdoe"; "msmith"]))) _ _ eq_refl)
    as [_ [_ [_ [competition [updated [Hfind [Hfind' [_ [_ [_ [_ [_ [_ [_ [Hstatus _]]]]]]]]]]]]]]].
  injection Hfind as <-.
  eexists _, _, updated. split; [reflexivity |]. split; [exact Hfind' | exact Hstatus].
Defined.

Lemma delete_competition_any_organization_witness :
  (exists db' response,
     delete_competition Sample.competition_permission "COMP_1_0001" Fixture.outsider 600
       (Fixture.store_with_competition (Fixture.competition "COMP_1_0001" "active" "all" None))
     = (db', Return response)
     /\ option_map c_is_active
          (Mongo.find_one (by_competition_id "COMP_1_0001") (competitions db'))
        = Some false)
  /\ update_competition Sample.competition_permission "COMP_1_0001"
       (Fixture.participants_only []) Fixture.outsider 600
       (Fixture.store_with_competition (Fixture.competition "COMP_1_0001" "active" "all" None))
     = (Fixture.store_with_competition (Fixture.competition "COMP_1_0001" "active" "all" None),
        Raise (HTTPException HTTP_403_FORBIDDEN
                 "You can only update competitions in your organization")).
Proof.
  destruct (delete_competition_any_organization Sample.competition_permission "COMP_1_0001"
              Fixture.outsider 600
              (Fixture.store_with_competition
                 (Fixture.competition "COMP_1_0001" "active" "all" None))
              (Fixture.competition "COMP_1_0001" "active" "all" None) eq_refl eq_refl)
    as [[db' [response [Hrun [Hfind _]]]] Hupdate].
  split.
  - exists db', response. split; [exact Hrun |]. now rewrite Hfind.
  - exact (Hupdate eq_refl eq_refl (Fixture.participants_only [])).
Defined.
